(** * ghinbox: headless login automation and its session state machine

    A shallow embedding of [ghinbox/api/login_fetcher.py] (page-state
    classification, credential and second-factor submission, the mobile
    approval poller) and of [ghinbox/api/login_routes.py] (the request
    handlers that drive a login session), together with the properties the
    specification states about them.

    Conventions of the embedding:
    - Python [str] values are Rocq strings read as ASCII text.
    - An exception is carried as its message text ([str(e)]).
    - The browser, the remote site and the event-loop clock are one abstract
      [world]; reading the page (count, text, attributes, content) is a
      function of the current world, and the world only changes when the
      program awaits an action (fill, click, navigation, waits, screenshot)
      or sleeps.
    - Instants and durations are exact rationals.
    - Log statements have no effect on results and are left out. *)

From Stdlib Require Import String Ascii List ZArith QArith Qround Lqa Lia Bool DecimalString.
From stdpp Require Import base option gmap strings.

Import ListNotations.
Local Open Scope string_scope.

(** ** Python string operations *)

Module PyStr.

Definition is_digit (c : ascii) : bool :=
  let n := nat_of_ascii c in (48 <=? n)%nat && (n <=? 57)%nat.

Definition is_alpha (c : ascii) : bool :=
  let n := nat_of_ascii c in
  ((65 <=? n)%nat && (n <=? 90)%nat) || ((97 <=? n)%nat && (n <=? 122)%nat).

(** [\w] of the [re] module on ASCII text: letters, digits, underscore. *)
Definition is_word (c : ascii) : bool :=
  is_alpha c || is_digit c || (nat_of_ascii c =? 95)%nat.

(** [str.isspace] on ASCII text: TAB..CR, FS..US and the blank. *)
Definition is_space (c : ascii) : bool :=
  let n := nat_of_ascii c in
  ((9 <=? n)%nat && (n <=? 13)%nat) || ((28 <=? n)%nat && (n <=? 32)%nat).

Definition lower_char (c : ascii) : ascii :=
  let n := nat_of_ascii c in
  if ((65 <=? n)%nat && (n <=? 90)%nat)%bool then ascii_of_nat (n + 32) else c.

(** [s.lower()] *)
Fixpoint lower (s : string) : string :=
  match s with
  | EmptyString => EmptyString
  | String c r => String (lower_char c) (lower r)
  end.

(** [s.startswith(p)] *)
Fixpoint startswith (p s : string) : bool :=
  match p, s with
  | EmptyString, _ => true
  | String a p', String b s' => Ascii.eqb a b && startswith p' s'
  | String _ _, EmptyString => false
  end.

(** [needle in s] *)
Fixpoint contains (needle s : string) : bool :=
  startswith needle s ||
  match s with
  | EmptyString => false
  | String _ r => contains needle r
  end.

(** ["".join(c for c in s if c.isdigit())] *)
Fixpoint digits_of (s : string) : string :=
  match s with
  | EmptyString => EmptyString
  | String c r => if is_digit c then String c (digits_of r) else digits_of r
  end.

Fixpoint lstrip (s : string) : string :=
  match s with
  | EmptyString => EmptyString
  | String c r => if is_space c then lstrip r else s
  end.

Fixpoint rev_onto (s acc : string) : string :=
  match s with
  | EmptyString => acc
  | String c r => rev_onto r (String c acc)
  end.

Definition rev (s : string) : string := rev_onto s EmptyString.

(** [s.strip()] *)
Definition strip (s : string) : string := rev (lstrip (rev (lstrip s))).

(** Truth value of a [str]. *)
Definition truthy (s : string) : bool :=
  match s with EmptyString => false | String _ _ => true end.

(** Truth value of a [str | None]. *)
Definition truthy_opt (o : option string) : bool :=
  match o with Some s => truthy s | None => false end.

(** [o or d] for [o : str | None]. *)
Definition or_else (o : option string) (d : string) : string :=
  match o with
  | Some (String c r) => String c r
  | _ => d
  end.

(** [s[1:]] *)
Definition drop1 (s : string) : string :=
  match s with EmptyString => EmptyString | String _ r => r end.

(** [str(n)] for an [int]. *)
Definition of_int (n : Z) : string := NilZero.string_of_int (Z.to_int n).

(** [os.path.join(a, b)] on POSIX paths. *)
Definition path_join (a b : string) : string :=
  if startswith "/" b then b
  else match a with
       | EmptyString => b
       | _ => if startswith "/" (rev a) then a ++ b else a ++ "/" ++ b
       end.

(** The scan of [re.findall(r"\b(\d{2})\b", s)] for its first match.
    [prev_word] tells whether the character before the current position is
    a word character (false at the start of the text).  A match needs a
    word boundary on both sides of two digits; the scan restarts one
    character further when there is none here. *)
Fixpoint first_two_digit_from (prev_word : bool) (s : string) : option string :=
  match s with
  | EmptyString => None
  | String a r =>
      let here :=
        match r with
        | String b t =>
            is_digit a && is_digit b && negb prev_word &&
            match t with
            | EmptyString => true
            | String c _ => negb (is_word c)
            end
        | EmptyString => false
        end in
      if here
      then match r with
           | String b _ => Some (String a (String b EmptyString))
           | EmptyString => None
           end
      else first_two_digit_from (is_word a) r
  end.

Definition first_two_digit_token (s : string) : option string :=
  first_two_digit_from false s.

End PyStr.

(** ** Results of page-state detection ([login_fetcher.py]) *)

Inductive PageState :=
| LOGIN_FORM
| TWOFA_APP
| TWOFA_SMS
| TWOFA_MOBILE
| TWOFA_SECURITY_KEY
| LOGGED_IN
| LOGIN_ERROR
| CAPTCHA
| UNKNOWN.

#[global] Instance PageState_eq_dec : EqDecision PageState.
Proof. solve_decision. Defined.

(** [PageState.value] *)
Definition PageState_value (s : PageState) : string :=
  match s with
  | LOGIN_FORM => "login_form"
  | TWOFA_APP => "twofa_app"
  | TWOFA_SMS => "twofa_sms"
  | TWOFA_MOBILE => "twofa_mobile"
  | TWOFA_SECURITY_KEY => "twofa_security_key"
  | LOGGED_IN => "logged_in"
  | LOGIN_ERROR => "login_error"
  | CAPTCHA => "captcha"
  | UNKNOWN => "unknown"
  end.

Record PageStateResult := mkPageStateResult {
  state : PageState;
  error_message : option string;
  twofa_method : option string;
  verification_code : option string
}.

(** [PageStateResult(state=s)] with the dataclass defaults. *)
Definition result_of (s : PageState) : PageStateResult :=
  mkPageStateResult s None None None.

(** ** The automation runtime

    What the program asks of Playwright, asyncio and the credential store,
    kept abstract: every theorem below holds for any behaviour of the
    browser and of the remote site. *)

(** Outcome of an awaited call: a value, or an exception with its text. *)
Inductive res (A : Type) :=
| Ok (a : A)
| Raise (e : string).
Arguments Ok {A} a.
Arguments Raise {A} e.

(** The awaited calls that act on the world. *)
Inductive action :=
| Goto (url : string) (wait_until : option string)
| WaitForSelector (selector : string) (timeout : Z)
| WaitForLoadState (load_state : string) (timeout : option Z)
| Fill (selector value : string)
| Click (selector : string)
| Screenshot (path : string)
| SaveUsername (account username : string)
| Mkdir (path : string)
| StorageState (path : string)
| ClosePage
| CloseContext
| CloseBrowser
| StopPlaywright.

Class Runtime := {
  world : Type;
  (** [page.url] *)
  page_url : world -> string;
  (** [page.locator(sel).count()] *)
  count : world -> string -> res nat;
  (** [page.locator(sel).first.text_content()] *)
  text_content : world -> string -> res (option string);
  (** [page.locator(sel).first.get_attribute(name)] *)
  get_attribute : world -> string -> string -> res (option string);
  (** [page.locator(sel).first.inner_html()] *)
  inner_html : world -> string -> res string;
  (** [page.content()] *)
  content : world -> res string;
  (** [page.title()] *)
  title : world -> res string;
  (** an awaited action: its outcome and the world it leaves *)
  act : action -> world -> res unit * world;
  (** [asyncio.sleep(d)] *)
  sleep : Q -> world -> world;
  (** [asyncio.get_event_loop().time()] *)
  loop_time : world -> Q;
  (** how many nested calls of [detect_page_state] the interpreter allows
      before it raises [RecursionError] *)
  recursion_limit : nat;
  (** [tempfile.gettempdir()] *)
  gettempdir : string;
  (** [ghinbox.auth.AUTH_STATE_DIR] and [ghinbox.auth.get_auth_state_path] *)
  AUTH_STATE_DIR : string;
  get_auth_state_path : string -> string
}.

(** Time does not run backwards, and a sleep lasts at least as long as asked. *)
Class RealTime (R : Runtime) : Prop := {
  act_time : forall a w, (loop_time w <= loop_time (snd (act a w)))%Q;
  sleep_time : forall d w, (loop_time w + d <= loop_time (sleep d w))%Q
}.

Section Fetcher.

Context {R : Runtime}.

(** The [LoginFetcher] object.  Each attribute is either [None] or a live
    handle, so a flag records which; [driven] is the world behind the
    handles, and [issued] is the list of actions the object has awaited so
    far, latest first (a ghost field, used to tell what was and was not
    attempted). *)
Record LoginFetcher := mkLoginFetcher {
  _playwright : bool;
  _browser : bool;
  _context : bool;
  _page : bool;
  driven : world;
  issued : list action
}.

(** [LoginFetcher.__init__] *)
Definition init (w : world) : LoginFetcher :=
  mkLoginFetcher false false false false w [].

(** *** Methods as state transformers that may raise *)

Definition M (A : Type) : Type := LoginFetcher -> res A * LoginFetcher.

Definition ret {A} (a : A) : M A := fun self => (Ok a, self).

Definition raise {A} (e : string) : M A := fun self => (Raise e, self).

Definition bind {A B} (m : M A) (k : A -> M B) : M B :=
  fun self =>
    match m self with
    | (Ok a, self') => k a self'
    | (Raise e, self') => (Raise e, self')
    end.

(** [try: body  except Exception as e: handler e] *)
Definition try_except {A} (body : M A) (handler : string -> M A) : M A :=
  fun self =>
    match body self with
    | (Ok a, self') => (Ok a, self')
    | (Raise e, self') => handler e self'
    end.

Definition get_self : M LoginFetcher := fun self => (Ok self, self).

(** A read of the page. *)
Definition probe {A} (read : world -> res A) : M A :=
  fun self => (read (driven self), self).

(** An awaited action. *)
Definition await (a : action) : M unit :=
  fun self =>
    let (r, w) := act a (driven self) in
    (r, mkLoginFetcher (_playwright self) (_browser self) (_context self)
          (_page self) w (a :: issued self)).

(** [await asyncio.sleep(d)] *)
Definition asyncio_sleep (d : Q) : M unit :=
  fun self =>
    (Ok tt, mkLoginFetcher (_playwright self) (_browser self) (_context self)
              (_page self) (sleep d (driven self)) (issued self)).

(** Assignments to the attributes. *)
Definition set_playwright (b : bool) : M unit :=
  fun self => (Ok tt, mkLoginFetcher b (_browser self) (_context self)
                        (_page self) (driven self) (issued self)).
Definition set_browser (b : bool) : M unit :=
  fun self => (Ok tt, mkLoginFetcher (_playwright self) b (_context self)
                        (_page self) (driven self) (issued self)).
Definition set_context (b : bool) : M unit :=
  fun self => (Ok tt, mkLoginFetcher (_playwright self) (_browser self) b
                        (_page self) (driven self) (issued self)).
Definition set_page (b : bool) : M unit :=
  fun self => (Ok tt, mkLoginFetcher (_playwright self) (_browser self)
                        (_context self) b (driven self) (issued self)).

End Fetcher.

Declare Scope py_scope.
Delimit Scope py_scope with py.
Notation "x <- m ;; k" := (bind m (fun x => k))
  (at level 100, m at next level, right associativity) : py_scope.
Notation "m ;;; k" := (bind m (fun _ => k))
  (at level 100, right associativity) : py_scope.
Local Open Scope py_scope.

(** ** Selectors and fixed messages of [login_fetcher.py] *)

Module Sel.

(** The double-quote character, for selectors that contain it. *)
Definition dq : string := String (ascii_of_nat 34) EmptyString.

Definition user_menu : string :=
  "button[aria-label=" ++ dq ++ "Open user navigation menu" ++ dq ++ "]".

Definition captcha_indicators : list string :=
  [ "iframe[src*=" ++ dq ++ "captcha" ++ dq ++ "]";
    "iframe[src*=" ++ dq ++ "recaptcha" ++ dq ++ "]";
    "div[class*=" ++ dq ++ "captcha" ++ dq ++ "]";
    "#captcha-container" ].

Definition code_selectors : list string :=
  [ ".js-verification-code";
    "[data-target='device-verification.number']";
    ".verification-code";
    ".auth-form-body strong";
    ".Box-body strong";
    "div.text-center strong";
    ".flash strong" ].

Definition mobile_indicators : list string :=
  [ "[data-target='sudo-credential-options.mobileOption']";
    "button[data-action*='mobile']";
    ".js-mobile-credential-option" ].

Definition mobile_link : string := "a[href*='two-factor/mobile']".

Definition security_key_btn : string :=
  "button[data-action=" ++ dq ++ "click:webauthn-get#start" ++ dq ++ "]".

Definition app_otp : string := "input[name=" ++ dq ++ "app_otp" ++ dq ++ "]".
Definition app_totp : string := "input[id=" ++ dq ++ "app_totp" ++ dq ++ "]".
Definition sms_otp : string := "input[name=" ++ dq ++ "sms_otp" ++ dq ++ "]".
Definition generic_otp : string :=
  "input[type=" ++ dq ++ "text" ++ dq ++ "][autocomplete=" ++ dq ++ "one-time-code" ++ dq ++ "]".

(** The authenticator-app probe of [detect_page_state]: one selector list. *)
Definition otp_input : string := app_otp ++ ", " ++ app_totp.

(** The inputs [submit_2fa_code] looks for, in its order. *)
Definition otp_selectors : list string := [ app_otp; app_totp; sms_otp; generic_otp ].

Definition flash_error : string := ".flash-error".

Definition error_selectors : list string :=
  [ ".js-flash-alert"; "#js-flash-container .flash" ].

Definition login_input : string :=
  "input[name=" ++ dq ++ "login" ++ dq ++ "], input#login_field".
Definition password_input : string :=
  "input[name=" ++ dq ++ "password" ++ dq ++ "], input#password".

Definition credentials_submit : string :=
  "input[type=" ++ dq ++ "submit" ++ dq ++ "][value=" ++ dq ++ "Sign in" ++ dq
    ++ "], button[type=" ++ dq ++ "submit" ++ dq ++ "]".
Definition twofa_submit : string :=
  "button[type=" ++ dq ++ "submit" ++ dq ++ "], input[type=" ++ dq ++ "submit" ++ dq ++ "]".

Definition body : string := "body".

Definition meta_user_login : string :=
  "meta[name=" ++ dq ++ "user-login" ++ dq ++ "]".
Definition profile_link : string :=
  "a[href^=" ++ dq ++ "/" ++ dq ++ "]:has-text(" ++ dq ++ "Your profile" ++ dq ++ ")".

(** [outer.locator(inner)] *)
Definition within (outer inner : string) : string := outer ++ " >> " ++ inner.

End Sel.

Module Msg.
Definition captcha : string :=
  "CAPTCHA required. Use --headed-login flag to login manually.".
Definition security_key : string :=
  "Security key 2FA not supported. Please configure authenticator app in GitHub settings.".
Definition browser_not_started : string := "Browser not started".
Definition no_2fa_input : string := "Could not find 2FA input field".
Definition mobile_timeout (timeout_seconds : Z) : string :=
  "Mobile approval timed out after " ++ PyStr.of_int timeout_seconds
    ++ " seconds. Please try again.".
Definition recursion_error : string := "maximum recursion depth exceeded".
End Msg.

(** ** The methods of [LoginFetcher] *)

Module Fetcher.
Section Methods.

Context {R : Runtime}.

(** A [for selector in sels] loop that leaves at the first selector whose
    locator counts at least one element; [None] when the loop runs out. *)
Fixpoint first_present (sels : list string) : M (option string) :=
  match sels with
  | [] => ret None
  | selector :: rest =>
      n <- probe (fun w => count w selector);;
      if (0 <? n)%nat then ret (Some selector) else first_present rest
  end.

(** [close] *)
Definition close : M unit :=
  self <- get_self;;
  (if _page self
   then try_except (await ClosePage) (fun _ => ret tt);;; set_page false
   else ret tt);;;
  self <- get_self;;
  (if _context self
   then try_except (await CloseContext) (fun _ => ret tt);;; set_context false
   else ret tt);;;
  self <- get_self;;
  (if _browser self
   then try_except (await CloseBrowser) (fun _ => ret tt);;; set_browser false
   else ret tt);;;
  self <- get_self;;
  (if _playwright self
   then try_except (await StopPlaywright) (fun _ => ret tt);;; set_playwright false
   else ret tt).

(** [save_debug_screenshot] *)
Definition save_debug_screenshot (name : string) : M (option string) :=
  self <- get_self;;
  if negb (_page self) then ret None
  else
    try_except
      (let screenshot_path :=
         PyStr.path_join gettempdir ("ghinbox_login_" ++ name ++ ".png") in
       await (Screenshot screenshot_path);;;
       ret (Some screenshot_path))
      (fun _ => ret None).

(** The selector loop of [_extract_mobile_verification_code]: [Some digits]
    when the loop returns, [None] when it runs out. *)
Fixpoint scan_code_selectors (sels : list string) : M (option string) :=
  match sels with
  | [] => ret None
  | selector :: rest =>
      n <- probe (fun w => count w selector);;
      found <-
        (if (0 <? n)%nat then
           text <- probe (fun w => text_content w selector);;
           match text with
           | Some t =>
               if PyStr.truthy t then
                 let digits := PyStr.digits_of t in
                 if (2 <=? String.length digits)%nat then ret (Some digits) else ret None
               else ret None
           | None => ret None
           end
         else ret None);;
      match found with
      | Some digits => ret (Some digits)
      | None => scan_code_selectors rest
      end
  end.

(** [_extract_mobile_verification_code] *)
Definition _extract_mobile_verification_code : M (option string) :=
  try_except
    (found <- scan_code_selectors Sel.code_selectors;;
     match found with
     | Some digits => ret (Some digits)
     | None =>
         text <- probe (fun w => text_content w Sel.body);;
         let body_text := PyStr.or_else text EmptyString in
         match PyStr.first_two_digit_token body_text with
         | Some m => ret (Some m)
         | None => ret None
         end
     end)
    (fun _ => ret None).

(** The loop over [error_selectors] in [detect_page_state]: the stripped text
    of the first alternate banner that has some. *)
Fixpoint scan_error_selectors (sels : list string) : M (option string) :=
  match sels with
  | [] => ret None
  | selector :: rest =>
      n <- probe (fun w => count w selector);;
      found <-
        (if (0 <? n)%nat then
           error_text <- probe (fun w => text_content w selector);;
           match error_text with
           | Some t =>
               if PyStr.truthy t && PyStr.truthy (PyStr.strip t)
               then ret (Some (PyStr.strip t)) else ret None
           | None => ret None
           end
         else ret None);;
      match found with
      | Some msg => ret (Some msg)
      | None => scan_error_selectors rest
      end
  end.

Definition security_key_result : PageStateResult :=
  mkPageStateResult TWOFA_SECURITY_KEY (Some Msg.security_key) (Some "security_key") None.

(** The last checks of [detect_page_state], from the error banners on. *)
Definition detect_errors_and_form : M PageStateResult :=
  flash_error_count <- probe (fun w => count w Sel.flash_error);;
  banner <-
    (if (0 <? flash_error_count)%nat then
       error_text <- probe (fun w => text_content w Sel.flash_error);;
       let error_msg := PyStr.strip (PyStr.or_else error_text EmptyString) in
       if PyStr.truthy error_msg then
         probe (fun w => inner_html w Sel.flash_error);;;
         save_debug_screenshot "login_error";;;
         ret (Some error_msg)
       else ret None
     else ret None);;
  match banner with
  | Some error_msg => ret (mkPageStateResult LOGIN_ERROR (Some error_msg) None None)
  | None =>
      alt <- scan_error_selectors Sel.error_selectors;;
      match alt with
      | Some msg => ret (mkPageStateResult LOGIN_ERROR (Some msg) None None)
      | None =>
          login_count <- probe (fun w => count w Sel.login_input);;
          password_count <- probe (fun w => count w Sel.password_input);;
          if (0 <? login_count)%nat && (0 <? password_count)%nat
          then ret (result_of LOGIN_FORM)
          else
            probe title;;;
            probe (fun w => text_content w Sel.body);;;
            save_debug_screenshot "unknown_state";;;
            ret (result_of UNKNOWN)
      end
  end.

(** The second-factor input checks of [detect_page_state]. *)
Definition detect_otp_inputs : M PageStateResult :=
  otp_input_count <- probe (fun w => count w Sel.otp_input);;
  if (0 <? otp_input_count)%nat
  then ret (mkPageStateResult TWOFA_APP None (Some "app") None)
  else
    html <- probe content;;
    let page_text := PyStr.lower html in
    let has_2fa_text :=
      PyStr.contains "two-factor" page_text || PyStr.contains "authentication code" page_text in
    if has_2fa_text then
      sms_count <- probe (fun w => count w Sel.sms_otp);;
      if (0 <? sms_count)%nat
      then ret (mkPageStateResult TWOFA_SMS None (Some "sms") None)
      else
        generic_otp_count <- probe (fun w => count w Sel.generic_otp);;
        if (0 <? generic_otp_count)%nat
        then ret (mkPageStateResult TWOFA_APP None (Some "app") None)
        else detect_errors_and_form
    else detect_errors_and_form.

(** The security-key checks of [detect_page_state]; [again] stands for the
    call [self.detect_page_state()] made after moving to the mobile page. *)
Definition detect_security_key (again : M PageStateResult) (current_url : string)
  : M PageStateResult :=
  let by_button :=
    security_key_count <- probe (fun w => count w Sel.security_key_btn);;
    if (0 <? security_key_count)%nat then ret security_key_result
    else detect_otp_inputs in
  if PyStr.contains "two-factor/webauthn" current_url
     || PyStr.contains "two-factor/security" current_url
  then
    let unsupported :=
      save_debug_screenshot "security_key_2fa";;; ret security_key_result in
    mobile_link_count <- probe (fun w => count w Sel.mobile_link);;
    if (0 <? mobile_link_count)%nat then
      href <- probe (fun w => get_attribute w Sel.mobile_link "href");;
      match href with
      | Some h =>
          if PyStr.truthy h then
            let target :=
              if PyStr.startswith "/" h then "https://github.com" ++ h else h in
            await (Goto target (Some "domcontentloaded"));;;
            asyncio_sleep (1 # 2);;;
            again
          else unsupported
      | None => unsupported
      end
    else unsupported
  else by_button.

(** One activation of [detect_page_state]. *)
Definition detect_page_state_body (again : M PageStateResult) : M PageStateResult :=
  self <- get_self;;
  if negb (_page self) then ret (result_of UNKNOWN)
  else
    let current_url := page_url (driven self) in
    try_except
      (user_menu_count <- probe (fun w => count w Sel.user_menu);;
       if (0 <? user_menu_count)%nat then ret (result_of LOGGED_IN)
       else
         captcha <- first_present Sel.captcha_indicators;;
         match captcha with
         | Some _ => ret (mkPageStateResult CAPTCHA (Some Msg.captcha) None None)
         | None =>
             if PyStr.contains "two-factor/mobile" current_url then
               verification_code <- _extract_mobile_verification_code;;
               ret (mkPageStateResult TWOFA_MOBILE None (Some "mobile") verification_code)
             else
               mobile <- first_present Sel.mobile_indicators;;
               match mobile with
               | Some _ => ret (mkPageStateResult TWOFA_MOBILE None (Some "mobile") None)
               | None => detect_security_key again current_url
               end
         end)
      (fun e =>
         ret (mkPageStateResult UNKNOWN (Some ("Error detecting page state: " ++ e)) None None)).

(** [detect_page_state], with [depth] nested activations still allowed: the
    call that would exceed the interpreter's limit raises [RecursionError]
    inside the caller's [try]. *)
Fixpoint detect_page_state_at (depth : nat) : M PageStateResult :=
  detect_page_state_body
    match depth with
    | O => raise Msg.recursion_error
    | S d => detect_page_state_at d
    end.

Definition detect_page_state : M PageStateResult :=
  detect_page_state_at recursion_limit.

(** [submit_credentials] *)
Definition submit_credentials (username password : string) : M PageStateResult :=
  self <- get_self;;
  if negb (_page self)
  then ret (mkPageStateResult UNKNOWN (Some Msg.browser_not_started) None None)
  else
    try_except
      (await (WaitForSelector Sel.login_input 10000);;;
       await (Fill Sel.login_input username);;;
       await (Fill Sel.password_input password);;;
       await (Click Sel.credentials_submit);;;
       await (WaitForLoadState "domcontentloaded" (Some 30000%Z));;;
       asyncio_sleep (1 # 2);;;
       result <- detect_page_state;;
       ret result)
      (fun e =>
         ret (mkPageStateResult UNKNOWN (Some ("Error submitting credentials: " ++ e)) None None)).

(** [submit_2fa_code] *)
Definition submit_2fa_code (code : string) : M PageStateResult :=
  self <- get_self;;
  if negb (_page self)
  then ret (mkPageStateResult UNKNOWN (Some Msg.browser_not_started) None None)
  else
    try_except
      (otp_input <- first_present Sel.otp_selectors;;
       match otp_input with
       | None => ret (mkPageStateResult UNKNOWN (Some Msg.no_2fa_input) None None)
       | Some found_selector =>
           await (Fill found_selector code);;;
           await (Click Sel.twofa_submit);;;
           await (WaitForLoadState "domcontentloaded" (Some 30000%Z));;;
           asyncio_sleep (1 # 2);;;
           result <- detect_page_state;;
           ret result
       end)
      (fun e =>
         ret (mkPageStateResult UNKNOWN (Some ("Error submitting 2FA code: " ++ e)) None None)).

(** What [wait_for_mobile_approval] returns when the time is up. *)
Definition mobile_timeout_result (timeout_seconds : Z) : PageStateResult :=
  mkPageStateResult TWOFA_MOBILE (Some (Msg.mobile_timeout timeout_seconds))
    (Some "mobile") None.

(** [elapsed > timeout_seconds] *)
Definition timed_out (elapsed : Q) (timeout_seconds : Z) : bool :=
  negb (Qle_bool elapsed (inject_Z timeout_seconds)).

(** One turn of the [while True] loop of [wait_for_mobile_approval]:
    [Some r] when the turn executes [return r], [None] when it reaches the
    end of the loop body. *)
Definition poll_once (start_time : Q) (timeout_seconds : Z) (poll_interval : Q)
  : M (option PageStateResult) :=
  self <- get_self;;
  let elapsed := (loop_time (driven self) - start_time)%Q in
  if timed_out elapsed timeout_seconds then
    save_debug_screenshot "mobile_2fa_timeout";;;
    ret (Some (mobile_timeout_result timeout_seconds))
  else
    result <- detect_page_state;;
    if decide (state result = LOGGED_IN) then ret (Some result)
    else if decide (state result = LOGIN_ERROR) then ret (Some result)
    else if negb (bool_decide (state result = TWOFA_MOBILE)
                  || bool_decide (state result = UNKNOWN)) then ret (Some result)
    else
      asyncio_sleep poll_interval;;;
      ret None.

(** The [while True] loop, run for at most [turns] turns: the outer [None]
    means that the loop is still running after that many turns. *)
Fixpoint poll_loop (turns : nat) (start_time : Q) (timeout_seconds : Z)
    (poll_interval : Q) (self : LoginFetcher)
  : option (res PageStateResult * LoginFetcher) :=
  match turns with
  | O => None
  | S n =>
      match poll_once start_time timeout_seconds poll_interval self with
      | (Ok (Some r), self') => Some (Ok r, self')
      | (Ok None, self') => poll_loop n start_time timeout_seconds poll_interval self'
      | (Raise e, self') => Some (Raise e, self')
      end
  end.

(** [wait_for_mobile_approval] *)
Definition wait_for_mobile_approval (turns : nat) (timeout_seconds : Z)
    (poll_interval : Q) (self : LoginFetcher)
  : option (res PageStateResult * LoginFetcher) :=
  if negb (_page self)
  then Some (Ok (mkPageStateResult UNKNOWN (Some Msg.browser_not_started) None None), self)
  else
    let start_time := loop_time (driven self) in
    poll_loop turns start_time timeout_seconds poll_interval self.

(** [extract_username_async] *)
Definition extract_username_async : M (option string) :=
  user_button_count <- probe (fun w => count w Sel.user_menu);;
  from_menu <-
    (if (0 <? user_button_count)%nat then
       let img := Sel.within Sel.user_menu "img" in
       img_count <- probe (fun w => count w img);;
       if (0 <? img_count)%nat then
         alt <- probe (fun w => get_attribute w img "alt");;
         match alt with
         | Some a =>
             if PyStr.truthy a && PyStr.startswith "@" a
             then ret (Some (PyStr.drop1 a)) else ret None
         | None => ret None
         end
       else ret None
     else ret None);;
  match from_menu with
  | Some name => ret (Some name)
  | None =>
      await (Goto "https://github.com/settings/profile" None);;;
      await (WaitForLoadState "domcontentloaded" None);;;
      meta_count <- probe (fun w => count w Sel.meta_user_login);;
      from_meta <-
        (if (0 <? meta_count)%nat then
           c <- probe (fun w => get_attribute w Sel.meta_user_login "content");;
           if PyStr.truthy_opt c then ret c else ret None
         else ret None);;
      match from_meta with
      | Some name => ret (Some name)
      | None =>
          profile_link_count <- probe (fun w => count w Sel.profile_link);;
          if (0 <? profile_link_count)%nat then
            href <- probe (fun w => get_attribute w Sel.profile_link "href");;
            match href with
            | Some h =>
                if PyStr.truthy h && PyStr.startswith "/" h
                then ret (Some (PyStr.drop1 h)) else ret None
            | None => ret None
            end
          else ret None
      end
  end.

(** [save_auth_state] *)
Definition save_auth_state (account : string) : M (bool * option string) :=
  self <- get_self;;
  if negb (_context self) || negb (_page self) then ret (false, None)
  else
    try_except
      (await (Goto "https://github.com" (Some "domcontentloaded"));;;
       asyncio_sleep (1 # 2);;;
       username <- extract_username_async;;
       (match username with
        | Some u => if PyStr.truthy u then await (SaveUsername account u) else ret tt
        | None => ret tt
        end);;;
       await (Mkdir AUTH_STATE_DIR);;;
       let auth_path := get_auth_state_path account in
       await (StorageState auth_path);;;
       ret (true, username))
      (fun _ => ret (false, None)).

End Methods.
End Fetcher.

(** ** The session registry ([ghinbox/api/login_state.py])

    The handlers of [login_routes.py] import the registry from
    [ghinbox.api.login_state]; they use its [LoginState] members, the
    attributes of a session and the manager's [get_session], [get_fetcher],
    [update_state] and [remove_session]. *)

Module LoginState.

Inductive t :=
| INITIALIZED
| SUBMITTING_CREDENTIALS
| WAITING_2FA
| WAITING_MOBILE
| SUBMITTING_2FA
| SUCCESS
| ERROR
| CAPTCHA.

#[global] Instance eq_dec : EqDecision t.
Proof. solve_decision. Defined.

(** Modelled from the spec: [LoginState.value], whose text is in the
    missing [login_state.py]; the member names in lower case. *)
Definition value (s : t) : string :=
  match s with
  | INITIALIZED => "initialized"
  | SUBMITTING_CREDENTIALS => "submitting_credentials"
  | WAITING_2FA => "waiting_2fa"
  | WAITING_MOBILE => "waiting_mobile"
  | SUBMITTING_2FA => "submitting_2fa"
  | SUCCESS => "success"
  | ERROR => "error"
  | CAPTCHA => "captcha"
  end.

End LoginState.

Module Registry.
Section Manager.

Context {R : Runtime}.

(** Modelled from the spec: the session record of the missing
    [login_state.py] (spec section 3: id, account, state, createdAt,
    updatedAt, errorMessage, username, twofaMethod, requiresTwoFactor). *)
Record LoginSession := mkLoginSession {
  session_id : string;
  account : string;
  state : LoginState.t;
  created_at : Z;
  updated_at : Z;
  error_message : option string;
  username : option string;
  twofa_method : option string;
  requires_2fa : bool
}.

(** Modelled from the spec: the registry of the missing [login_state.py], a
    mapping from session id to session, and the automation resource each
    session owns. *)
Record SessionManager := mkSessionManager {
  _sessions : gmap string LoginSession;
  _fetchers : gmap string LoginFetcher
}.

(** Modelled from the spec: [get_session] of the missing [login_state.py],
    the lookup of an id in the registry. *)
Definition get_session (sid : string) (m : SessionManager) : option LoginSession :=
  _sessions m !! sid.

(** Modelled from the spec: [get_fetcher] of the missing [login_state.py],
    the resource attached to a session. *)
Definition get_fetcher (sid : string) (m : SessionManager) : option LoginFetcher :=
  _fetchers m !! sid.

(** Modelled from the spec: [set_fetcher] of the missing [login_state.py];
    also how a resource that a handler has driven is seen through the
    registry afterwards (the registry holds the object itself). *)
Definition set_fetcher (sid : string) (f : LoginFetcher) (m : SessionManager)
  : SessionManager :=
  mkSessionManager (_sessions m) (<[sid := f]> (_fetchers m)).

Definition keep (new old : option string) : option string :=
  match new with Some _ => new | None => old end.

(** Modelled from the spec: [update_state] of the missing [login_state.py].
    It replaces the state and the update time of a stored session, records
    the error message and the user name it is given, sets
    [requires_2fa] and [twofa_method] together, and clears both on the
    terminal states (spec section 3); an unknown id changes nothing. *)
Definition update_state (now : Z) (sid : string) (st : LoginState.t)
    (error_message' username' : option string)
    (requires_2fa' : option bool) (twofa_method' : option string)
    (m : SessionManager) : SessionManager :=
  match _sessions m !! sid with
  | None => m
  | Some s =>
      let terminal :=
        bool_decide (st = LoginState.SUCCESS) || bool_decide (st = LoginState.ERROR) in
      let '(req, method) :=
        if terminal then (false, None)
        else match requires_2fa' with
             | Some b => (b, twofa_method')
             | None => (requires_2fa s, twofa_method s)
             end in
      let s' :=
        mkLoginSession (session_id s) (account s) st (created_at s) now
          (keep error_message' (error_message s))
          (keep username' (username s)) method req in
      mkSessionManager (<[sid := s']> (_sessions m)) (_fetchers m)
  end.

(** Modelled from the spec: [remove_session] of the missing
    [login_state.py]; the session and its resource leave the registry. *)
Definition remove_session (sid : string) (m : SessionManager) : SessionManager :=
  mkSessionManager (delete sid (_sessions m)) (delete sid (_fetchers m)).

End Manager.
End Registry.

(** ** The request handlers of [login_routes.py] *)

Module Routes.
Section Handlers.

Context {R : Runtime}.

Abbreviation SessionManager := Registry.SessionManager.
Abbreviation LoginSession := Registry.LoginSession.

Record LoginResponse := mkLoginResponse {
  r_session_id : string;
  status : string;
  message : option string;
  error : option string;
  r_username : option string;
  r_twofa_method : option string;
  r_verification_code : option string
}.

(** What a handler hands back: a response, or the [HTTPException] it raises. *)
Inductive reply :=
| Response (r : LoginResponse)
| HTTPException (status_code : Z) (detail : string).

Definition session_not_found : reply :=
  HTTPException 404 "Session not found or expired".

Definition no_fetcher : reply :=
  HTTPException 500 "No fetcher associated with session".

(** [LoginResponse(session_id=sid, status="error", error=text)] *)
Definition error_response (sid text : string) : reply :=
  Response (mkLoginResponse sid "error" None (Some text) None None None).

(** The [except Exception as e] clause that ends each handler. *)
Definition on_exception (now : Z) (sid during e : string) (m : SessionManager)
  : reply * SessionManager :=
  (error_response sid (during ++ e),
   Registry.update_state now sid LoginState.ERROR (Some e) None None None m).

(** The block the three handlers run on [PageState.LOGGED_IN]: hand the
    session to [save_auth_state], then record success or failure. *)
Definition on_logged_in (now : Z) (sid during : string) (session : LoginSession)
    (fetcher : LoginFetcher) (m : SessionManager) : reply * SessionManager :=
  let '(saved, fetcher) := Fetcher.save_auth_state (Registry.account session) fetcher in
  let m := Registry.set_fetcher sid fetcher m in
  match saved with
  | Raise e => on_exception now sid during e m
  | Ok (true, username) =>
      (Response (mkLoginResponse sid "success" (Some "Login successful") None
                   username None None),
       Registry.update_state now sid LoginState.SUCCESS None username None None m)
  | Ok (false, _) =>
      (error_response sid "Failed to save auth state",
       Registry.update_state now sid LoginState.ERROR (Some "Failed to save auth state")
         None None None m)
  end.

(** [submit_credentials] *)
Definition submit_credentials (now : Z) (sid username password : string)
    (m : SessionManager) : reply * SessionManager :=
  match Registry.get_session sid m with
  | None => (session_not_found, m)
  | Some session =>
      if negb (bool_decide (Registry.state session = LoginState.INITIALIZED)) then
        (HTTPException 400
           ("Invalid session state for credentials: "
              ++ LoginState.value (Registry.state session)),
         m)
      else
        match Registry.get_fetcher sid m with
        | None => (no_fetcher, m)
        | Some fetcher =>
            let m :=
              Registry.update_state now sid LoginState.SUBMITTING_CREDENTIALS
                None None None None m in
            let '(r, fetcher) := Fetcher.submit_credentials username password fetcher in
            let m := Registry.set_fetcher sid fetcher m in
            match r with
            | Raise e => on_exception now sid "Error during login: " e m
            | Ok result =>
                match state result with
                | LOGGED_IN => on_logged_in now sid "Error during login: " session fetcher m
                | TWOFA_MOBILE =>
                    (Response (mkLoginResponse sid "waiting_mobile"
                                 (Some "Approve the login request on your GitHub Mobile app")
                                 None None (Some "mobile") (verification_code result)),
                     Registry.update_state now sid LoginState.WAITING_MOBILE None None
                       (Some true) (Some "mobile") m)
                | TWOFA_APP | TWOFA_SMS =>
                    (Response (mkLoginResponse sid "waiting_2fa" (Some "Enter your 2FA code")
                                 None None (twofa_method result) None),
                     Registry.update_state now sid LoginState.WAITING_2FA None None
                       (Some true) (twofa_method result) m)
                | TWOFA_SECURITY_KEY =>
                    (error_response sid
                       (PyStr.or_else (error_message result)
                          "Security key 2FA not supported. Please configure authenticator app."),
                     Registry.update_state now sid LoginState.ERROR (error_message result)
                       None None None m)
                | CAPTCHA =>
                    (Response (mkLoginResponse sid "captcha" None
                                 (Some (PyStr.or_else (error_message result)
                                          "CAPTCHA required. Use --headed-login flag."))
                                 None None None),
                     Registry.update_state now sid LoginState.CAPTCHA (error_message result)
                       None None None m)
                | LOGIN_ERROR =>
                    (error_response sid (PyStr.or_else (error_message result) "Login failed"),
                     Registry.update_state now sid LoginState.ERROR (error_message result)
                       None None None m)
                | LOGIN_FORM | UNKNOWN =>
                    (error_response sid
                       (PyStr.or_else (error_message result)
                          "Unknown page state after credentials"),
                     Registry.update_state now sid LoginState.ERROR
                       (Some (PyStr.or_else (error_message result) "Unknown page state"))
                       None None None m)
                end
            end
        end
  end.

(** [submit_2fa] *)
Definition submit_2fa (now : Z) (sid code : string) (m : SessionManager)
  : reply * SessionManager :=
  match Registry.get_session sid m with
  | None => (session_not_found, m)
  | Some session =>
      if negb (bool_decide (Registry.state session = LoginState.WAITING_2FA)) then
        (HTTPException 400
           ("Invalid session state for 2FA: " ++ LoginState.value (Registry.state session)),
         m)
      else
        match Registry.get_fetcher sid m with
        | None => (no_fetcher, m)
        | Some fetcher =>
            let m :=
              Registry.update_state now sid LoginState.SUBMITTING_2FA None None None None m in
            let '(r, fetcher) := Fetcher.submit_2fa_code code fetcher in
            let m := Registry.set_fetcher sid fetcher m in
            match r with
            | Raise e => on_exception now sid "Error during 2FA: " e m
            | Ok result =>
                if decide (state result = LOGGED_IN) then
                  on_logged_in now sid "Error during 2FA: " session fetcher m
                else if decide (state result = LOGIN_ERROR) then
                  (Response (mkLoginResponse sid "waiting_2fa" None
                               (Some (PyStr.or_else (error_message result)
                                        "Invalid 2FA code, please try again"))
                               None None None),
                   Registry.update_state now sid LoginState.WAITING_2FA None None None None m)
                else
                  (error_response sid
                     (PyStr.or_else (error_message result) "Unknown state after 2FA submission"),
                   Registry.update_state now sid LoginState.ERROR
                     (Some (PyStr.or_else (error_message result) "Unknown state after 2FA"))
                     None None None m)
            end
        end
  end.

(** [wait_for_mobile_2fa]; [turns] bounds the turns of the poller's loop, and
    [None] means that the poller is still running after that many. *)
Definition wait_for_mobile_2fa (turns : nat) (now : Z) (sid : string)
    (timeout_seconds : Z) (m : SessionManager) : option (reply * SessionManager) :=
  match Registry.get_session sid m with
  | None => Some (session_not_found, m)
  | Some session =>
      if negb (bool_decide (Registry.state session = LoginState.WAITING_MOBILE)) then
        Some (HTTPException 400
                ("Invalid session state for mobile wait: "
                   ++ LoginState.value (Registry.state session)),
              m)
      else
        match Registry.get_fetcher sid m with
        | None => Some (no_fetcher, m)
        | Some fetcher =>
            match Fetcher.wait_for_mobile_approval turns timeout_seconds 2 fetcher with
            | None => None
            | Some (r, fetcher) =>
                let m := Registry.set_fetcher sid fetcher m in
                Some
                  match r with
                  | Raise e => on_exception now sid "Error during mobile 2FA: " e m
                  | Ok result =>
                      if decide (state result = LOGGED_IN) then
                        on_logged_in now sid "Error during mobile 2FA: " session fetcher m
                      else if decide (state result = TWOFA_MOBILE) then
                        (Response (mkLoginResponse sid "waiting_mobile"
                                     (Some "Mobile approval timed out. Try again.")
                                     (error_message result) None (Some "mobile") None),
                         m)
                      else if decide (state result = LOGIN_ERROR) then
                        (error_response sid
                           (PyStr.or_else (error_message result) "Mobile 2FA failed"),
                         Registry.update_state now sid LoginState.ERROR (error_message result)
                           None None None m)
                      else
                        (error_response sid
                           (PyStr.or_else (error_message result)
                              "Unexpected state during mobile wait"),
                         Registry.update_state now sid LoginState.ERROR
                           (Some (PyStr.or_else (error_message result) "Unexpected state"))
                           None None None m)
                  end
            end
        end
  end.

(** [status_map] of [get_login_status] *)
Definition status_map (s : LoginState.t) : string :=
  match s with
  | LoginState.INITIALIZED => "initialized"
  | LoginState.SUBMITTING_CREDENTIALS => "submitting"
  | LoginState.WAITING_2FA => "waiting_2fa"
  | LoginState.WAITING_MOBILE => "waiting_mobile"
  | LoginState.SUBMITTING_2FA => "submitting"
  | LoginState.SUCCESS => "success"
  | LoginState.ERROR => "error"
  | LoginState.CAPTCHA => "captcha"
  end.

(** [get_login_status] *)
Definition get_login_status (sid : string) (m : SessionManager) : reply :=
  match Registry.get_session sid m with
  | None => session_not_found
  | Some session =>
      Response (mkLoginResponse (Registry.session_id session)
                  (status_map (Registry.state session)) None
                  (Registry.error_message session) (Registry.username session)
                  (if Registry.requires_2fa session
                   then Registry.twofa_method session else None)
                  None)
  end.

(** [cancel_login] *)
Definition cancel_login (sid : string) (m : SessionManager) : reply * SessionManager :=
  match Registry.get_session sid m with
  | None => (session_not_found, m)
  | Some session =>
      let m :=
        match Registry.get_fetcher sid m with
        | Some fetcher =>
            let '(_, fetcher) := try_except Fetcher.close (fun _ => ret tt) fetcher in
            Registry.set_fetcher sid fetcher m
        | None => m
        end in
      (Response (mkLoginResponse sid "error" (Some "Session cancelled") None None None None),
       Registry.remove_session sid m)
  end.

End Handlers.
End Routes.

(** ** A fixture runtime

    A scripted page for concrete runs: a fixed document, a list of actions
    that fail, and a clock that only sleeping advances. *)

Module Fixture.

Record page := mkPage {
  url : string;
  (** the elements of the document: a selector that matches, and the text
      of its first match *)
  elements : list (string * string);
  (** attributes of first matches: selector, name, value *)
  attributes : list (string * string * string);
  html : string;
  (** the exception an action raises, if it is scripted to fail *)
  failing : action -> option string;
  clock : Q
}.

Definition count_of (p : page) (selector : string) : nat :=
  length (List.filter (fun e => String.eqb (fst e) selector) (elements p)).

Definition text_of (p : page) (selector : string) : option string :=
  match List.filter (fun e => String.eqb (fst e) selector) (elements p) with
  | e :: _ => Some (snd e)
  | [] => None
  end.

Definition attribute_of (p : page) (selector name : string) : option string :=
  match List.filter
          (fun e => String.eqb (fst (fst e)) selector && String.eqb (snd (fst e)) name)
          (attributes p) with
  | e :: _ => Some (snd e)
  | [] => None
  end.

Definition perform (a : action) (p : page) : res unit * page :=
  match failing p a with
  | Some e => (Raise e, p)
  | None => (Ok tt, p)
  end.

Definition rest (d : Q) (p : page) : page :=
  mkPage (url p) (elements p) (attributes p) (html p) (failing p) (clock p + d).

Definition runtime : Runtime := {|
  world := page;
  page_url := url;
  count := fun p selector => Ok (count_of p selector);
  text_content := fun p selector => Ok (text_of p selector);
  get_attribute := fun p selector name => Ok (attribute_of p selector name);
  inner_html := fun p selector => Ok (PyStr.or_else (text_of p selector) EmptyString);
  content := fun p => Ok (html p);
  title := fun p => Ok "GitHub";
  act := perform;
  sleep := rest;
  loop_time := clock;
  recursion_limit := 1000;
  gettempdir := "/tmp";
  AUTH_STATE_DIR := "auth_state";
  get_auth_state_path := fun account => "auth_state/" ++ account ++ ".json"
|}.

Definition never_fails : action -> option string := fun _ => None.

(** A fetcher that has been started on page [p]. *)
Definition started (p : page) : @LoginFetcher runtime :=
  @mkLoginFetcher runtime true true true true p [].

(** Signed in, with a stray error banner left on the page. *)
Definition signed_in_with_banner : page :=
  mkPage "https://github.com/"
    [ (Sel.user_menu, "octocat"); (Sel.flash_error, "Incorrect username or password.") ]
    [] "<html></html>" never_fails 0.

(** The same document without the user menu. *)
Definition banner_only : page :=
  mkPage "https://github.com/session"
    [ (Sel.flash_error, "Incorrect username or password.") ]
    [] "<html></html>" never_fails 0.

End Fixture.

Module Fixture2FA.

(** The page that asks for an SMS code: only the third selector matches. *)
Definition sms_page : Fixture.page :=
  Fixture.mkPage "https://github.com/sessions/two-factor/sms"
    [ (Sel.sms_otp, EmptyString) ] []
    "<h1>Two-factor authentication</h1>" Fixture.never_fails 0.

End Fixture2FA.

Module FixtureTimeout.

Definition timeout_text : string := "Timeout 10000ms exceeded.".

(** The login input never shows up, although the page is already the
    signed-in home page. *)
Definition no_login_input (a : action) : option string :=
  match a with
  | WaitForSelector _ _ => Some timeout_text
  | _ => None
  end.

Definition already_signed_in : Fixture.page :=
  Fixture.mkPage "https://github.com/"
    [ (Sel.user_menu, "octocat") ] [] "<html></html>" no_login_input 0.

End FixtureTimeout.

Module FixtureMobile.

(** The mobile approval page, with the digits only in the running text. *)
Definition approval_page : Fixture.page :=
  Fixture.mkPage "https://github.com/sessions/two-factor/mobile"
    [ (Sel.body, "Enter 42 on your device") ] []
    "<p>Enter 42 on your device</p>" Fixture.never_fails 0.

(** The same page showing the digits in an element of their own, next to
    an element without digits. *)
Definition approval_page_with_badge : Fixture.page :=
  Fixture.mkPage "https://github.com/sessions/two-factor/mobile"
    [ (".verification-code", "code"); (".auth-form-body strong", " 4 2 ");
      (Sel.body, "Approve sign-in 17 of 20") ] []
    "<p>Approve</p>" Fixture.never_fails 0.

(** No two-digit token anywhere: [7], [123] and [a45] do not count. *)
Definition approval_page_without_code : Fixture.page :=
  Fixture.mkPage "https://github.com/sessions/two-factor/mobile"
    [ (Sel.body, "Step 7 of 123, ref a45") ] []
    "<p>Approve</p>" Fixture.never_fails 0.

End FixtureMobile.

(** ** Fixture sessions *)

Module FixtureSessions.

Definition sid : string := "s1".

Definition session_in (st : LoginState.t) : @Registry.LoginSession :=
  Registry.mkLoginSession sid "acme" st 0 0 None None None false.

(** A registry holding the one session [s1], in state [st], driving page [p]. *)
Definition registry (st : LoginState.t) (p : Fixture.page)
  : @Registry.SessionManager Fixture.runtime :=
  Registry.mkSessionManager {[ sid := session_in st ]} {[ sid := Fixture.started p ]}.

Definition state_of (m : @Registry.SessionManager Fixture.runtime) : option LoginState.t :=
  Registry.state <$> Registry.get_session sid m.

(** The code input is still shown, yet the site has signed the user in, and
    the storage state cannot be written. *)
Definition disk_full (a : action) : option string :=
  match a with
  | StorageState _ => Some "No space left on device"
  | _ => None
  end.

Definition signed_in_unsaved : Fixture.page :=
  Fixture.mkPage "https://github.com/"
    [ (Sel.user_menu, "octocat"); (Sel.app_otp, EmptyString) ] []
    "<html></html>" disk_full 0.

(** A rejected code: the generic code input and the error banner. *)
Definition wrong_code : Fixture.page :=
  Fixture.mkPage "https://github.com/sessions/verify"
    [ (Sel.generic_otp, EmptyString); (Sel.flash_error, " Verification failed. ") ] []
    "<html>Enter the code</html>" Fixture.never_fails 0.

End FixtureSessions.

(** ** Notions used in the statements *)

Section Notions.

Context {R : Runtime}.

Definition browser_not_started : PageStateResult :=
  mkPageStateResult UNKNOWN (Some "Browser not started") None None.

(** All four handles are gone. *)
Definition released (self : LoginFetcher) : Prop :=
  _page self = false /\ _context self = false /\
  _browser self = false /\ _playwright self = false.

(** The relation [rel] holds between the fetcher before and after [m]. *)
Definition steady (rel : LoginFetcher -> LoginFetcher -> Prop) {A} (m : M A) : Prop :=
  forall s, rel s (snd (m s)).

(** The actions awaited so far are never forgotten. *)
Definition log_grows (s s' : LoginFetcher) : Prop :=
  exists later, issued s' = (later ++ issued s)%list.

(** The steps of [submit_credentials] between its two bounded waits. *)
Definition fill_and_click (username password : string) : M unit :=
  await (Fill Sel.login_input username);;;
  await (Fill Sel.password_input password);;;
  await (Click Sel.credentials_submit).

Definition wait_for_login_input : action := WaitForSelector Sel.login_input 10000.

Definition wait_for_load : action := WaitForLoadState "domcontentloaded" (Some 30000%Z).

Definition submit_failure (e : string) : PageStateResult :=
  mkPageStateResult UNKNOWN (Some ("Error submitting credentials: " ++ e)) None None.

(** The pattern matches at index [i] of [s]: two digits there, no word
    character just before (at index 0, [prev_word] tells) and none just
    after. *)
Definition token_at (prev_word : bool) (s : string) (i : nat) : bool :=
  match String.get i s, String.get (S i) s with
  | Some a, Some b =>
      PyStr.is_digit a && PyStr.is_digit b &&
      match i with
      | O => negb prev_word
      | S j =>
          match String.get j s with
          | Some p => negb (PyStr.is_word p)
          | None => false
          end
      end &&
      match String.get (S (S i)) s with
      | Some c => negb (PyStr.is_word c)
      | None => true
      end
  | _, _ => false
  end.

(** [d] is the leftmost match of the pattern in [s]. *)
Definition leftmost_token (prev_word : bool) (s d : string) : Prop :=
  exists i,
    token_at prev_word s i = true /\
    (forall j, (j < i)%nat -> token_at prev_word s j = false) /\
    String.substring i 2 s = d.

(** The digits a selector's text yields: what is left after dropping every
    non-digit, provided at least two digits are left. *)
Definition text_digits (text : option string) : option string :=
  match text with
  | Some t =>
      if (2 <=? String.length (PyStr.digits_of t))%nat then Some (PyStr.digits_of t) else None
  | None => None
  end.

(** The selector matches an element whose text yields the digits [d]. *)
Definition hits (w : world) (selector d : string) : Prop :=
  exists n text,
    count w selector = Ok n /\ (0 < n)%nat /\
    text_content w selector = Ok text /\ text_digits text = Some d.

(** The selector matches nothing, or an element whose text yields no code. *)
Definition misses (w : world) (selector : string) : Prop :=
  count w selector = Ok 0%nat \/
  exists n text,
    count w selector = Ok n /\ (0 < n)%nat /\
    text_content w selector = Ok text /\ text_digits text = None.

(** The states a turn of the loop stays in the loop for. *)
Definition keeps_polling (st : PageState) : bool :=
  bool_decide (st = TWOFA_MOBILE) || bool_decide (st = UNKNOWN).

Definition time_le (s s' : LoginFetcher) : Prop :=
  (loop_time (driven s) <= loop_time (driven s'))%Q.

(** The number of whole poll intervals as a rational. *)
Definition intervals (n : nat) (poll_interval : Q) : Q :=
  inject_Z (Z.of_nat n) * poll_interval.

(** Enough turns for a timeout and a poll interval: every whole interval
    that fits in the timeout, and two more. *)
Definition enough_turns (timeout_seconds : Z) (poll_interval : Q) : nat :=
  S (S (Z.to_nat (Qfloor (inject_Z timeout_seconds / poll_interval)))).

(** What a handler leaves behind: a response, the session in state [st], the
    response tagged with the status of that state, and the fetcher [f]
    still attached. *)
Definition lands (out : Routes.reply * Registry.SessionManager) (sid : string)
    (st : LoginState.t) (f : LoginFetcher) : Prop :=
  exists resp session',
    fst out = Routes.Response resp /\
    Registry.get_session sid (snd out) = Some session' /\
    Registry.state session' = st /\
    Routes.status resp = Routes.status_map st /\
    Registry.get_fetcher sid (snd out) = Some f.

(** The transition table of [submitCredentials] as the specification words
    it, with [persisted] telling whether the hand-off to the persistence
    collaborator succeeded.  The specification is silent on a page still
    showing the login form; the handler treats it like [UNKNOWN]. *)
Definition credentials_transition (st : PageState) (persisted : bool) : LoginState.t :=
  match st with
  | LOGGED_IN => if persisted then LoginState.SUCCESS else LoginState.ERROR
  | TWOFA_APP | TWOFA_SMS => LoginState.WAITING_2FA
  | TWOFA_MOBILE => LoginState.WAITING_MOBILE
  | CAPTCHA => LoginState.CAPTCHA
  | TWOFA_SECURITY_KEY | LOGIN_ERROR | UNKNOWN => LoginState.ERROR
  | LOGIN_FORM => LoginState.ERROR
  end.

(** The transition table of [submitTwoFactor], with [persisted] as above. *)
Definition twofa_transition (st : PageState) (persisted : bool) : LoginState.t :=
  match st with
  | LOGGED_IN => if persisted then LoginState.SUCCESS else LoginState.ERROR
  | LOGIN_ERROR => LoginState.WAITING_2FA
  | _ => LoginState.ERROR
  end.

(** The four operations a caller can trigger on an existing session. *)
Inductive operation :=
| SubmitCredentials (username password : string)
| SubmitTwoFactor (code : string)
| WaitMobile (timeout_seconds : Z)
| Cancel.

(** The state an operation requires of the session, if it requires one. *)
Definition required_state (op : operation) : option LoginState.t :=
  match op with
  | SubmitCredentials _ _ => Some LoginState.INITIALIZED
  | SubmitTwoFactor _ => Some LoginState.WAITING_2FA
  | WaitMobile _ => Some LoginState.WAITING_MOBILE
  | Cancel => None
  end.

(** The handler behind each operation. *)
Definition invoke (turns : nat) (now : Z) (sid : string) (op : operation)
    (m : Registry.SessionManager) : option (Routes.reply * Registry.SessionManager) :=
  match op with
  | SubmitCredentials username password =>
      Some (Routes.submit_credentials now sid username password m)
  | SubmitTwoFactor code => Some (Routes.submit_2fa now sid code m)
  | WaitMobile timeout_seconds => Routes.wait_for_mobile_2fa turns now sid timeout_seconds m
  | Cancel => Some (Routes.cancel_login sid m)
  end.

End Notions.

(** ** Further notions: what a method returns and what it awaits *)

Section Contracts.

Context {R : Runtime}.

(** Every value [m] returns satisfies [P]. *)
Definition yields {A} (P : A -> Prop) (m : M A) : Prop :=
  forall s a s', m s = (Ok a, s') -> P a.

(** [m] returns on every fetcher: no exception leaves it. *)
Definition never_raises {A} (m : M A) : Prop :=
  forall s, exists a, fst (m s) = Ok a.

(** Every action [m] awaits satisfies [P], and none already awaited is
    forgotten. *)
Definition issues_only (P : action -> Prop) {A} (m : M A) : Prop :=
  forall s, exists later,
    issued (snd (m s)) = (later ++ issued s)%list /\ Forall P later.

(** Actions that only look or move: a screenshot, a navigation. *)
Definition observing (a : action) : Prop :=
  match a with
  | Screenshot _ | Goto _ _ => True
  | _ => False
  end.

(** All characters of [s] are digits. *)
Fixpoint all_digits (s : string) : bool :=
  match s with
  | EmptyString => true
  | String c r => PyStr.is_digit c && all_digits r
  end.

(** A verification code, when there is one: digits only, at least two. *)
Definition code_ok (code : option string) : Prop :=
  match code with
  | None => True
  | Some d => all_digits d = true /\ (2 <= String.length d)%nat
  end.

(** The fields a classification carries, state by state. *)
Definition well_formed (r : PageStateResult) : Prop :=
  match state r with
  | LOGGED_IN | LOGIN_FORM =>
      error_message r = None /\ twofa_method r = None /\ verification_code r = None
  | TWOFA_APP =>
      error_message r = None /\ twofa_method r = Some "app" /\ verification_code r = None
  | TWOFA_SMS =>
      error_message r = None /\ twofa_method r = Some "sms" /\ verification_code r = None
  | TWOFA_MOBILE =>
      error_message r = None /\ twofa_method r = Some "mobile" /\
      code_ok (verification_code r)
  | TWOFA_SECURITY_KEY =>
      error_message r = Some Msg.security_key /\
      twofa_method r = Some "security_key" /\ verification_code r = None
  | CAPTCHA =>
      error_message r = Some Msg.captcha /\ twofa_method r = None /\
      verification_code r = None
  | LOGIN_ERROR =>
      (exists msg, error_message r = Some msg /\ PyStr.truthy msg = true) /\
      twofa_method r = None /\ verification_code r = None
  | UNKNOWN =>
      (error_message r = None \/
       exists e, error_message r = Some ("Error detecting page state: " ++ e)) /\
      twofa_method r = None /\ verification_code r = None
  end.

End Contracts.

Section ResultKinds.

Context {R : Runtime}.

(** An [UNKNOWN] result an operation makes up itself, with its own message
    and no second-factor fields. *)
Definition own_failure (r : PageStateResult) : Prop :=
  state r = UNKNOWN /\ (exists msg, error_message r = Some msg) /\
  twofa_method r = None /\ verification_code r = None.

End ResultKinds.

Section PageShapes.

Context {R : Runtime}.

(** None of the selectors matches anything. *)
Definition all_absent (w : world) (sels : list string) : Prop :=
  forall s, In s sels -> count w s = Ok 0%nat.

(** A page is attached, nobody is signed in and no CAPTCHA is shown. *)
Definition past_captcha (self : LoginFetcher) : Prop :=
  _page self = true /\
  count (driven self) Sel.user_menu = Ok 0%nat /\
  all_absent (driven self) Sel.captcha_indicators.

(** Past the CAPTCHA check, and neither the address nor the page points to
    the mobile approval. *)
Definition past_mobile (self : LoginFetcher) : Prop :=
  past_captcha self /\
  PyStr.contains "two-factor/mobile" (page_url (driven self)) = false /\
  all_absent (driven self) Sel.mobile_indicators.

(** The address is one of the security-key pages. *)
Definition on_security_key_url (self : LoginFetcher) : bool :=
  PyStr.contains "two-factor/webauthn" (page_url (driven self))
  || PyStr.contains "two-factor/security" (page_url (driven self)).

(** Past the mobile checks, and no sign of any second factor: no
    security-key address or button, no code input, no second-factor wording
    in the page. *)
Definition past_second_factor (self : LoginFetcher) : Prop :=
  past_mobile self /\
  on_security_key_url self = false /\
  count (driven self) Sel.security_key_btn = Ok 0%nat /\
  count (driven self) Sel.otp_input = Ok 0%nat /\
  exists html,
    content (driven self) = Ok html /\
    PyStr.contains "two-factor" (PyStr.lower html) = false /\
    PyStr.contains "authentication code" (PyStr.lower html) = false.

(** Where the security-key page's link to the mobile approval leads. *)
Definition mobile_target (href : string) : string :=
  if PyStr.startswith "/" href then "https://github.com" ++ href else href.

(** The [except] clause of [detect_page_state]. *)
Definition detection_failure (e : string) : PageStateResult :=
  mkPageStateResult UNKNOWN (Some ("Error detecting page state: " ++ e)) None None.

End PageShapes.

Section Banners.

Context {R : Runtime}.

(** The main error banner is absent, or nothing is left of its text once
    the white space around it is stripped. *)
Definition banner_silent (self : LoginFetcher) : Prop :=
  count (driven self) Sel.flash_error = Ok 0%nat \/
  exists n text,
    count (driven self) Sel.flash_error = Ok n /\ (0 < n)%nat /\
    text_content (driven self) Sel.flash_error = Ok text /\
    PyStr.truthy (PyStr.strip (PyStr.or_else text EmptyString)) = false.

End Banners.

Section Awaited.

Context {R : Runtime}.

(** What [submit_credentials] may await: its two waits, the two fills, the
    click, and what the classification at its end awaits. *)
Definition credentials_step (username password : string) (a : action) : Prop :=
  a = WaitForSelector Sel.login_input 10000 \/
  a = Fill Sel.login_input username \/
  a = Fill Sel.password_input password \/
  a = Click Sel.credentials_submit \/
  a = WaitForLoadState "domcontentloaded" (Some 30000%Z) \/
  observing a.

(** What [submit_2fa_code] may await: one fill of a code input, the click,
    the wait, and what the classification at its end awaits. *)
Definition twofa_step (code : string) (a : action) : Prop :=
  (exists selector, In selector Sel.otp_selectors /\ a = Fill selector code) \/
  a = Click Sel.twofa_submit \/
  a = WaitForLoadState "domcontentloaded" (Some 30000%Z) \/
  observing a.

(** The actions [self'] has awaited beyond those of [self] all satisfy [P]. *)
Definition awaited_since (P : action -> Prop) (self self' : LoginFetcher) : Prop :=
  exists later, issued self' = (later ++ issued self)%list /\ Forall P later.

End Awaited.

Section Persisting.

Context {R : Runtime}.

(** What [save_auth_state] may await for [account]: no typing and no click,
    and a user name is only stored for that account and when it is not
    empty. *)
Definition persisting_step (account : string) (a : action) : Prop :=
  match a with
  | Fill _ _ | Click _ => False
  | SaveUsername acc u => acc = account /\ PyStr.truthy u = true
  | _ => True
  end.

End Persisting.

Section RegistryNotions.

Context {R : Runtime}.

(** The registries [m] and [m'] hold the same session and the same fetcher
    under the id [sid]. *)
Definition same_at (sid : string) (m m' : Registry.SessionManager) : Prop :=
  Registry.get_session sid m' = Registry.get_session sid m /\
  Registry.get_fetcher sid m' = Registry.get_fetcher sid m.

(** Where [wait_for_mobile_2fa] leaves a session for what the poller
    returned, with [persisted] telling whether [save_auth_state] succeeded. *)
Definition mobile_transition (st : PageState) (persisted : bool) : LoginState.t :=
  match st with
  | LOGGED_IN => if persisted then LoginState.SUCCESS else LoginState.ERROR
  | TWOFA_MOBILE => LoginState.WAITING_MOBILE
  | _ => LoginState.ERROR
  end.

(** Two sessions side by side: [s1] as before and [s2], each with its own
    fetcher on its own page. *)
Definition two_sessions (st1 st2 : LoginState.t) (p1 p2 : Fixture.page)
  : @Registry.SessionManager Fixture.runtime :=
  Registry.mkSessionManager
    {[ "s1" := FixtureSessions.session_in st1;
       "s2" := Registry.mkLoginSession "s2" "globex" st2 0 0 None None None false ]}
    {[ "s1" := Fixture.started p1; "s2" := Fixture.started p2 ]}.

End RegistryNotions.

(** ** The login gate of [login_routes.py]

    [needs_login] and [_initialize_fetcher_after_login] work on the process
    environment and on the global notifications fetcher.  What they import
    from [ghinbox.auth] and [ghinbox.api.fetcher] is not among the sources
    and is taken as given: the default account, the test for a valid stored
    login, and the constructor of the notifications fetcher, which may
    raise. *)

Class Host := {
  (** [ghinbox.auth.DEFAULT_ACCOUNT] *)
  DEFAULT_ACCOUNT : string;
  (** [ghinbox.auth.has_valid_auth] *)
  has_valid_auth : string -> bool;
  (** the objects [NotificationsFetcher(account=..., headless=...)] builds *)
  NotificationsFetcher : Type;
  (** the constructor call itself *)
  new_NotificationsFetcher : string -> bool -> res NotificationsFetcher
}.

Module Gate.
Section Gate.

Context {H : Host}.

(** The process state the two functions touch: [os.environ] and the global
    fetcher behind [get_fetcher] and [set_fetcher]. *)
Record process := mkProcess {
  environ : gmap string string;
  _global_fetcher : option NotificationsFetcher
}.

(** [os.environ.get(name, default)] *)
Definition getenv (env : gmap string string) (name default : string) : string :=
  match env !! name with
  | Some v => v
  | None => default
  end.

(** [os.environ.get(name) == value] *)
Definition env_is (env : gmap string string) (name value : string) : bool :=
  match env !! name with
  | Some v => String.eqb v value
  | None => false
  end.

(** [needs_login]: the pair of the [needs_login] and [account] entries of
    the dictionary it returns. *)
Definition needs_login (env : gmap string string) : bool * string :=
  if env_is env "GHINBOX_TEST_MODE" "1" then (false, "test")
  else
    let account := getenv env "GHSIM_ACCOUNT" DEFAULT_ACCOUNT in
    let needs_auth := env_is env "GHINBOX_NEEDS_AUTH" "1" in
    if needs_auth then (true, account)
    else if negb (has_valid_auth account) then (true, account)
    else (false, account).

(** [_initialize_fetcher_after_login] *)
Definition _initialize_fetcher_after_login (account : string) (p : process)
  : bool * process :=
  let env :=
    match environ p !! "GHINBOX_NEEDS_AUTH" with
    | Some _ => delete "GHINBOX_NEEDS_AUTH" (environ p)
    | None => environ p
    end in
  let env := <["GHSIM_ACCOUNT" := account]> env in
  match _global_fetcher p with
  | Some fetcher => (true, mkProcess env (Some fetcher))
  | None =>
      let headless := String.eqb (getenv env "GHSIM_HEADLESS" "1") "1" in
      match new_NotificationsFetcher account headless with
      | Ok fetcher => (true, mkProcess env (Some fetcher))
      | Raise _ => (false, mkProcess env None)
      end
  end.

End Gate.
End Gate.

(** A host for concrete runs: only [acme] has a stored login, and the
    notifications fetcher cannot be built. *)
Definition fixture_host : Host := {|
  DEFAULT_ACCOUNT := "default";
  has_valid_auth := fun account => String.eqb account "acme";
  NotificationsFetcher := unit;
  new_NotificationsFetcher := fun _ _ => Raise "no browser"
|}.

(** ** More fixture pages *)

Module FixturePages.

(** A CAPTCHA container on the sign-in page. *)
Definition captcha_page : Fixture.page :=
  Fixture.mkPage "https://github.com/session"
    [ ("#captcha-container", EmptyString); (Sel.flash_error, "Please verify.") ] []
    "<html></html>" Fixture.never_fails 0.

(** The security-key challenge without a way over to the mobile approval. *)
Definition security_key_page : Fixture.page :=
  Fixture.mkPage "https://github.com/sessions/two-factor/webauthn"
    [] [] "<h1>Two-factor authentication</h1>" Fixture.never_fails 0.

(** The security-key challenge with a link to the mobile approval, on a site
    that keeps answering with the same page. *)
Definition security_key_page_with_link : Fixture.page :=
  Fixture.mkPage "https://github.com/sessions/two-factor/webauthn"
    [ (Sel.mobile_link, "Use GitHub Mobile") ]
    [ (Sel.mobile_link, "href", "/sessions/two-factor/mobile") ]
    "<h1>Two-factor authentication</h1>" Fixture.never_fails 0.

(** The sign-in form, with an error banner that holds only white space. *)
Definition login_form_page : Fixture.page :=
  Fixture.mkPage "https://github.com/login"
    [ (Sel.flash_error, "   "); (Sel.login_input, EmptyString);
      (Sel.password_input, EmptyString) ] []
    "<form>Sign in to GitHub</form>" Fixture.never_fails 0.

(** Signed in, the avatar of the user menu naming the user. *)
Definition home_page : Fixture.page :=
  Fixture.mkPage "https://github.com/"
    [ (Sel.user_menu, EmptyString); (Sel.within Sel.user_menu "img", EmptyString) ]
    [ (Sel.within Sel.user_menu "img", "alt", "@octocat") ]
    "<html></html>" Fixture.never_fails 0.

End FixturePages.

Section MoreShapes.

Context {R : Runtime}.

(** Past the mobile checks on an address that is not a security-key page,
    and without the security-key button. *)
Definition past_security_key (self : LoginFetcher) : Prop :=
  past_mobile self /\
  on_security_key_url self = false /\
  count (driven self) Sel.security_key_btn = Ok 0%nat.

(** The page source mentions a second factor, in whatever letter case. *)
Definition has_2fa_text (html : string) : bool :=
  PyStr.contains "two-factor" (PyStr.lower html)
  || PyStr.contains "authentication code" (PyStr.lower html).

(** The states the last rules of the classifier can give. *)
Definition no_second_factor (st : PageState) : Prop :=
  st = LOGIN_ERROR \/ st = LOGIN_FORM \/ st = UNKNOWN.

(** The steps of [submit_credentials] before it classifies the page. *)
Definition credentials_steps (username password : string) : M unit :=
  await (WaitForSelector Sel.login_input 10000);;;
  await (Fill Sel.login_input username);;;
  await (Fill Sel.password_input password);;;
  await (Click Sel.credentials_submit);;;
  await (WaitForLoadState "domcontentloaded" (Some 30000%Z));;;
  asyncio_sleep (1 # 2).

(** The steps of [submit_2fa_code] on the input [selector] before it
    classifies the page. *)
Definition twofa_steps (selector code : string) : M unit :=
  await (Fill selector code);;;
  await (Click Sel.twofa_submit);;;
  await (WaitForLoadState "domcontentloaded" (Some 30000%Z));;;
  asyncio_sleep (1 # 2).

End MoreShapes.

Module FixtureInputs.

(** A page with the SMS code input but no second-factor wording. *)
Definition bare_sms_input : Fixture.page :=
  Fixture.mkPage "https://github.com/sessions/verify"
    [ (Sel.sms_otp, EmptyString) ] [] "<p>Enter the code we sent you</p>"
    Fixture.never_fails 0.

(** The authenticator-app page; the wording is in capitals. *)
Definition app_page : Fixture.page :=
  Fixture.mkPage "https://github.com/sessions/two-factor/app"
    [ (Sel.generic_otp, EmptyString) ] [] "<h1>TWO-FACTOR AUTHENTICATION</h1>"
    Fixture.never_fails 0.

End FixtureInputs.

Module FixtureElements.

(** A second-factor page offering the mobile approval as an option, on an
    address that does not name it; the digits on the page are not read. *)
Definition mobile_option_page : Fixture.page :=
  Fixture.mkPage "https://github.com/sessions/two-factor"
    [ ("button[data-action*='mobile']", "Use GitHub Mobile");
      (Sel.body, "Enter 42 on your device") ] []
    "<h1>Two-factor authentication</h1>" Fixture.never_fails 0.

(** A page with the security-key button, on an address that does not name
    the security key; it also holds the authenticator input. *)
Definition key_button_page : Fixture.page :=
  Fixture.mkPage "https://github.com/sessions/two-factor"
    [ (Sel.security_key_btn, "Use security key"); (Sel.app_otp, EmptyString) ] []
    "<h1>Two-factor authentication</h1>" Fixture.never_fails 0.

End FixtureElements.

(** * Properties *)

(** ** The string operations on examples *)

Example lower_demo : PyStr.lower "Two-Factor AUTH" = "two-factor auth".
Proof. reflexivity. Qed.

Example strip_demo : PyStr.strip "  Incorrect username or password.  " = "Incorrect username or password.".
Proof. reflexivity. Qed.

Example token_demo : PyStr.first_two_digit_token "a12 345 67 89" = Some "67".
Proof. reflexivity. Qed.

Example of_int_demo : PyStr.of_int 120 = "120" /\ PyStr.of_int (-5) = "-5" /\ PyStr.of_int 0 = "0".
Proof. repeat split; reflexivity. Qed.

(** ** The fixture runtime keeps real time *)

Lemma fixture_real_time : RealTime Fixture.runtime.
Proof.
  split.
  - intros a w. cbn. unfold Fixture.perform. destruct (Fixture.failing w a); cbn; apply Qle_refl.
  - intros d w. cbn. apply Qle_refl.
Qed.

Example banner_only_is_login_error :
  fst (@Fetcher.detect_page_state Fixture.runtime (Fixture.started Fixture.banner_only))
  = Ok (mkPageStateResult LOGIN_ERROR (Some "Incorrect username or password.") None None).
Proof. vm_compute. reflexivity. Qed.

(** ** Properties of the classifier *)

Section Classifier.

Context {R : Runtime}.

(** C1. Whenever the user-menu button is present on the attached page,
    [detect_page_state] returns [LOGGED_IN], at once and whatever else the
    page shows: no other indicator is read, so an error banner on the same
    page cannot turn the result into [LOGIN_ERROR].  Nothing is awaited, the
    fetcher is left as it was, and the same holds at every nesting depth of
    the call. *)
Theorem detect_page_state_logged_in_first
    (depth : nat) (self : LoginFetcher) (n : nat) :
  _page self = true ->
  count (driven self) Sel.user_menu = Ok n ->
  (0 < n)%nat ->
  Fetcher.detect_page_state self = (Ok (result_of LOGGED_IN), self) /\
  Fetcher.detect_page_state_at depth self = (Ok (result_of LOGGED_IN), self) /\
  state (result_of LOGGED_IN) <> LOGIN_ERROR.
Proof.
  intros Hpage Hcount Hn.
  assert (Hpos : (0 <? n)%nat = true) by (apply Nat.ltb_lt; exact Hn).
  assert (Hat : forall d,
             Fetcher.detect_page_state_at d self = (Ok (result_of LOGGED_IN), self)).
  { intros d. destruct d; cbn [Fetcher.detect_page_state_at];
      unfold Fetcher.detect_page_state_body, bind, try_except, get_self, probe, ret;
      rewrite Hpage; cbn [negb]; rewrite Hcount, Hpos; reflexivity. }
  split; [apply Hat |]. split; [apply Hat | discriminate].
Qed.

End Classifier.

Lemma detect_page_state_logged_in_first_witness :
  let self := Fixture.started Fixture.signed_in_with_banner in
  _page self = true /\
  count (driven self) Sel.user_menu = Ok 1%nat /\
  text_content (driven self) Sel.flash_error = Ok (Some "Incorrect username or password.") /\
  Fetcher.detect_page_state self = (Ok (result_of LOGGED_IN), self).
Proof.
  intros self. split; [reflexivity |]. split; [reflexivity |]. split; [reflexivity |].
  apply (@detect_page_state_logged_in_first Fixture.runtime
           0 self 1%nat eq_refl eq_refl (Nat.lt_0_succ 0)).
Defined.

(** ** A fetcher without a page *)

Section Detached.

Context {R : Runtime}.

Lemma close_releases (self : LoginFetcher) : released (snd (Fetcher.close self)).
Proof.
  unfold released, Fetcher.close, bind, try_except, get_self, await, set_page,
    set_context, set_browser, set_playwright, ret.
  destruct self as [pw br cx pg w tr]; cbn.
  destruct pg; cbn;
    repeat match goal with
           | |- context [act ?a ?x] => destruct (act a x) as [[[]|?] ?]; cbn
           | |- context [if ?b then _ else _] => destruct b; cbn
           end; repeat split; reflexivity.
Qed.

Lemma close_drops_page (self : LoginFetcher) : _page (snd (Fetcher.close self)) = false.
Proof. apply close_releases. Qed.

(** Closing a released fetcher does nothing: no handle is closed again. *)
Lemma close_released (self : LoginFetcher) :
  released self -> Fetcher.close self = (Ok tt, self).
Proof.
  intros (Hp & Hc & Hb & Hw). destruct self as [pw br cx pg w tr]; cbn in *; subst.
  reflexivity.
Qed.

Lemma close_twice (self : LoginFetcher) :
  Fetcher.close (snd (Fetcher.close self)) = (Ok tt, snd (Fetcher.close self)).
Proof. apply close_released, close_releases. Qed.

(** C10. On a fetcher with no page attached (one that was never started, one
    that was closed, or any other with [_page] unset) the four public
    operations return normally: [detect_page_state] gives [UNKNOWN] with no
    message, the other three give [UNKNOWN] with the message
    [Browser not started]; none raises, none awaits anything, and the
    fetcher is left as it was. *)
Theorem detached_operations_return_unknown
    (w : world) (other self : LoginFetcher)
    (depth turns : nat) (username password code : string)
    (timeout_seconds : Z) (poll_interval : Q) :
  self = init w \/ self = snd (Fetcher.close other) \/ _page self = false ->
  Fetcher.detect_page_state_at depth self = (Ok (result_of UNKNOWN), self) /\
  Fetcher.detect_page_state self = (Ok (result_of UNKNOWN), self) /\
  Fetcher.submit_credentials username password self = (Ok browser_not_started, self) /\
  Fetcher.submit_2fa_code code self = (Ok browser_not_started, self) /\
  Fetcher.wait_for_mobile_approval turns timeout_seconds poll_interval self
    = Some (Ok browser_not_started, self).
Proof.
  intros H.
  assert (Hpage : _page self = false).
  { destruct H as [-> | [-> | H]]; [reflexivity | apply close_drops_page | exact H]. }
  assert (Hat : forall d, Fetcher.detect_page_state_at d self = (Ok (result_of UNKNOWN), self)).
  { intros d. destruct d; cbn [Fetcher.detect_page_state_at];
      unfold Fetcher.detect_page_state_body, bind, get_self, ret; rewrite Hpage; reflexivity. }
  repeat split.
  - apply Hat.
  - apply Hat.
  - unfold Fetcher.submit_credentials, bind, get_self, ret. rewrite Hpage. reflexivity.
  - unfold Fetcher.submit_2fa_code, bind, get_self, ret. rewrite Hpage. reflexivity.
  - unfold Fetcher.wait_for_mobile_approval. rewrite Hpage. reflexivity.
Qed.

End Detached.

Lemma detached_operations_return_unknown_witness :
  let closed := snd (Fetcher.close (Fixture.started Fixture.signed_in_with_banner)) in
  _page closed = false /\
  Fetcher.detect_page_state closed = (Ok (result_of UNKNOWN), closed) /\
  Fetcher.submit_credentials "bob" "secret" closed = (Ok browser_not_started, closed) /\
  Fetcher.submit_2fa_code "123456" closed = (Ok browser_not_started, closed) /\
  Fetcher.wait_for_mobile_approval 0 120 2 closed = Some (Ok browser_not_started, closed).
Proof.
  intros closed. split; [reflexivity |].
  apply (@detached_operations_return_unknown Fixture.runtime
           Fixture.signed_in_with_banner (Fixture.started Fixture.signed_in_with_banner)
           closed 0 0 "bob" "secret" "123456" 120 2).
  right. left. reflexivity.
Defined.

(** ** Relations every method maintains between the fetcher before and after

    A relation that is reflexive and transitive, holds across any single
    awaited action and across any sleep of non-negative length, holds across
    every method of the fetcher that only reads, acts and sleeps. *)

Section Steady.

Context {R : Runtime}.

Variable rel : LoginFetcher -> LoginFetcher -> Prop.
Hypothesis rel_refl : forall s, rel s s.
Hypothesis rel_trans : forall s1 s2 s3, rel s1 s2 -> rel s2 s3 -> rel s1 s3.
Hypothesis rel_await : forall a s, rel s (snd (await a s)).
Hypothesis rel_sleep : forall d s, (0 <= d)%Q -> rel s (snd (asyncio_sleep d s)).

Lemma steady_ret {A} (a : A) : steady rel (ret a).
Proof. intros s. apply rel_refl. Qed.

Lemma steady_raise {A} (e : string) : steady rel (@raise R A e).
Proof. intros s. apply rel_refl. Qed.

Lemma steady_get_self : steady rel get_self.
Proof. intros s. apply rel_refl. Qed.

Lemma steady_probe {A} (read : world -> res A) : steady rel (probe read).
Proof. intros s. apply rel_refl. Qed.

Lemma steady_await (a : action) : steady rel (await a).
Proof. intros s. apply rel_await. Qed.

Lemma steady_sleep (d : Q) : (0 <= d)%Q -> steady rel (asyncio_sleep d).
Proof. intros Hd s. apply rel_sleep, Hd. Qed.

Lemma steady_bind {A B} (m : M A) (k : A -> M B) :
  steady rel m -> (forall a, steady rel (k a)) -> steady rel (bind m k).
Proof.
  intros Hm Hk s. unfold bind. specialize (Hm s).
  destruct (m s) as [[a | e] s1]; cbn in *.
  - eapply rel_trans; [exact Hm | apply Hk].
  - exact Hm.
Qed.

Lemma steady_try {A} (body : M A) (handler : string -> M A) :
  steady rel body -> (forall e, steady rel (handler e)) -> steady rel (try_except body handler).
Proof.
  intros Hb Hh s. unfold try_except. specialize (Hb s).
  destruct (body s) as [[a | e] s1]; cbn in *.
  - exact Hb.
  - eapply rel_trans; [exact Hb | apply Hh].
Qed.

Lemma half_nonneg : (0 <= 1 # 2)%Q.
Proof. discriminate. Qed.

(** Takes a method apart along its binds, handlers and branches. *)
Ltac steady_step :=
  first
    [ apply steady_ret
    | apply steady_raise
    | apply steady_get_self
    | apply steady_probe
    | apply steady_await
    | apply steady_sleep; first [ exact half_nonneg | assumption ]
    | match goal with H : _ |- _ => apply H end
    | apply steady_bind; [ | intros ? ]
    | apply steady_try; [ | intros ? ]
    | match goal with
      | |- steady _ (if ?b then _ else _) => destruct b
      | |- steady _ (match ?x with _ => _ end) => destruct x
      | |- steady _ (let _ := _ in _) => cbv zeta
      end ].

Ltac steady_auto := repeat steady_step.

Lemma steady_first_present (sels : list string) : steady rel (Fetcher.first_present sels).
Proof. induction sels as [| sel rest IH]; cbn [Fetcher.first_present]; steady_auto. Qed.

Lemma steady_save_debug_screenshot (name : string) :
  steady rel (Fetcher.save_debug_screenshot name).
Proof. unfold Fetcher.save_debug_screenshot. steady_auto. Qed.

Lemma steady_scan_code_selectors (sels : list string) :
  steady rel (Fetcher.scan_code_selectors sels).
Proof. induction sels as [| sel rest IH]; cbn [Fetcher.scan_code_selectors]; steady_auto. Qed.

Lemma steady_extract_code : steady rel Fetcher._extract_mobile_verification_code.
Proof.
  unfold Fetcher._extract_mobile_verification_code.
  pose proof steady_scan_code_selectors. steady_auto.
Qed.

Lemma steady_scan_error_selectors (sels : list string) :
  steady rel (Fetcher.scan_error_selectors sels).
Proof. induction sels as [| sel rest IH]; cbn [Fetcher.scan_error_selectors]; steady_auto. Qed.

Lemma steady_detect_errors_and_form : steady rel Fetcher.detect_errors_and_form.
Proof.
  unfold Fetcher.detect_errors_and_form.
  pose proof steady_save_debug_screenshot. pose proof steady_scan_error_selectors.
  steady_auto.
Qed.

Lemma steady_detect_otp_inputs : steady rel Fetcher.detect_otp_inputs.
Proof.
  unfold Fetcher.detect_otp_inputs. pose proof steady_detect_errors_and_form. steady_auto.
Qed.

Lemma steady_detect_security_key (again : M PageStateResult) (current_url : string) :
  steady rel again -> steady rel (Fetcher.detect_security_key again current_url).
Proof.
  intros Hagain. unfold Fetcher.detect_security_key.
  pose proof steady_save_debug_screenshot. pose proof steady_detect_otp_inputs.
  steady_auto.
Qed.

Lemma steady_detect_page_state_body (again : M PageStateResult) :
  steady rel again -> steady rel (Fetcher.detect_page_state_body again).
Proof.
  intros Hagain. unfold Fetcher.detect_page_state_body.
  pose proof steady_first_present. pose proof steady_extract_code.
  pose proof (fun u => steady_detect_security_key again u Hagain).
  steady_auto.
Qed.

Lemma steady_detect_page_state_at (depth : nat) : steady rel (Fetcher.detect_page_state_at depth).
Proof.
  induction depth as [| d IH]; cbn [Fetcher.detect_page_state_at];
    apply steady_detect_page_state_body; [apply steady_raise | exact IH].
Qed.

Lemma steady_detect_page_state : steady rel Fetcher.detect_page_state.
Proof. apply steady_detect_page_state_at. Qed.

End Steady.

(** ** What the selector loops find *)

Section Loops.

Context {R : Runtime}.

Lemma first_present_absent (self : LoginFetcher) (sels : list string) :
  (forall s, In s sels -> count (driven self) s = Ok 0%nat) ->
  Fetcher.first_present sels self = (Ok None, self).
Proof.
  induction sels as [| sel rest IH]; intros Hnone; cbn [Fetcher.first_present].
  - reflexivity.
  - unfold bind, probe. rewrite (Hnone sel (or_introl eq_refl)). cbn.
    apply IH. intros s Hs. apply Hnone. right. exact Hs.
Qed.

Lemma first_present_found (self : LoginFetcher) (before after : list string)
    (sel : string) (n : nat) :
  (forall s, In s before -> count (driven self) s = Ok 0%nat) ->
  count (driven self) sel = Ok n -> (0 < n)%nat ->
  Fetcher.first_present (before ++ sel :: after)%list self = (Ok (Some sel), self).
Proof.
  intros Hbefore Hsel Hn.
  induction before as [| b rest IH]; cbn [Fetcher.first_present app].
  - unfold bind, probe. rewrite Hsel.
    replace (0 <? n)%nat with true by (symmetry; apply Nat.ltb_lt; exact Hn).
    reflexivity.
  - unfold bind, probe. rewrite (Hbefore b (or_introl eq_refl)). cbn.
    apply IH. intros s Hs. apply Hbefore. right. exact Hs.
Qed.

Lemma log_grows_refl s : log_grows s s.
Proof. exists []. reflexivity. Qed.

Lemma log_grows_trans s1 s2 s3 : log_grows s1 s2 -> log_grows s2 s3 -> log_grows s1 s3.
Proof.
  intros [l1 H1] [l2 H2]. exists (l2 ++ l1)%list.
  rewrite H2, H1. apply app_assoc.
Qed.

Lemma log_grows_await a s : log_grows s (snd (await a s)).
Proof.
  unfold await. destruct (act a (driven s)) as [r w]. exists [a]. reflexivity.
Qed.

Lemma log_grows_sleep (d : Q) s : (0 <= d)%Q -> log_grows s (snd (asyncio_sleep d s)).
Proof. intros _. exists []. reflexivity. Qed.

Lemma detect_page_state_log_grows s : log_grows s (snd (Fetcher.detect_page_state s)).
Proof.
  apply (steady_detect_page_state log_grows log_grows_refl log_grows_trans
           log_grows_await log_grows_sleep).
Qed.

(** [try: await a; rest  except: handler]: the action [a] is the first thing
    awaited, whatever follows it. *)
Lemma first_action_logged {A} (a : action) (rest : M A) (handler : string -> M A) s :
  steady log_grows rest -> (forall e, steady log_grows (handler e)) ->
  exists later,
    issued (snd (try_except (bind (await a) (fun _ => rest)) handler s))
    = (later ++ a :: issued s)%list.
Proof.
  intros Hrest Hhandler. unfold try_except, bind, await.
  destruct (act a (driven s)) as [[[] | e] w].
  - match goal with
    | |- context [rest ?s1] =>
        destruct (Hrest s1) as [later Hl]; destruct (rest s1) as [[x | e] s2]
    end.
    + exists later. exact Hl.
    + cbn in Hl.
      match goal with
      | |- context [handler e ?s2] => destruct (Hhandler e s2) as [more Hm]
      end.
      exists (more ++ later)%list. rewrite Hm, Hl. apply app_assoc.
  - match goal with
    | |- context [handler e ?s1] => destruct (Hhandler e s1) as [more Hm]
    end.
    exists more. exact Hm.
Qed.

End Loops.

(** ** Second-factor code submission *)

Section TwoFactorCode.

Context {R : Runtime}.

(** C9 (amended). [submit_2fa_code] looks for the code input under the four
    selectors app-OTP, alternative app-OTP id, SMS-OTP, generic
    one-time-code, in this order.  The first selector that is present is the
    one filled, and filling it is the first thing the operation awaits.  When
    none is present the result is [UNKNOWN] with the message
    [Could not find 2FA input field], and nothing at all is awaited: no fill,
    no click, no wait. *)
Theorem submit_2fa_code_input_search (self : LoginFetcher) (code : string) :
  _page self = true ->
  Sel.otp_selectors = [Sel.app_otp; Sel.app_totp; Sel.sms_otp; Sel.generic_otp] /\
  ((forall s, In s Sel.otp_selectors -> count (driven self) s = Ok 0%nat) ->
   Fetcher.submit_2fa_code code self
   = (Ok (mkPageStateResult UNKNOWN (Some "Could not find 2FA input field") None None),
      self)) /\
  (forall before sel after n,
     Sel.otp_selectors = (before ++ sel :: after)%list ->
     (forall s, In s before -> count (driven self) s = Ok 0%nat) ->
     count (driven self) sel = Ok n -> (0 < n)%nat ->
     exists later,
       issued (snd (Fetcher.submit_2fa_code code self))
       = (later ++ Fill sel code :: issued self)%list).
Proof.
  intros Hpage. split; [reflexivity |]. split.
  - intros Hnone.
    unfold Fetcher.submit_2fa_code, bind at 1, get_self. rewrite Hpage. cbn [negb].
    unfold try_except, bind. rewrite (first_present_absent self _ Hnone). reflexivity.
  - intros before sel after n Hsplit Hbefore Hsel Hn.
    unfold Fetcher.submit_2fa_code, bind at 1, get_self. rewrite Hpage. cbn [negb].
    pose proof (first_present_found self before after sel n Hbefore Hsel Hn) as Hfound.
    rewrite <- Hsplit in Hfound.
    set (rest :=
           (await (Click Sel.twofa_submit);;;
            await (WaitForLoadState "domcontentloaded" (Some 30000%Z));;;
            asyncio_sleep (1 # 2);;;
            result <- Fetcher.detect_page_state;;
            ret result)).
    set (handler := fun e : string =>
           ret (mkPageStateResult UNKNOWN (Some ("Error submitting 2FA code: " ++ e)) None None)).
    assert (Hrest : steady log_grows rest).
    { unfold rest.
      repeat first
        [ apply (steady_bind log_grows log_grows_trans); [ | intros ? ]
        | apply (steady_await log_grows log_grows_await)
        | apply (steady_sleep log_grows log_grows_sleep), half_nonneg
        | apply (steady_ret log_grows log_grows_refl)
        | exact detect_page_state_log_grows ]. }
    assert (Hhandler : forall e, steady log_grows (handler e)).
    { intros e. apply (steady_ret log_grows log_grows_refl). }
    destruct (first_action_logged (Fill sel code) rest handler self Hrest Hhandler)
      as [later Hlater].
    exists later. rewrite <- Hlater.
    unfold try_except, bind at 1. rewrite Hfound. reflexivity.
Qed.

End TwoFactorCode.

Lemma submit_2fa_code_input_search_witness :
  let self := Fixture.started Fixture2FA.sms_page in
  _page self = true /\
  exists later,
    issued (snd (Fetcher.submit_2fa_code "123456" self))
    = (later ++ Fill Sel.sms_otp "123456" :: issued self)%list.
Proof.
  intros self. split; [reflexivity |].
  destruct (@submit_2fa_code_input_search Fixture.runtime self "123456" eq_refl)
    as (_ & _ & Hfirst).
  apply (Hfirst [Sel.app_otp; Sel.app_totp] Sel.sms_otp [Sel.generic_otp] 1%nat).
  - reflexivity.
  - intros s [<- | [<- | []]]; reflexivity.
  - reflexivity.
  - lia.
Defined.

(** C9 as stated fails on the message: on a page without any code input the
    operation answers [Could not find 2FA input field], not
    [no 2FA input field found]. *)
Lemma submit_2fa_code_message_counterexample :
  let self := Fixture.started Fixture.banner_only in
  (forall s, In s Sel.otp_selectors -> count (driven self) s = Ok 0%nat) /\
  fst (Fetcher.submit_2fa_code "123456" self)
  <> Ok (mkPageStateResult UNKNOWN (Some "no 2FA input field found") None None).
Proof.
  intros self. split.
  - intros s [<- | [<- | [<- | [<- | []]]]]; reflexivity.
  - vm_compute. discriminate.
Qed.

(** ** Credential submission *)

Section Credentials.

Context {R : Runtime}.

(** C5 (amended). When one of the two bounded waits of [submit_credentials]
    fails (the wait of at most 10 s for the login input, or the wait of at
    most 30 s for the load after the click), the operation does not raise,
    and it does not look at the page again either: it returns [UNKNOWN]
    with the message [Error submitting credentials: ] followed by the text of
    the failure, and the failed wait is the last thing it awaited. *)
Theorem submit_credentials_wait_timeout
    (self : LoginFetcher) (username password e : string) :
  _page self = true ->
  (fst (await wait_for_login_input self) = Raise e ->
   Fetcher.submit_credentials username password self
   = (Ok (submit_failure e), snd (await wait_for_login_input self))) /\
  (forall s1 s2,
     await wait_for_login_input self = (Ok tt, s1) ->
     fill_and_click username password s1 = (Ok tt, s2) ->
     fst (await wait_for_load s2) = Raise e ->
     Fetcher.submit_credentials username password self
     = (Ok (submit_failure e), snd (await wait_for_load s2))).
Proof.
  intros Hpage. split.
  - intros Hwait.
    unfold Fetcher.submit_credentials, bind at 1, get_self. rewrite Hpage. cbn [negb].
    unfold try_except, bind at 1. fold wait_for_login_input.
    destruct (await wait_for_login_input self) as [r s1]. cbn in Hwait. subst r.
    reflexivity.
  - intros s1 s2 Hwait Hfill Hload.
    unfold Fetcher.submit_credentials, bind at 1, get_self. rewrite Hpage. cbn [negb].
    unfold try_except, bind at 1. fold wait_for_login_input. rewrite Hwait.
    unfold fill_and_click in Hfill. unfold bind in Hfill |- *.
    destruct (await (Fill Sel.login_input username) s1) as [[[] | e1] t1]; [| discriminate].
    destruct (await (Fill Sel.password_input password) t1) as [[[] | e2] t2]; [| discriminate].
    destruct (await (Click Sel.credentials_submit) t2) as [[[] | e3] t3]; [| discriminate].
    injection Hfill as ->. fold wait_for_load.
    destruct (await wait_for_load s2) as [r s3]. cbn in Hload. subst r.
    reflexivity.
Qed.

End Credentials.

Lemma submit_credentials_wait_timeout_witness :
  let self := Fixture.started FixtureTimeout.already_signed_in in
  _page self = true /\
  fst (await wait_for_login_input self) = Raise FixtureTimeout.timeout_text /\
  Fetcher.submit_credentials "bob" "secret" self
  = (Ok (submit_failure FixtureTimeout.timeout_text), snd (await wait_for_login_input self)).
Proof.
  intros self. split; [reflexivity |]. split; [reflexivity |].
  apply (@submit_credentials_wait_timeout Fixture.runtime self "bob" "secret"
           FixtureTimeout.timeout_text eq_refl).
  reflexivity.
Defined.

(** C5 as stated fails: the wait for the login input times out on a page that
    classifies as [LOGGED_IN], and [submit_credentials] returns an [UNKNOWN]
    error result instead of that classification. *)
Lemma submit_credentials_reclassify_counterexample :
  let self := Fixture.started FixtureTimeout.already_signed_in in
  let after_wait := snd (await wait_for_login_input self) in
  fst (await wait_for_login_input self) = Raise FixtureTimeout.timeout_text /\
  fst (Fetcher.detect_page_state after_wait) = Ok (result_of LOGGED_IN) /\
  fst (Fetcher.submit_credentials "bob" "secret" self)
  <> fst (Fetcher.detect_page_state after_wait) /\
  fst (Fetcher.submit_credentials "bob" "secret" self)
  = Ok (mkPageStateResult UNKNOWN
          (Some "Error submitting credentials: Timeout 10000ms exceeded.") None None).
Proof.
  intros self after_wait. repeat split; try (vm_compute; reflexivity).
  vm_compute. discriminate.
Qed.

(** ** The two-digit token scan

    What [\b(\d{2})\b] matches, stated position by position, and the scan
    of [PyStr.first_two_digit_from] against it. *)

Section Tokens.

Lemma token_at_shift (prev_word : bool) (a : ascii) (r : string) (i : nat) :
  token_at prev_word (String a r) (S i) = token_at (PyStr.is_word a) r i.
Proof.
  unfold token_at. cbn [String.get].
  destruct (String.get i r) as [x |]; [| reflexivity].
  destruct (String.get (S i) r) as [y |]; [| reflexivity].
  destruct i as [| j]; reflexivity.
Qed.

Lemma token_at_here (prev_word : bool) (a : ascii) (r : string) :
  token_at prev_word (String a r) 0
  = match r with
    | String b t =>
        PyStr.is_digit a && PyStr.is_digit b && negb prev_word &&
        match t with
        | EmptyString => true
        | String c _ => negb (PyStr.is_word c)
        end
    | EmptyString => false
    end.
Proof.
  unfold token_at. cbn [String.get].
  destruct r as [| b t]; [reflexivity |]. cbn [String.get].
  destruct t as [| c u]; reflexivity.
Qed.

Lemma scan_finds_leftmost (s : string) : forall prev_word,
  match PyStr.first_two_digit_from prev_word s with
  | Some d => leftmost_token prev_word s d
  | None => forall i, token_at prev_word s i = false
  end.
Proof.
  induction s as [| a r IH]; intros prev_word.
  - cbn. intros i. unfold token_at. destruct i; reflexivity.
  - cbn [PyStr.first_two_digit_from].
    pose proof (token_at_here prev_word a r) as Hhere.
    destruct r as [| b t].
    + (* one character left: no room for two digits *)
      cbn. intros i. destruct i as [| i]; [exact Hhere |].
      rewrite token_at_shift. unfold token_at. destruct i; reflexivity.
    + destruct (PyStr.is_digit a && PyStr.is_digit b && negb prev_word &&
                match t with
                | EmptyString => true
                | String c _ => negb (PyStr.is_word c)
                end) eqn:Hmatch.
      * exists 0%nat. split; [rewrite Hhere; reflexivity |]. split; [intros j Hj; lia |].
        cbn. destruct t; reflexivity.
      * specialize (IH (PyStr.is_word a)).
        destruct (PyStr.first_two_digit_from (PyStr.is_word a) (String b t)) as [d |].
        -- destruct IH as (i & Hi & Hleft & Hsub).
           exists (S i). split; [rewrite token_at_shift; exact Hi |]. split.
           ++ intros j Hj. destruct j as [| j]; [exact Hhere |].
              rewrite token_at_shift. apply Hleft. lia.
           ++ exact Hsub.
        -- intros i. destruct i as [| i]; [exact Hhere |].
           rewrite token_at_shift. apply IH.
Qed.

Lemma leftmost_token_unique (prev_word : bool) (s d d' : string) :
  leftmost_token prev_word s d -> leftmost_token prev_word s d' -> d = d'.
Proof.
  intros (i & Hi & Hli & <-) (j & Hj & Hlj & <-).
  destruct (Nat.lt_trichotomy i j) as [Hlt | [-> | Hgt]].
  - rewrite (Hlj i Hlt) in Hi. discriminate.
  - reflexivity.
  - rewrite (Hli j Hgt) in Hj. discriminate.
Qed.

(** The scan returns the leftmost match when there is one. *)
Lemma first_two_digit_token_leftmost (s d : string) :
  leftmost_token false s d -> PyStr.first_two_digit_token s = Some d.
Proof.
  intros Hd. unfold PyStr.first_two_digit_token.
  pose proof (scan_finds_leftmost s false) as Hscan.
  destruct (PyStr.first_two_digit_from false s) as [d' |].
  - f_equal. eapply leftmost_token_unique; eassumption.
  - destruct Hd as (i & Hi & _). rewrite (Hscan i) in Hi. discriminate.
Qed.

(** The scan returns nothing when the pattern matches nowhere. *)
Lemma first_two_digit_token_none (s : string) :
  (forall i, token_at false s i = false) -> PyStr.first_two_digit_token s = None.
Proof.
  intros Hnone. unfold PyStr.first_two_digit_token.
  pose proof (scan_finds_leftmost s false) as Hscan.
  destruct (PyStr.first_two_digit_from false s) as [d |]; [| reflexivity].
  destruct Hscan as (i & Hi & _). rewrite (Hnone i) in Hi. discriminate.
Qed.

End Tokens.

(** ** Extraction of the mobile verification code *)

Section VerificationCode.

Context {R : Runtime}.

Lemma truthy_digits (t : string) (d : string) :
  text_digits (Some t) = Some d -> PyStr.truthy t = true.
Proof.
  destruct t; [| reflexivity]. unfold text_digits. cbn. discriminate.
Qed.

Lemma scan_code_selectors_skip (self : LoginFetcher) (sel : string) (rest : list string) :
  misses (driven self) sel ->
  Fetcher.scan_code_selectors (sel :: rest) self = Fetcher.scan_code_selectors rest self.
Proof.
  intros [H0 | (n & text & Hn & Hpos & Ht & Hd)];
    cbn [Fetcher.scan_code_selectors]; unfold bind at 1, probe at 1.
  - rewrite H0. reflexivity.
  - rewrite Hn. apply Nat.ltb_lt in Hpos.
    unfold bind at 1. rewrite Hpos. unfold bind at 1, probe. rewrite Ht.
    destruct text as [t |]; [| reflexivity].
    unfold text_digits in Hd.
    destruct (PyStr.truthy t); [| reflexivity].
    destruct (2 <=? String.length (PyStr.digits_of t))%nat; [discriminate | reflexivity].
Qed.

Lemma scan_code_selectors_take (self : LoginFetcher) (sel d : string) (rest : list string) :
  hits (driven self) sel d ->
  Fetcher.scan_code_selectors (sel :: rest) self = (Ok (Some d), self).
Proof.
  intros (n & text & Hn & Hpos & Ht & Hd).
  cbn [Fetcher.scan_code_selectors]. unfold bind at 1, probe at 1.
  rewrite Hn. apply Nat.ltb_lt in Hpos.
  unfold bind at 1. rewrite Hpos. unfold bind at 1, probe. rewrite Ht.
  destruct text as [t |]; [| discriminate].
  rewrite (truthy_digits t d Hd). unfold text_digits in Hd.
  destruct (2 <=? String.length (PyStr.digits_of t))%nat; [| discriminate].
  injection Hd as <-. reflexivity.
Qed.

Lemma scan_code_selectors_miss (self : LoginFetcher) (sels : list string) :
  (forall s, In s sels -> misses (driven self) s) ->
  Fetcher.scan_code_selectors sels self = (Ok None, self).
Proof.
  induction sels as [| sel rest IH]; intros Hmiss.
  - reflexivity.
  - rewrite scan_code_selectors_skip by (apply Hmiss; left; reflexivity).
    apply IH. intros s Hs. apply Hmiss. right. exact Hs.
Qed.

Lemma scan_code_selectors_hit (self : LoginFetcher) (before after : list string)
    (sel d : string) :
  (forall s, In s before -> misses (driven self) s) ->
  hits (driven self) sel d ->
  Fetcher.scan_code_selectors (before ++ sel :: after)%list self = (Ok (Some d), self).
Proof.
  intros Hbefore Hhit.
  induction before as [| b rest IH]; cbn [app].
  - apply scan_code_selectors_take, Hhit.
  - rewrite scan_code_selectors_skip by (apply Hbefore; left; reflexivity).
    apply IH. intros s Hs. apply Hbefore. right. exact Hs.
Qed.

Lemma scan_code_selectors_reads_only (sels : list string) (self : LoginFetcher) :
  snd (Fetcher.scan_code_selectors sels self) = self.
Proof.
  induction sels as [| sel rest IH]; cbn [Fetcher.scan_code_selectors]; [reflexivity |].
  unfold bind, probe, ret.
  destruct (count (driven self) sel) as [n | e]; [| reflexivity].
  destruct (0 <? n)%nat.
  - destruct (text_content (driven self) sel) as [[t |] | e]; try reflexivity;
      try exact IH.
    destruct (PyStr.truthy t); [| exact IH].
    destruct (2 <=? String.length (PyStr.digits_of t))%nat; [reflexivity | exact IH].
  - exact IH.
Qed.

(** The extraction never raises and only reads the page. *)
Lemma extract_code_returns (self : LoginFetcher) :
  exists r, Fetcher._extract_mobile_verification_code self = (Ok r, self).
Proof.
  unfold Fetcher._extract_mobile_verification_code, try_except, bind at 1.
  pose proof (scan_code_selectors_reads_only Sel.code_selectors self) as Hs.
  destruct (Fetcher.scan_code_selectors Sel.code_selectors self) as [[[d |] | e] s1];
    cbn in Hs; subst s1; unfold ret, bind, probe.
  - eauto.
  - destruct (text_content (driven self) Sel.body) as [text | e].
    + destruct (PyStr.first_two_digit_token (PyStr.or_else text EmptyString)); eauto.
    + eauto.
  - eauto.
Qed.


End VerificationCode.

Example extract_from_running_text :
  fst (Fetcher._extract_mobile_verification_code (Fixture.started FixtureMobile.approval_page))
  = Ok (Some "42").
Proof. vm_compute. reflexivity. Qed.

Example extract_from_badge :
  fst (Fetcher._extract_mobile_verification_code
         (Fixture.started FixtureMobile.approval_page_with_badge))
  = Ok (Some "42").
Proof. vm_compute. reflexivity. Qed.

Example extract_nothing :
  fst (Fetcher._extract_mobile_verification_code
         (Fixture.started FixtureMobile.approval_page_without_code))
  = Ok None.
Proof. vm_compute. reflexivity. Qed.

Example detect_mobile_with_code :
  fst (Fetcher.detect_page_state (Fixture.started FixtureMobile.approval_page))
  = Ok (mkPageStateResult TWOFA_MOBILE None (Some "mobile") (Some "42")).
Proof. vm_compute. reflexivity. Qed.


(** ** The mobile approval poller *)

Section Poller.

Context {R : Runtime}.

(** A [try] whose handler returns never raises. *)
Lemma try_except_returns {A} (body : M A) (h : string -> A) (s : LoginFetcher) :
  exists a, fst (try_except body (fun e => ret (h e)) s) = Ok a.
Proof.
  unfold try_except. destruct (body s) as [[a | e] s1]; cbn; eauto.
Qed.

Lemma detect_page_state_at_returns (depth : nat) (s : LoginFetcher) :
  exists r, fst (Fetcher.detect_page_state_at depth s) = Ok r.
Proof.
  destruct depth; cbn [Fetcher.detect_page_state_at];
    unfold Fetcher.detect_page_state_body, bind at 1, get_self;
    (destruct (_page s); cbn [negb]; [apply try_except_returns | cbn; eauto]).
Qed.

Lemma detect_page_state_returns (s : LoginFetcher) :
  exists r, fst (Fetcher.detect_page_state s) = Ok r.
Proof. apply detect_page_state_at_returns. Qed.

Lemma save_debug_screenshot_returns (name : string) (s : LoginFetcher) :
  exists p, fst (Fetcher.save_debug_screenshot name s) = Ok p.
Proof.
  unfold Fetcher.save_debug_screenshot, bind at 1, get_self.
  destruct (_page s); cbn [negb]; [apply try_except_returns | cbn; eauto].
Qed.

(** A turn that starts after the time is up: no classification, the timeout
    result at once. *)
Lemma poll_once_timed_out (start_time : Q) (timeout_seconds : Z) (poll_interval : Q) s :
  Fetcher.timed_out (loop_time (driven s) - start_time) timeout_seconds = true ->
  Fetcher.poll_once start_time timeout_seconds poll_interval s
  = (Ok (Some (Fetcher.mobile_timeout_result timeout_seconds)),
     snd (Fetcher.save_debug_screenshot "mobile_2fa_timeout" s)).
Proof.
  intros Hout. unfold Fetcher.poll_once, bind at 1, get_self. rewrite Hout.
  destruct (save_debug_screenshot_returns "mobile_2fa_timeout" s) as [p Hp].
  unfold bind. destruct (Fetcher.save_debug_screenshot "mobile_2fa_timeout" s) as [r s1].
  cbn in Hp. subst r. reflexivity.
Qed.

(** A turn within the time: one classification, returned unless it is
    [TWOFA_MOBILE] or [UNKNOWN], in which case the turn ends with a sleep. *)
Lemma poll_once_in_time (start_time : Q) (timeout_seconds : Z) (poll_interval : Q) s r s1 :
  Fetcher.timed_out (loop_time (driven s) - start_time) timeout_seconds = false ->
  Fetcher.detect_page_state s = (Ok r, s1) ->
  Fetcher.poll_once start_time timeout_seconds poll_interval s
  = if keeps_polling (state r)
    then (Ok None, snd (asyncio_sleep poll_interval s1))
    else (Ok (Some r), s1).
Proof.
  intros Hin Hdetect. unfold Fetcher.poll_once, bind at 1, get_self. rewrite Hin.
  unfold bind at 1. rewrite Hdetect. unfold keeps_polling.
  destruct r as [st msg method code]; destruct st; reflexivity.
Qed.

Context {RT : RealTime R}.

Lemma time_le_await a s : time_le s (snd (await a s)).
Proof.
  unfold time_le, await. pose proof (act_time a (driven s)) as H.
  destruct (act a (driven s)) as [r w]. exact H.
Qed.

Lemma time_le_sleep (d : Q) s : (0 <= d)%Q -> time_le s (snd (asyncio_sleep d s)).
Proof.
  intros Hd. unfold time_le, asyncio_sleep. cbn.
  pose proof (sleep_time d (driven s)). lra.
Qed.

Lemma detect_page_state_time s : time_le s (snd (Fetcher.detect_page_state s)).
Proof.
  apply (steady_detect_page_state time_le).
  - intros x. apply Qle_refl.
  - intros x y z. apply Qle_trans.
  - apply time_le_await.
  - apply time_le_sleep.
Qed.

Lemma intervals_succ (n : nat) (d : Q) : (intervals (S n) d == intervals n d + d)%Q.
Proof.
  unfold intervals. rewrite Nat2Z.inj_succ, <- Z.add_1_r, inject_Z_plus. ring.
Qed.

Lemma intervals_zero (d : Q) : (intervals 0 d == 0)%Q.
Proof. unfold intervals. cbn. ring. Qed.

(** The loop leaves within [n + 1] turns once less than [n] poll intervals
    remain before the time is up. *)
Lemma poll_loop_leaves (start_time : Q) (timeout_seconds : Z) (poll_interval : Q) :
  (0 < poll_interval)%Q ->
  forall n s,
    (inject_Z timeout_seconds - (loop_time (driven s) - start_time)
     < intervals n poll_interval)%Q ->
    exists r s',
      Fetcher.poll_loop (S n) start_time timeout_seconds poll_interval s = Some (Ok r, s') /\
      (r = Fetcher.mobile_timeout_result timeout_seconds \/ keeps_polling (state r) = false).
Proof.
  intros Hpoll n. induction n as [| n IH]; intros s Hleft.
  - assert (Hout : Fetcher.timed_out (loop_time (driven s) - start_time) timeout_seconds = true).
    { unfold Fetcher.timed_out. apply negb_true_iff, not_true_is_false.
      intros Hle. apply Qle_bool_iff in Hle.
      pose proof (intervals_zero poll_interval). lra. }
    cbn [Fetcher.poll_loop]. rewrite (poll_once_timed_out _ _ _ _ Hout). eauto.
  - cbn [Fetcher.poll_loop].
    destruct (Fetcher.timed_out (loop_time (driven s) - start_time) timeout_seconds) eqn:Hout.
    + rewrite (poll_once_timed_out _ _ _ _ Hout). eauto.
    + destruct (detect_page_state_returns s) as [r Hr].
      pose proof (detect_page_state_time s) as Htime.
      destruct (Fetcher.detect_page_state s) as [r0 s1] eqn:Hdetect. cbn in Hr. subst r0.
      rewrite (poll_once_in_time _ _ _ _ r s1 Hout Hdetect).
      destruct (keeps_polling (state r)) eqn:Hkeep.
      * apply IH.
        pose proof (sleep_time poll_interval (driven s1)) as Hsleep.
        pose proof (intervals_succ n poll_interval) as Hsucc.
        unfold time_le in Htime. cbn in Htime |- *. lra.
      * exists r, s1. split; [reflexivity | right; exact Hkeep].
Qed.

(** More turns than needed change nothing. *)
Lemma poll_loop_more_turns (start_time : Q) (timeout_seconds : Z) (poll_interval : Q)
    (n k : nat) s out :
  Fetcher.poll_loop n start_time timeout_seconds poll_interval s = Some out ->
  Fetcher.poll_loop (n + k) start_time timeout_seconds poll_interval s = Some out.
Proof.
  revert s. induction n as [| n IH]; intros s Hn; [discriminate |].
  cbn [Fetcher.poll_loop Nat.add] in *.
  destruct (Fetcher.poll_once start_time timeout_seconds poll_interval s)
    as [[[r |] | e] s1]; auto.
Qed.

Lemma enough_intervals (timeout_seconds : Z) (poll_interval : Q) :
  (0 < poll_interval)%Q ->
  (inject_Z timeout_seconds
   < intervals (S (Z.to_nat (Qfloor (inject_Z timeout_seconds / poll_interval)))) poll_interval)%Q.
Proof.
  intros Hpoll. unfold intervals.
  set (x := (inject_Z timeout_seconds / poll_interval)%Q).
  assert (Hx : (x < inject_Z (Z.of_nat (S (Z.to_nat (Qfloor x)))))%Q).
  { eapply Qlt_le_trans; [apply Qlt_floor |].
    rewrite <- Zle_Qle. lia. }
  assert (Hdiv : (inject_Z timeout_seconds == x * poll_interval)%Q).
  { unfold x. field. intros H0. rewrite H0 in Hpoll. discriminate. }
  rewrite Hdiv at 1. apply Qmult_lt_compat_r; assumption.
Qed.

End Poller.

Section PollerBound.

Context {R : Runtime}.


End PollerBound.

Example always_waiting_times_out :
  option_map fst
    (Fetcher.wait_for_mobile_approval 4 1 (1 # 2)
       (Fixture.started FixtureMobile.approval_page))
  = Some (Ok (mkPageStateResult TWOFA_MOBILE
                (Some "Mobile approval timed out after 1 seconds. Please try again.")
                (Some "mobile") None)).
Proof. vm_compute. reflexivity. Qed.

Example three_turns_are_not_enough :
  Fetcher.wait_for_mobile_approval 3 1 (1 # 2) (Fixture.started FixtureMobile.approval_page)
  = None.
Proof. vm_compute. reflexivity. Qed.


(** ** The session state machine *)

Section StateMachine.

Context {R : Runtime}.

Lemma submit_credentials_returns (username password : string) (f : LoginFetcher) :
  exists r, fst (Fetcher.submit_credentials username password f) = Ok r.
Proof.
  unfold Fetcher.submit_credentials, bind at 1, get_self.
  destruct (_page f); cbn [negb]; [apply try_except_returns | cbn; eauto].
Qed.

Lemma submit_2fa_code_returns (code : string) (f : LoginFetcher) :
  exists r, fst (Fetcher.submit_2fa_code code f) = Ok r.
Proof.
  unfold Fetcher.submit_2fa_code, bind at 1, get_self.
  destruct (_page f); cbn [negb]; [apply try_except_returns | cbn; eauto].
Qed.

Lemma save_auth_state_returns (account : string) (f : LoginFetcher) :
  exists saved, fst (Fetcher.save_auth_state account f) = Ok saved.
Proof.
  unfold Fetcher.save_auth_state, bind at 1, get_self.
  destruct (negb (_context f) || negb (_page f)); [cbn; eauto |].
  apply (try_except_returns _ (fun _ => (false, None))).
Qed.

(** The registry after [update_state] on a stored session. *)
Lemma update_state_stored (now : Z) (sid : string) (st : LoginState.t)
    (e u : option string) (r : option bool) (t : option string)
    (m : Registry.SessionManager) :
  is_Some (Registry.get_session sid m) ->
  Registry.get_fetcher sid (Registry.update_state now sid st e u r t m)
  = Registry.get_fetcher sid m /\
  exists s',
    Registry.get_session sid (Registry.update_state now sid st e u r t m) = Some s' /\
    Registry.state s' = st.
Proof.
  intros [s Hs]. unfold Registry.get_session in Hs.
  unfold Registry.update_state, Registry.get_session, Registry.get_fetcher. rewrite Hs.
  destruct (bool_decide (st = LoginState.SUCCESS) || bool_decide (st = LoginState.ERROR));
    [| destruct r]; cbn; (split; [reflexivity |]); rewrite lookup_insert_eq; eauto.
Qed.

Lemma set_fetcher_stored (sid : string) (f : LoginFetcher) (m : Registry.SessionManager) :
  Registry.get_session sid (Registry.set_fetcher sid f m) = Registry.get_session sid m /\
  Registry.get_fetcher sid (Registry.set_fetcher sid f m) = Some f.
Proof.
  unfold Registry.get_session, Registry.get_fetcher, Registry.set_fetcher. cbn.
  split; [reflexivity | apply lookup_insert_eq].
Qed.

Lemma lands_update (now : Z) (sid : string) (st : LoginState.t)
    (e u : option string) (r : option bool) (t : option string)
    (m : Registry.SessionManager) (resp : Routes.LoginResponse) (f : LoginFetcher) :
  is_Some (Registry.get_session sid m) ->
  Registry.get_fetcher sid m = Some f ->
  Routes.status resp = Routes.status_map st ->
  lands (Routes.Response resp, Registry.update_state now sid st e u r t m) sid st f.
Proof.
  intros Hs Hf Hstatus.
  destruct (update_state_stored now sid st e u r t m Hs) as (Hfetch & s' & Hs' & Hst).
  exists resp, s'. cbn. rewrite Hfetch. auto.
Qed.

(** The block run on [LOGGED_IN]: success when the hand-off to
    [save_auth_state] succeeds, an error when it does not. *)
Lemma on_logged_in_lands (now : Z) (sid during : string)
    (session : Registry.LoginSession) (f : LoginFetcher) (m : Registry.SessionManager)
    (persisted : bool) (name : option string) (f' : LoginFetcher) :
  is_Some (Registry.get_session sid m) ->
  Fetcher.save_auth_state (Registry.account session) f = (Ok (persisted, name), f') ->
  lands (Routes.on_logged_in now sid during session f m) sid
    (if persisted then LoginState.SUCCESS else LoginState.ERROR) f'.
Proof.
  intros Hs Hsave. unfold Routes.on_logged_in. rewrite Hsave.
  destruct (set_fetcher_stored sid f' m) as [Hsess Hfetch].
  destruct persisted; apply lands_update; try rewrite Hsess; auto.
Qed.

End StateMachine.

Section Transitions.

Context {R : Runtime}.

(** C2. On a session in state [INITIALIZED] with its fetcher attached,
    [submit_credentials] answers with a response and stores the state the
    table gives for the classification the fetcher returned: [LOGGED_IN]
    leads to [SUCCESS] after [save_auth_state] succeeded and to [ERROR]
    when it failed, [TWOFA_APP] and [TWOFA_SMS] lead to [WAITING_2FA],
    [TWOFA_MOBILE] to [WAITING_MOBILE], [CAPTCHA] to [CAPTCHA], and
    [TWOFA_SECURITY_KEY], [LOGIN_ERROR] and [UNKNOWN] to [ERROR].  The
    status tag of the response is the one of the stored state. *)
Theorem submit_credentials_transition
    (now : Z) (sid username password : string)
    (m : Registry.SessionManager) (session : Registry.LoginSession) (f : LoginFetcher) :
  Registry.get_session sid m = Some session ->
  Registry.state session = LoginState.INITIALIZED ->
  Registry.get_fetcher sid m = Some f ->
  exists result f1 persisted name f2,
    Fetcher.submit_credentials username password f = (Ok result, f1) /\
    Fetcher.save_auth_state (Registry.account session) f1 = (Ok (persisted, name), f2) /\
    lands (Routes.submit_credentials now sid username password m) sid
      (credentials_transition (state result) persisted)
      (if decide (state result = LOGGED_IN) then f2 else f1).
Proof.
  intros Hsession Hstate Hfetcher.
  destruct (submit_credentials_returns username password f) as [result Hresult].
  destruct (Fetcher.submit_credentials username password f) as [r f1] eqn:Hsubmit.
  cbn in Hresult. subst r.
  destruct (save_auth_state_returns (Registry.account session) f1) as [[persisted name] Hsaved].
  destruct (Fetcher.save_auth_state (Registry.account session) f1) as [sv f2] eqn:Hsave.
  cbn in Hsaved. subst sv.
  exists result, f1, persisted, name, f2.
  split; [first [reflexivity | assumption] |]. split; [first [reflexivity | assumption] |].
  unfold Routes.submit_credentials. rewrite Hsession, Hstate, Hfetcher. cbn [bool_decide negb].
  rewrite bool_decide_eq_true_2 by reflexivity. cbn [negb]. rewrite Hsubmit.
  set (m0 := Registry.update_state now sid LoginState.SUBMITTING_CREDENTIALS
               None None None None m).
  assert (Hs0 : is_Some (Registry.get_session sid m0)).
  { destruct (update_state_stored now sid LoginState.SUBMITTING_CREDENTIALS
                None None None None m) as (_ & s' & Hs' & _); [rewrite Hsession; eauto |].
    fold m0 in Hs'. rewrite Hs'. eauto. }
  destruct (set_fetcher_stored sid f1 m0) as [Hs1 Hf1].
  assert (Hstored : is_Some (Registry.get_session sid (Registry.set_fetcher sid f1 m0)))
    by (rewrite Hs1; exact Hs0).
  destruct (state result) eqn:Hst; cbn [credentials_transition];
    try (rewrite decide_False by discriminate; apply lands_update; auto; fail).
  rewrite decide_True by reflexivity.
  apply (on_logged_in_lands now sid _ session f1 _ persisted name f2 Hstored Hsave).
Qed.

(** C6 (amended). On a session in state [WAITING_2FA] with its fetcher
    attached, [submit_2fa] answers with a response and stores: for
    [LOGGED_IN], [SUCCESS] when [save_auth_state] succeeded and [ERROR] when
    it failed; for [LOGIN_ERROR], [WAITING_2FA] again; for every other
    classification, [ERROR].  After a [LOGIN_ERROR] the session and its
    fetcher are as the operation requires them, so the code can be
    submitted again, any number of times: nothing counts the attempts. *)
Theorem submit_2fa_transition
    (now : Z) (sid code : string)
    (m : Registry.SessionManager) (session : Registry.LoginSession) (f : LoginFetcher) :
  Registry.get_session sid m = Some session ->
  Registry.state session = LoginState.WAITING_2FA ->
  Registry.get_fetcher sid m = Some f ->
  exists result f1 persisted name f2,
    Fetcher.submit_2fa_code code f = (Ok result, f1) /\
    Fetcher.save_auth_state (Registry.account session) f1 = (Ok (persisted, name), f2) /\
    lands (Routes.submit_2fa now sid code m) sid
      (twofa_transition (state result) persisted)
      (if decide (state result = LOGGED_IN) then f2 else f1) /\
    (state result = LOGIN_ERROR ->
     exists session',
       Registry.get_session sid (snd (Routes.submit_2fa now sid code m)) = Some session' /\
       Registry.state session' = LoginState.WAITING_2FA /\
       Registry.get_fetcher sid (snd (Routes.submit_2fa now sid code m)) = Some f1).
Proof.
  intros Hsession Hstate Hfetcher.
  destruct (submit_2fa_code_returns code f) as [result Hresult].
  destruct (Fetcher.submit_2fa_code code f) as [r f1] eqn:Hsubmit.
  cbn in Hresult. subst r.
  destruct (save_auth_state_returns (Registry.account session) f1) as [[persisted name] Hsaved].
  destruct (Fetcher.save_auth_state (Registry.account session) f1) as [sv f2] eqn:Hsave.
  cbn in Hsaved. subst sv.
  exists result, f1, persisted, name, f2.
  split; [first [reflexivity | assumption] |]. split; [first [reflexivity | assumption] |].
  assert (Hlands : lands (Routes.submit_2fa now sid code m) sid
                     (twofa_transition (state result) persisted)
                     (if decide (state result = LOGGED_IN) then f2 else f1)).
  { unfold Routes.submit_2fa. rewrite Hsession, Hstate, Hfetcher.
    rewrite bool_decide_eq_true_2 by reflexivity. cbn [negb]. rewrite Hsubmit.
    set (m0 := Registry.update_state now sid LoginState.SUBMITTING_2FA None None None None m).
    assert (Hs0 : is_Some (Registry.get_session sid m0)).
    { destruct (update_state_stored now sid LoginState.SUBMITTING_2FA
                  None None None None m) as (_ & s' & Hs' & _); [rewrite Hsession; eauto |].
      fold m0 in Hs'. rewrite Hs'. eauto. }
    destruct (set_fetcher_stored sid f1 m0) as [Hs1 Hf1].
    assert (Hstored : is_Some (Registry.get_session sid (Registry.set_fetcher sid f1 m0)))
      by (rewrite Hs1; exact Hs0).
    destruct (decide (state result = LOGGED_IN)) as [Hin | Hnot].
    - rewrite Hin. cbn [twofa_transition].
      apply (on_logged_in_lands now sid _ session f1 _ persisted name f2 Hstored Hsave).
    - destruct (decide (state result = LOGIN_ERROR)) as [Herr | Hother].
      + rewrite Herr. cbn [twofa_transition]. apply lands_update; auto.
      + replace (twofa_transition (state result) persisted) with LoginState.ERROR
          by (destruct (state result); try reflexivity; congruence).
        apply lands_update; auto. }
  split; [exact Hlands |].
  intros Herr. destruct Hlands as (resp & session' & _ & Hs' & Hst' & _ & Hf').
  rewrite Herr in Hst', Hf'. rewrite decide_False in Hf' by discriminate.
  exists session'. auto.
Qed.

End Transitions.

Example rejected_credentials_end_in_error :
  let m := FixtureSessions.registry LoginState.INITIALIZED Fixture.banner_only in
  let out := Routes.submit_credentials 5 "s1" "bob" "secret" m in
  fst out = Routes.error_response "s1" "Incorrect username or password." /\
  FixtureSessions.state_of (snd out) = Some LoginState.ERROR /\
  fst (Routes.submit_2fa 6 "s1" "123456" (snd out))
  = Routes.HTTPException 400 "Invalid session state for 2FA: error".
Proof. vm_compute. repeat split. Qed.

Example wrong_code_can_be_retried :
  let m := FixtureSessions.registry LoginState.WAITING_2FA FixtureSessions.wrong_code in
  let once := snd (Routes.submit_2fa 5 "s1" "000000" m) in
  let twice := snd (Routes.submit_2fa 6 "s1" "111111" once) in
  let thrice := Routes.submit_2fa 7 "s1" "222222" twice in
  FixtureSessions.state_of once = Some LoginState.WAITING_2FA /\
  FixtureSessions.state_of twice = Some LoginState.WAITING_2FA /\
  FixtureSessions.state_of (snd thrice) = Some LoginState.WAITING_2FA /\
  exists resp, fst thrice = Routes.Response resp /\ Routes.status resp = "waiting_2fa".
Proof. vm_compute. repeat split. eexists. split; reflexivity. Qed.

Lemma submit_credentials_transition_witness :
  let m := FixtureSessions.registry LoginState.INITIALIZED Fixture.banner_only in
  let session := FixtureSessions.session_in LoginState.INITIALIZED in
  let f := Fixture.started Fixture.banner_only in
  Registry.get_session "s1" m = Some session /\
  Registry.state session = LoginState.INITIALIZED /\
  Registry.get_fetcher "s1" m = Some f /\
  exists result f1 persisted name f2,
    Fetcher.submit_credentials "bob" "secret" f = (Ok result, f1) /\
    Fetcher.save_auth_state (Registry.account session) f1 = (Ok (persisted, name), f2) /\
    lands (Routes.submit_credentials 5 "s1" "bob" "secret" m) "s1"
      (credentials_transition (state result) persisted)
      (if decide (state result = LOGGED_IN) then f2 else f1).
Proof.
  intros m session f. split; [reflexivity |]. split; [reflexivity |]. split; [reflexivity |].
  apply (@submit_credentials_transition Fixture.runtime 5 "s1" "bob" "secret" m session f
           eq_refl eq_refl eq_refl).
Defined.

Lemma submit_2fa_transition_witness :
  let m := FixtureSessions.registry LoginState.WAITING_2FA FixtureSessions.wrong_code in
  let session := FixtureSessions.session_in LoginState.WAITING_2FA in
  let f := Fixture.started FixtureSessions.wrong_code in
  Registry.get_session "s1" m = Some session /\
  Registry.state session = LoginState.WAITING_2FA /\
  Registry.get_fetcher "s1" m = Some f /\
  exists result f1 persisted name f2,
    Fetcher.submit_2fa_code "000000" f = (Ok result, f1) /\
    Fetcher.save_auth_state (Registry.account session) f1 = (Ok (persisted, name), f2) /\
    lands (Routes.submit_2fa 5 "s1" "000000" m) "s1"
      (twofa_transition (state result) persisted)
      (if decide (state result = LOGGED_IN) then f2 else f1) /\
    (state result = LOGIN_ERROR ->
     exists session',
       Registry.get_session "s1" (snd (Routes.submit_2fa 5 "s1" "000000" m)) = Some session' /\
       Registry.state session' = LoginState.WAITING_2FA /\
       Registry.get_fetcher "s1" (snd (Routes.submit_2fa 5 "s1" "000000" m)) = Some f1).
Proof.
  intros m session f. split; [reflexivity |]. split; [reflexivity |]. split; [reflexivity |].
  apply (@submit_2fa_transition Fixture.runtime 5 "s1" "000000" m session f
           eq_refl eq_refl eq_refl).
Defined.

(** C6 as stated fails on [LOGGED_IN]: when the storage state cannot be
    saved, the session that was waiting for its code ends in [ERROR], not in
    [SUCCESS]. *)
Lemma submit_2fa_unsaved_counterexample :
  let m := FixtureSessions.registry LoginState.WAITING_2FA FixtureSessions.signed_in_unsaved in
  let out := Routes.submit_2fa 5 "s1" "123456" m in
  FixtureSessions.state_of m = Some LoginState.WAITING_2FA /\
  fst (Fetcher.submit_2fa_code "123456" (Fixture.started FixtureSessions.signed_in_unsaved))
  = Ok (result_of LOGGED_IN) /\
  FixtureSessions.state_of (snd out) = Some LoginState.ERROR /\
  FixtureSessions.state_of (snd out) <> Some LoginState.SUCCESS /\
  fst out = Routes.error_response "s1" "Failed to save auth state".
Proof. vm_compute. repeat split. discriminate. Qed.

(** ** Operations out of turn, and cancellation *)

Section Guards.

Context {R : Runtime}.

(** C3. An operation invoked on a session that is not in the state the
    operation requires ([INITIALIZED] for the credentials, [WAITING_2FA] for
    the code, [WAITING_MOBILE] for the mobile wait) is answered with the
    client error 400 (invalid session state), and the registry, hence every
    field of the session, is left exactly as it was. *)
Theorem out_of_turn_rejected
    (turns : nat) (now : Z) (sid : string) (op : operation)
    (m : Registry.SessionManager) (session : Registry.LoginSession)
    (required : LoginState.t) :
  Registry.get_session sid m = Some session ->
  required_state op = Some required ->
  Registry.state session <> required ->
  exists detail,
    invoke turns now sid op m = Some (Routes.HTTPException 400 detail, m) /\
    PyStr.startswith "Invalid session state for " detail = true.
Proof.
  intros Hsession Hrequired Hstate.
  destruct op as [username password | code | timeout_seconds |];
    cbn in Hrequired; [| | | discriminate]; injection Hrequired as <-;
    cbn [invoke];
    unfold Routes.submit_credentials, Routes.submit_2fa, Routes.wait_for_mobile_2fa;
    rewrite Hsession, bool_decide_eq_false_2 by exact Hstate; cbn [negb];
    eexists; (split; [reflexivity |]); reflexivity.
Qed.

(** C4 (amended). Cancelling a stored session succeeds, whatever its state,
    and removes the session and its fetcher from the registry.  From then on
    the status query and every operation on that id, a second cancel
    included, are answered with the client error 404 (session not found)
    and change nothing.  Closing the fetcher itself a second time does
    nothing. *)
Theorem cancel_then_not_found
    (sid : string) (m : Registry.SessionManager) (session : Registry.LoginSession) :
  Registry.get_session sid m = Some session ->
  exists resp m',
    Routes.cancel_login sid m = (Routes.Response resp, m') /\
    Routes.message resp = Some "Session cancelled" /\
    Registry.get_session sid m' = None /\
    Registry.get_fetcher sid m' = None /\
    Routes.get_login_status sid m' = Routes.session_not_found /\
    (forall turns now op,
       invoke turns now sid op m' = Some (Routes.session_not_found, m')) /\
    (forall f, Fetcher.close (snd (Fetcher.close f)) = (Ok tt, snd (Fetcher.close f))).
Proof.
  intros Hsession. unfold Routes.cancel_login. rewrite Hsession.
  eexists; eexists. split; [reflexivity |]. split; [reflexivity |].
  match goal with
  | |- Registry.get_session sid ?m' = None /\ _ =>
      assert (Hgone : Registry.get_session sid m' = None)
  end.
  { unfold Registry.get_session, Registry.remove_session. cbn. apply lookup_delete_eq. }
  split; [exact Hgone |]. split.
  { unfold Registry.get_fetcher, Registry.remove_session. cbn. apply lookup_delete_eq. }
  split.
  { unfold Routes.get_login_status. rewrite Hgone. reflexivity. }
  split; [| apply close_twice].
  intros turns now op. destruct op; cbn [invoke];
    unfold Routes.submit_credentials, Routes.submit_2fa, Routes.wait_for_mobile_2fa,
      Routes.cancel_login; rewrite Hgone; reflexivity.
Qed.

End Guards.

Lemma out_of_turn_rejected_witness :
  let m := FixtureSessions.registry LoginState.ERROR Fixture.banner_only in
  Registry.get_session "s1" m = Some (FixtureSessions.session_in LoginState.ERROR) /\
  required_state (SubmitTwoFactor "123456") = Some LoginState.WAITING_2FA /\
  LoginState.ERROR <> LoginState.WAITING_2FA /\
  exists detail,
    invoke 0 5 "s1" (SubmitTwoFactor "123456") m = Some (Routes.HTTPException 400 detail, m) /\
    PyStr.startswith "Invalid session state for " detail = true.
Proof.
  intros m.
  assert (Hne : LoginState.ERROR <> LoginState.WAITING_2FA) by discriminate.
  split; [reflexivity |]. split; [reflexivity |]. split; [exact Hne |].
  apply (@out_of_turn_rejected Fixture.runtime 0 5 "s1" (SubmitTwoFactor "123456") m
           (FixtureSessions.session_in LoginState.ERROR) LoginState.WAITING_2FA
           eq_refl eq_refl Hne).
Defined.

Lemma cancel_then_not_found_witness :
  let m := FixtureSessions.registry LoginState.WAITING_MOBILE FixtureMobile.approval_page in
  Registry.get_session "s1" m = Some (FixtureSessions.session_in LoginState.WAITING_MOBILE) /\
  exists resp m',
    Routes.cancel_login "s1" m = (Routes.Response resp, m') /\
    Routes.message resp = Some "Session cancelled" /\
    Registry.get_session "s1" m' = None /\
    Registry.get_fetcher "s1" m' = None /\
    Routes.get_login_status "s1" m' = Routes.session_not_found /\
    (forall turns now op,
       invoke turns now "s1" op m' = Some (Routes.session_not_found, m')) /\
    (forall f : @LoginFetcher Fixture.runtime,
        Fetcher.close (snd (Fetcher.close f)) = (Ok tt, snd (Fetcher.close f))).
Proof.
  intros m. split; [reflexivity |].
  apply (@cancel_then_not_found Fixture.runtime "s1" m
           (FixtureSessions.session_in LoginState.WAITING_MOBILE) eq_refl).
Defined.

(** C4 as stated fails: the second cancel of the same session id is not a
    success, it is answered with 404. *)
Lemma cancel_twice_counterexample :
  let m := FixtureSessions.registry LoginState.INITIALIZED Fixture.banner_only in
  let first := Routes.cancel_login "s1" m in
  let second := Routes.cancel_login "s1" (snd first) in
  (exists resp, fst first = Routes.Response resp) /\
  fst second = Routes.HTTPException 404 "Session not found or expired" /\
  (forall resp, fst second <> Routes.Response resp).
Proof.
  vm_compute. split; [eexists; reflexivity |]. split; [reflexivity |].
  intros resp. discriminate.
Qed.

(** * Further properties *)

(** ** What the methods return *)

Section Yields.

Context {R : Runtime}.

Lemma yields_ret {A} (P : A -> Prop) (a : A) : P a -> yields P (ret a).
Proof. intros Ha s b s' Heq. injection Heq as <- _. exact Ha. Qed.

Lemma yields_raise {A} (P : A -> Prop) (e : string) : yields P (@raise R A e).
Proof. intros s b s' Heq. discriminate. Qed.

Lemma yields_bind_with {A B} (Q : A -> Prop) (P : B -> Prop) (m : M A) (k : A -> M B) :
  yields Q m -> (forall a, Q a -> yields P (k a)) -> yields P (bind m k).
Proof.
  intros Hm Hk s b s' Heq. unfold bind in Heq.
  destruct (m s) as [[a | e] s1] eqn:Hms; [| discriminate].
  exact (Hk a (Hm s a s1 Hms) s1 b s' Heq).
Qed.

Lemma yields_bind {A B} (P : B -> Prop) (m : M A) (k : A -> M B) :
  (forall a, yields P (k a)) -> yields P (bind m k).
Proof.
  intros Hk. apply (yields_bind_with (fun _ => True)); [intros s a s' _; exact I | auto].
Qed.

Lemma yields_try {A} (P : A -> Prop) (body : M A) (handler : string -> M A) :
  yields P body -> (forall e, yields P (handler e)) -> yields P (try_except body handler).
Proof.
  intros Hb Hh s a s' Heq. unfold try_except in Heq.
  destruct (body s) as [[b | e] s1] eqn:Hbs.
  - injection Heq as <- <-. exact (Hb s b s1 Hbs).
  - exact (Hh e s1 a s' Heq).
Qed.

Lemma yields_weaken {A} (P Q : A -> Prop) (m : M A) :
  (forall a, P a -> Q a) -> yields P m -> yields Q m.
Proof. intros HPQ Hm s a s' Heq. exact (HPQ a (Hm s a s' Heq)). Qed.

(** Takes a method apart along its binds, handlers and branches; what is
    known about a method called on the way is taken from the context. *)
Ltac yields_step :=
  first
    [ apply yields_raise
    | match goal with H : yields _ _ |- _ => exact H end
    | match goal with H : forall _, yields _ _ |- _ => apply H end
    | match goal with H : forall _ _, yields _ _ |- _ => apply H end
    | apply yields_try; [ | intros ? ]
    | eapply yields_bind_with;
        [ match goal with
          | H : yields _ _ |- _ => exact H
          | H : forall _, yields _ _ |- _ => apply H
          end
        | intros ? ? ]
    | apply yields_bind; intros ?
    | match goal with
      | |- yields _ (if ?b then _ else _) => destruct b eqn:?
      | |- yields _ (match ?x with _ => _ end) => destruct x eqn:?
      | |- yields _ (let _ := _ in _) => cbv zeta
      end
    | apply yields_ret ].

Ltac yields_auto := repeat yields_step.

Lemma digits_of_all_digits (t : string) : all_digits (PyStr.digits_of t) = true.
Proof.
  induction t as [| c r IH]; cbn; [reflexivity |].
  destruct (PyStr.is_digit c) eqn:Hc; cbn; [rewrite Hc; exact IH | exact IH].
Qed.

Lemma first_two_digit_from_digits (s : string) : forall prev_word d,
  PyStr.first_two_digit_from prev_word s = Some d ->
  all_digits d = true /\ String.length d = 2%nat.
Proof.
  induction s as [| a r IH]; intros prev_word d Hd; cbn [PyStr.first_two_digit_from] in Hd;
    [discriminate |].
  destruct r as [| b t]; [cbn in Hd; discriminate |].
  destruct (PyStr.is_digit a && PyStr.is_digit b && negb prev_word &&
            match t with
            | EmptyString => true
            | String c _ => negb (PyStr.is_word c)
            end) eqn:Hmatch.
  - injection Hd as <-.
    apply andb_prop in Hmatch as [Hmatch _]. apply andb_prop in Hmatch as [Hmatch _].
    apply andb_prop in Hmatch as [Ha Hb]. cbn. rewrite Ha, Hb. split; reflexivity.
  - exact (IH _ _ Hd).
Qed.

Lemma scan_code_selectors_yields (sels : list string) :
  yields code_ok (Fetcher.scan_code_selectors sels).
Proof.
  induction sels as [| sel rest IH]; cbn [Fetcher.scan_code_selectors].
  - apply yields_ret. exact I.
  - apply yields_bind; intros n.
    apply (yields_bind_with code_ok).
    + yields_auto; try exact I.
      split; [apply digits_of_all_digits |].
      match goal with H : (2 <=? _)%nat = true |- _ => apply Nat.leb_le in H; exact H end.
    + intros found Hfound. destruct found as [d |]; [apply yields_ret; exact Hfound | exact IH].
Qed.

Lemma extract_code_yields : yields code_ok Fetcher._extract_mobile_verification_code.
Proof.
  unfold Fetcher._extract_mobile_verification_code.
  apply yields_try; [| intros e; apply yields_ret; exact I].
  apply (yields_bind_with code_ok); [apply scan_code_selectors_yields |].
  intros found Hfound. destruct found as [d |]; [apply yields_ret; exact Hfound |].
  apply yields_bind; intros text.
  destruct (PyStr.first_two_digit_token (PyStr.or_else text EmptyString)) as [d |] eqn:Hd;
    apply yields_ret; [| exact I].
  destruct (first_two_digit_from_digits _ _ _ Hd) as [Hdigits Hlen].
  split; [exact Hdigits | rewrite Hlen; lia].
Qed.

(** An alternate banner is only reported with some text left after
    stripping. *)
Lemma scan_error_selectors_yields (sels : list string) :
  yields (fun found => forall msg, found = Some msg -> PyStr.truthy msg = true)
    (Fetcher.scan_error_selectors sels).
Proof.
  induction sels as [| sel rest IH]; cbn [Fetcher.scan_error_selectors].
  - apply yields_ret. discriminate.
  - apply yields_bind; intros n.
    apply (yields_bind_with
             (fun found => forall msg, found = Some msg -> PyStr.truthy msg = true)).
    + yields_auto; try discriminate.
      intros msg Hmsg. injection Hmsg as <-.
      match goal with H : _ && _ = true |- _ => apply andb_prop in H as [_ H]; exact H end.
    + intros found Hfound. destruct found as [m |]; [| exact IH].
      apply yields_ret. exact Hfound.
Qed.

Ltac well_formed_now :=
  unfold well_formed; cbn;
  repeat match goal with
         | |- _ /\ _ => split
         end;
  first [ reflexivity | assumption | exact I | left; reflexivity
        | right; eexists; reflexivity
        | eexists; split; [reflexivity | assumption] ].

Lemma detect_errors_and_form_well_formed : yields well_formed Fetcher.detect_errors_and_form.
Proof.
  unfold Fetcher.detect_errors_and_form.
  pose proof scan_error_selectors_yields as Halt.
  apply yields_bind; intros flash_error_count.
  apply (yields_bind_with
           (fun found => forall msg, found = Some msg -> PyStr.truthy msg = true)).
  - yields_auto; try discriminate.
    intros msg Hmsg. injection Hmsg as <-. assumption.
  - intros banner Hbanner. destruct banner as [error_msg |].
    + apply yields_ret. pose proof (Hbanner error_msg eq_refl). well_formed_now.
    + eapply yields_bind_with; [apply Halt |]. intros alt Hfound.
      destruct alt as [msg |].
      * apply yields_ret. pose proof (Hfound msg eq_refl). well_formed_now.
      * yields_auto; well_formed_now.
Qed.

Lemma detect_otp_inputs_well_formed : yields well_formed Fetcher.detect_otp_inputs.
Proof.
  unfold Fetcher.detect_otp_inputs.
  pose proof detect_errors_and_form_well_formed.
  yields_auto; well_formed_now.
Qed.

Lemma detect_security_key_well_formed (again : M PageStateResult) (current_url : string) :
  yields well_formed again ->
  yields well_formed (Fetcher.detect_security_key again current_url).
Proof.
  intros Hagain. unfold Fetcher.detect_security_key.
  pose proof detect_otp_inputs_well_formed.
  yields_auto; well_formed_now.
Qed.

Lemma detect_page_state_body_well_formed (again : M PageStateResult) :
  yields well_formed again -> yields well_formed (Fetcher.detect_page_state_body again).
Proof.
  intros Hagain. unfold Fetcher.detect_page_state_body.
  pose proof extract_code_yields.
  pose proof (fun u => detect_security_key_well_formed again u Hagain).
  yields_auto; well_formed_now.
Qed.

Lemma detect_page_state_at_well_formed (depth : nat) :
  yields well_formed (Fetcher.detect_page_state_at depth).
Proof.
  induction depth as [| d IH]; cbn [Fetcher.detect_page_state_at];
    apply detect_page_state_body_well_formed; [apply yields_raise | exact IH].
Qed.

End Yields.

Section ResultContracts.

Context {R : Runtime}.


Lemma own_failure_intro (msg : string) :
  own_failure (mkPageStateResult UNKNOWN (Some msg) None None).
Proof. unfold own_failure. cbn. eauto. Qed.

(** Follows the syntax of a method; [Hdetect] tells what the classification
    it ends with returns. *)
Ltac contract_steps Hdetect :=
  repeat match goal with
         | |- yields _ (try_except ?body ?handler) =>
             apply (yields_try _ body handler); [ | intros ? ]
         | |- yields _ (bind Fetcher.detect_page_state ?k) =>
             apply (yields_bind_with _ _ Fetcher.detect_page_state k Hdetect); intros ? ?
         | |- yields _ (bind ?m ?k) => apply (yields_bind _ m k); intros ?
         | |- yields _ (if ?b then _ else _) => destruct b
         | |- yields _ (match ?x with _ => _ end) => destruct x
         | |- yields _ (ret ?a) => apply yields_ret
         end;
  first [ assumption | right; apply own_failure_intro ].

Lemma submit_credentials_yields (username password : string) :
  yields (fun r => well_formed r \/ own_failure r)
    (Fetcher.submit_credentials username password).
Proof.
  pose proof (detect_page_state_at_well_formed recursion_limit) as Hdetect.
  fold Fetcher.detect_page_state in Hdetect.
  assert (Hweak : yields (fun r => well_formed r \/ own_failure r) Fetcher.detect_page_state).
  { eapply yields_weaken; [| exact Hdetect]. intros r Hr. left. exact Hr. }
  unfold Fetcher.submit_credentials. contract_steps Hweak.
Qed.

Lemma submit_2fa_code_yields (code : string) :
  yields (fun r => well_formed r \/ own_failure r) (Fetcher.submit_2fa_code code).
Proof.
  pose proof (detect_page_state_at_well_formed recursion_limit) as Hdetect.
  fold Fetcher.detect_page_state in Hdetect.
  assert (Hweak : yields (fun r => well_formed r \/ own_failure r) Fetcher.detect_page_state).
  { eapply yields_weaken; [| exact Hdetect]. intros r Hr. left. exact Hr. }
  unfold Fetcher.submit_2fa_code. contract_steps Hweak.
Qed.


End ResultContracts.

Section PollerContract.

Context {R : Runtime}.

Lemma poll_loop_contract (start_time : Q) (timeout_seconds : Z) (poll_interval : Q) :
  forall turns s out,
    Fetcher.poll_loop turns start_time timeout_seconds poll_interval s = Some out ->
    exists r,
      fst out = Ok r /\
      (r = Fetcher.mobile_timeout_result timeout_seconds \/
       (well_formed r /\ keeps_polling (state r) = false)).
Proof.
  induction turns as [| n IH]; intros s out Hout; [discriminate |].
  cbn [Fetcher.poll_loop] in Hout.
  destruct (Fetcher.timed_out (loop_time (driven s) - start_time) timeout_seconds) eqn:Htime.
  - rewrite (poll_once_timed_out _ _ _ _ Htime) in Hout. injection Hout as <-.
    eexists. split; [reflexivity | left; reflexivity].
  - destruct (detect_page_state_returns s) as [r Hr].
    destruct (Fetcher.detect_page_state s) as [r0 s1] eqn:Hdetect. cbn in Hr. subst r0.
    rewrite (poll_once_in_time _ _ _ _ r s1 Htime Hdetect) in Hout.
    destruct (keeps_polling (state r)) eqn:Hkeep.
    + exact (IH _ _ Hout).
    + injection Hout as <-. exists r. split; [reflexivity |]. right. split; [| exact Hkeep].
      exact (detect_page_state_at_well_formed recursion_limit s r s1 Hdetect).
Qed.

(** X3. Whenever [wait_for_mobile_approval] returns, it returns normally,
    and its result is one of three: the [Browser not started] answer, the
    timeout answer, or a classification with the fields of its state that is
    neither [TWOFA_MOBILE] nor [UNKNOWN].  So a [TWOFA_MOBILE] result always
    is the timeout answer with its message, and an [UNKNOWN] result always
    means that no page was attached. *)
Theorem wait_for_mobile_approval_contract
    (turns : nat) (timeout_seconds : Z) (poll_interval : Q)
    (self : LoginFetcher) (out : res PageStateResult * LoginFetcher) :
  Fetcher.wait_for_mobile_approval turns timeout_seconds poll_interval self = Some out ->
  exists r,
    fst out = Ok r /\
    (r = browser_not_started \/
     r = Fetcher.mobile_timeout_result timeout_seconds \/
     (well_formed r /\ keeps_polling (state r) = false)) /\
    (state r = TWOFA_MOBILE -> r = Fetcher.mobile_timeout_result timeout_seconds) /\
    (state r = UNKNOWN -> r = browser_not_started /\ _page self = false).
Proof.
  intros Hout. unfold Fetcher.wait_for_mobile_approval in Hout.
  destruct (_page self) eqn:Hpage; cbn [negb] in Hout.
  - destruct (poll_loop_contract _ _ _ _ _ _ Hout) as (r & Hr & Hkind).
    exists r. split; [exact Hr |].
    destruct Hkind as [-> | [Hwf Hkeep]].
    + split; [right; left; reflexivity |]. split; [reflexivity | discriminate].
    + split; [right; right; split; assumption |].
      split; intros Hst; rewrite Hst in Hkeep; discriminate.
  - injection Hout as <-. exists browser_not_started.
    split; [reflexivity |]. split; [left; reflexivity |].
    split; [discriminate | intros _; split; reflexivity].
Qed.


End PollerContract.

(** ** The rules of the classifier, one by one *)

Section ClassifierRules.

Context {R : Runtime}.

Lemma first_present_all_absent (self : LoginFetcher) (sels : list string) :
  all_absent (driven self) sels -> Fetcher.first_present sels self = (Ok None, self).
Proof. intros H. apply first_present_absent. exact H. Qed.

(** The checks left once nobody is signed in and no CAPTCHA is shown. *)
Lemma detect_past_captcha (again : M PageStateResult) (self : LoginFetcher) :
  past_captcha self ->
  Fetcher.detect_page_state_body again self
  = try_except
      (if PyStr.contains "two-factor/mobile" (page_url (driven self)) then
         verification_code <- Fetcher._extract_mobile_verification_code;;
         ret (mkPageStateResult TWOFA_MOBILE None (Some "mobile") verification_code)
       else
         mobile <- Fetcher.first_present Sel.mobile_indicators;;
         match mobile with
         | Some _ => ret (mkPageStateResult TWOFA_MOBILE None (Some "mobile") None)
         | None => Fetcher.detect_security_key again (page_url (driven self))
         end)
      (fun e => ret (detection_failure e)) self.
Proof.
  intros (Hpage & Hmenu & Hcaptcha).
  unfold Fetcher.detect_page_state_body, bind at 1, get_self. rewrite Hpage. cbn [negb].
  unfold try_except, bind at 1, probe at 1. rewrite Hmenu. cbn [Nat.ltb Nat.leb].
  unfold bind at 1. rewrite (first_present_all_absent self _ Hcaptcha). reflexivity.
Qed.

(** X5. The CAPTCHA rule comes second: when nobody is signed in and one of
    the CAPTCHA indicators is present, the result is [CAPTCHA] with its fixed
    message, whatever the address and the rest of the page are; nothing is
    awaited. *)
Theorem detect_page_state_captcha
    (depth : nat) (self : LoginFetcher)
    (before after : list string) (indicator : string) (n : nat) :
  _page self = true ->
  count (driven self) Sel.user_menu = Ok 0%nat ->
  Sel.captcha_indicators = (before ++ indicator :: after)%list ->
  all_absent (driven self) before ->
  count (driven self) indicator = Ok n -> (0 < n)%nat ->
  Fetcher.detect_page_state_at depth self
  = (Ok (mkPageStateResult CAPTCHA
           (Some "CAPTCHA required. Use --headed-login flag to login manually.")
           None None),
     self).
Proof.
  intros Hpage Hmenu Hsplit Hbefore Hcount Hn.
  pose proof (first_present_found self before after indicator n Hbefore Hcount Hn) as Hfound.
  rewrite <- Hsplit in Hfound.
  destruct depth; cbn [Fetcher.detect_page_state_at];
    unfold Fetcher.detect_page_state_body, bind at 1, get_self; rewrite Hpage; cbn [negb];
    unfold try_except, bind at 1, probe at 1; rewrite Hmenu; cbn [Nat.ltb Nat.leb];
    unfold bind at 1; rewrite Hfound; reflexivity.
Qed.


Lemma detect_past_mobile (again : M PageStateResult) (self : LoginFetcher) :
  past_mobile self ->
  Fetcher.detect_page_state_body again self
  = try_except (Fetcher.detect_security_key again (page_url (driven self)))
      (fun e => ret (detection_failure e)) self.
Proof.
  intros (Hpast & Hurl & Hmobile).
  rewrite (detect_past_captcha again self Hpast), Hurl.
  unfold try_except, bind at 1. rewrite (first_present_all_absent self _ Hmobile).
  reflexivity.
Qed.

(** A [try] around something that returns changes nothing. *)
Lemma try_except_of_return {A} (body : M A) (handler : string -> M A) (s : LoginFetcher) :
  (exists a, fst (body s) = Ok a) -> try_except body handler s = body s.
Proof.
  intros [a Ha]. unfold try_except. destruct (body s) as [[b | e] s1]; [reflexivity |].
  discriminate.
Qed.


Lemma detect_past_second_factor (again : M PageStateResult) (self : LoginFetcher) :
  past_second_factor self ->
  Fetcher.detect_page_state_body again self
  = try_except Fetcher.detect_errors_and_form (fun e => ret (detection_failure e)) self.
Proof.
  intros (Hpast & Hurl & Hbutton & Hotp & html & Hcontent & Hno1 & Hno2).
  rewrite (detect_past_mobile again self Hpast).
  unfold on_security_key_url in Hurl.
  unfold Fetcher.detect_security_key. rewrite Hurl.
  unfold try_except, bind at 1, probe at 1. rewrite Hbutton. cbn [Nat.ltb Nat.leb].
  unfold Fetcher.detect_otp_inputs, bind at 1, probe at 1. rewrite Hotp. cbn [Nat.ltb Nat.leb].
  unfold bind at 1, probe at 1. rewrite Hcontent, Hno1, Hno2. reflexivity.
Qed.

Lemma scan_error_selectors_absent (self : LoginFetcher) (sels : list string) :
  all_absent (driven self) sels -> Fetcher.scan_error_selectors sels self = (Ok None, self).
Proof.
  induction sels as [| sel rest IH]; intros Habsent; cbn [Fetcher.scan_error_selectors].
  - reflexivity.
  - unfold bind at 1, probe at 1. rewrite (Habsent sel (or_introl eq_refl)).
    cbn [Nat.ltb Nat.leb]. unfold bind at 1. cbn [ret].
    apply IH. intros s Hs. apply Habsent. right. exact Hs.
Qed.


End ClassifierRules.

(** ** What the methods await *)

Section IssuesOnly.

Context {R : Runtime}.

Variable P : action -> Prop.

Lemma awaited_since_refl (s : LoginFetcher) : awaited_since P s s.
Proof. exists []. split; [reflexivity | constructor]. Qed.

Lemma awaited_since_trans (s1 s2 s3 : LoginFetcher) :
  awaited_since P s1 s2 -> awaited_since P s2 s3 -> awaited_since P s1 s3.
Proof.
  intros (l1 & H1 & F1) (l2 & H2 & F2). exists (l2 ++ l1)%list. split.
  - rewrite H2, H1. apply app_assoc.
  - apply Forall_app. split; assumption.
Qed.

Lemma issues_only_ret {A} (a : A) : issues_only P (ret a).
Proof. intros s. apply awaited_since_refl. Qed.

Lemma issues_only_raise {A} (e : string) : issues_only P (@raise R A e).
Proof. intros s. apply awaited_since_refl. Qed.

Lemma issues_only_get_self : issues_only P get_self.
Proof. intros s. apply awaited_since_refl. Qed.

Lemma issues_only_probe {A} (read : world -> res A) : issues_only P (probe read).
Proof. intros s. apply awaited_since_refl. Qed.

Lemma issues_only_sleep (d : Q) : issues_only P (asyncio_sleep d).
Proof. intros s. exists []. split; [reflexivity | constructor]. Qed.

Lemma issues_only_await (a : action) : P a -> issues_only P (await a).
Proof.
  intros Ha s. unfold await. destruct (act a (driven s)) as [r w].
  exists [a]. split; [reflexivity | constructor; [exact Ha | constructor]].
Qed.

Lemma issues_only_bind {A B} (m : M A) (k : A -> M B) :
  issues_only P m -> (forall a, issues_only P (k a)) -> issues_only P (bind m k).
Proof.
  intros Hm Hk s. unfold bind. specialize (Hm s).
  destruct (m s) as [[a | e] s1]; cbn in *.
  - eapply awaited_since_trans; [exact Hm | apply Hk].
  - exact Hm.
Qed.

Lemma issues_only_try {A} (body : M A) (handler : string -> M A) :
  issues_only P body -> (forall e, issues_only P (handler e)) ->
  issues_only P (try_except body handler).
Proof.
  intros Hb Hh s. unfold try_except. specialize (Hb s).
  destruct (body s) as [[a | e] s1]; cbn in *.
  - exact Hb.
  - eapply awaited_since_trans; [exact Hb | apply Hh].
Qed.

End IssuesOnly.

Section Observers.

Context {R : Runtime}.

(** Follows the syntax of a method; a step that awaits leaves its action to
    be checked. *)
Ltac issues_step :=
  match goal with
  | H : issues_only _ ?m |- issues_only _ ?m => exact H
  | H : forall x, issues_only _ (?f x) |- issues_only _ (?f _) => apply H
  | |- issues_only _ (try_except ?body ?handler) =>
      apply (issues_only_try _ body handler); [ | intros ? ]
  | |- issues_only _ (bind ?m ?k) => apply (issues_only_bind _ m k); [ | intros ? ]
  | |- issues_only _ (ret _) => apply issues_only_ret
  | |- issues_only _ (raise _) => apply issues_only_raise
  | |- issues_only _ get_self => apply issues_only_get_self
  | |- issues_only _ (probe _) => apply issues_only_probe
  | |- issues_only _ (asyncio_sleep _) => apply issues_only_sleep
  | |- issues_only _ (await _) => apply issues_only_await
  | |- issues_only _ (if ?b then _ else _) => destruct b
  | |- issues_only _ (match ?x with _ => _ end) => destruct x
  | |- issues_only _ (let _ := _ in _) => cbv zeta
  end.

Ltac issues_auto := repeat issues_step.

Variable P : action -> Prop.
Hypothesis P_observing : forall a, observing a -> P a.

Lemma first_present_issues (sels : list string) : issues_only P (Fetcher.first_present sels).
Proof. induction sels as [| sel rest IH]; cbn [Fetcher.first_present]; issues_auto. Qed.

Lemma save_debug_screenshot_issues (name : string) :
  issues_only P (Fetcher.save_debug_screenshot name).
Proof.
  unfold Fetcher.save_debug_screenshot. issues_auto. apply P_observing. exact I.
Qed.

Lemma scan_code_selectors_issues (sels : list string) :
  issues_only P (Fetcher.scan_code_selectors sels).
Proof. induction sels as [| sel rest IH]; cbn [Fetcher.scan_code_selectors]; issues_auto. Qed.

Lemma extract_code_issues : issues_only P Fetcher._extract_mobile_verification_code.
Proof.
  unfold Fetcher._extract_mobile_verification_code.
  pose proof scan_code_selectors_issues. issues_auto.
Qed.

Lemma scan_error_selectors_issues (sels : list string) :
  issues_only P (Fetcher.scan_error_selectors sels).
Proof. induction sels as [| sel rest IH]; cbn [Fetcher.scan_error_selectors]; issues_auto. Qed.

Lemma detect_errors_and_form_issues : issues_only P Fetcher.detect_errors_and_form.
Proof.
  unfold Fetcher.detect_errors_and_form.
  pose proof save_debug_screenshot_issues. pose proof scan_error_selectors_issues.
  issues_auto.
Qed.

Lemma detect_otp_inputs_issues : issues_only P Fetcher.detect_otp_inputs.
Proof.
  unfold Fetcher.detect_otp_inputs. pose proof detect_errors_and_form_issues. issues_auto.
Qed.

Lemma detect_security_key_issues (again : M PageStateResult) (current_url : string) :
  issues_only P again -> issues_only P (Fetcher.detect_security_key again current_url).
Proof.
  intros Hagain. unfold Fetcher.detect_security_key.
  pose proof save_debug_screenshot_issues. pose proof detect_otp_inputs_issues.
  issues_auto. apply P_observing. exact I.
Qed.

Lemma detect_page_state_body_issues (again : M PageStateResult) :
  issues_only P again -> issues_only P (Fetcher.detect_page_state_body again).
Proof.
  intros Hagain. unfold Fetcher.detect_page_state_body.
  pose proof first_present_issues. pose proof extract_code_issues.
  pose proof (fun u => detect_security_key_issues again u Hagain).
  issues_auto.
Qed.

Lemma detect_page_state_at_issues (depth : nat) :
  issues_only P (Fetcher.detect_page_state_at depth).
Proof.
  induction depth as [| d IH]; cbn [Fetcher.detect_page_state_at];
    apply detect_page_state_body_issues; [apply issues_only_raise | exact IH].
Qed.

Lemma detect_page_state_issues : issues_only P Fetcher.detect_page_state.
Proof. apply detect_page_state_at_issues. Qed.

Lemma poll_once_issues (start_time : Q) (timeout_seconds : Z) (poll_interval : Q) :
  issues_only P (Fetcher.poll_once start_time timeout_seconds poll_interval).
Proof.
  unfold Fetcher.poll_once.
  pose proof save_debug_screenshot_issues. pose proof detect_page_state_issues.
  issues_auto.
Qed.

Lemma poll_loop_issues (start_time : Q) (timeout_seconds : Z) (poll_interval : Q) :
  forall turns s out,
    Fetcher.poll_loop turns start_time timeout_seconds poll_interval s = Some out ->
    awaited_since P s (snd out).
Proof.
  induction turns as [| n IH]; intros s out Hout; [discriminate |].
  cbn [Fetcher.poll_loop] in Hout.
  pose proof (poll_once_issues start_time timeout_seconds poll_interval s) as Honce.
  destruct (Fetcher.poll_once start_time timeout_seconds poll_interval s)
    as [[[r |] | e] s1]; cbn in Honce.
  - injection Hout as <-. exact Honce.
  - eapply awaited_since_trans; [exact Honce | exact (IH _ _ Hout)].
  - injection Hout as <-. exact Honce.
Qed.

End Observers.

Section WhatIsAwaited.

Context {R : Runtime}.

Lemma issues_only_bind_with {A B} (P : action -> Prop) (Q : A -> Prop)
    (m : M A) (k : A -> M B) :
  yields Q m -> issues_only P m -> (forall a, Q a -> issues_only P (k a)) ->
  issues_only P (bind m k).
Proof.
  intros Hq Hm Hk s. unfold bind. specialize (Hm s).
  destruct (m s) as [[a | e] s1] eqn:Hms; cbn in *.
  - eapply awaited_since_trans; [exact Hm | apply (Hk a (Hq s a s1 Hms))].
  - exact Hm.
Qed.

Lemma first_present_yields (sels : list string) :
  yields (fun found => forall sel, found = Some sel -> In sel sels)
    (Fetcher.first_present sels).
Proof.
  induction sels as [| s rest IH]; cbn [Fetcher.first_present].
  - apply yields_ret. discriminate.
  - apply yields_bind; intros n. destruct (0 <? n)%nat.
    + apply yields_ret. intros sel Hsel. injection Hsel as <-. left. reflexivity.
    + eapply yields_weaken; [| exact IH]. intros found Hfound sel Hsel.
      right. exact (Hfound sel Hsel).
Qed.


Ltac issues_step' :=
  match goal with
  | H : issues_only _ ?m |- issues_only _ ?m => exact H
  | |- issues_only _ (try_except ?body ?handler) =>
      apply (issues_only_try _ body handler); [ | intros ? ]
  | |- issues_only _ (bind ?m ?k) => apply (issues_only_bind _ m k); [ | intros ? ]
  | |- issues_only _ (ret _) => apply issues_only_ret
  | |- issues_only _ get_self => apply issues_only_get_self
  | |- issues_only _ (asyncio_sleep _) => apply issues_only_sleep
  | |- issues_only _ (await _) => apply issues_only_await
  | |- issues_only _ (if ?b then _ else _) => destruct b
  end.

(** X10. The secrets go where they belong.  Everything [submit_credentials]
    awaits is the wait for the login input, the fill of the login input with
    the user name, the fill of the password input with the password, the
    click on the submit control, the wait for the load, or an observation
    of the classifier; in particular the password is never typed anywhere
    but into the password input.  Likewise [submit_2fa_code] types the code
    into one of its four code inputs and nowhere else. *)
Theorem submissions_fill_only_their_fields
    (self : LoginFetcher) (username password code : string) :
  awaited_since (credentials_step username password) self
    (snd (Fetcher.submit_credentials username password self)) /\
  awaited_since (twofa_step code) self (snd (Fetcher.submit_2fa_code code self)).
Proof.
  split.
  - revert self.
    change (issues_only (credentials_step username password)
              (Fetcher.submit_credentials username password)).
    assert (Hdetect : issues_only (credentials_step username password)
                        Fetcher.detect_page_state).
    { apply detect_page_state_issues. intros a Ha. unfold credentials_step. tauto. }
    unfold Fetcher.submit_credentials.
    repeat issues_step'; unfold credentials_step; tauto.
  - revert self.
    change (issues_only (twofa_step code) (Fetcher.submit_2fa_code code)).
    assert (Hdetect : issues_only (twofa_step code) Fetcher.detect_page_state).
    { apply detect_page_state_issues. intros a Ha. unfold twofa_step. tauto. }
    unfold Fetcher.submit_2fa_code.
    apply issues_only_bind; [apply issues_only_get_self | intros f].
    destruct (negb (_page f)); [apply issues_only_ret |].
    apply issues_only_try; [| intros e; apply issues_only_ret].
    eapply issues_only_bind_with;
      [apply first_present_yields | apply first_present_issues; intros a Ha; unfold twofa_step; tauto |].
    intros found Hfound. destruct found as [sel |]; [| apply issues_only_ret].
    repeat issues_step'; unfold twofa_step; try tauto.
    left. exists sel. split; [apply Hfound; reflexivity | reflexivity].
Qed.

End WhatIsAwaited.

(** ** Releasing and persisting *)

Section Release.

Context {R : Runtime}.

(** X11. [close] never raises, even when every handle fails to close: it
    returns with all four handles dropped.  It closes exactly the handles
    that were there, each once, in the order page, context, browser,
    playwright, and a second [close] does nothing at all. *)
Theorem close_contract (self : LoginFetcher) :
  exists self',
    Fetcher.close self = (Ok tt, self') /\
    released self' /\
    issued self'
    = ((if _playwright self then [StopPlaywright] else []) ++
       (if _browser self then [CloseBrowser] else []) ++
       (if _context self then [CloseContext] else []) ++
       (if _page self then [ClosePage] else []) ++ issued self)%list /\
    Fetcher.close self' = (Ok tt, self').
Proof.
  assert (Hfirst : exists self',
             Fetcher.close self = (Ok tt, self') /\
             issued self'
             = ((if _playwright self then [StopPlaywright] else []) ++
                (if _browser self then [CloseBrowser] else []) ++
                (if _context self then [CloseContext] else []) ++
                (if _page self then [ClosePage] else []) ++ issued self)%list).
  { unfold Fetcher.close, bind, try_except, get_self, await, set_page, set_context,
      set_browser, set_playwright, ret.
    destruct self as [pw br cx pg w tr]; cbn.
    destruct pg, cx, br, pw; cbn;
      repeat match goal with
             | |- context [act ?a ?x] => destruct (act a x) as [[[] | ?] ?]; cbn
             end; eexists; split; reflexivity. }
  destruct Hfirst as (self' & Hclose & Hissued).
  exists self'. split; [exact Hclose |].
  pose proof (close_releases self) as Hreleased. rewrite Hclose in Hreleased.
  split; [exact Hreleased |]. split; [exact Hissued |].
  apply close_released. exact Hreleased.
Qed.

End Release.

(** Follows the syntax of a method, leaving the awaited actions to be
    checked; what is known about a method called on the way is taken from
    the context. *)
Ltac issues_walk :=
  repeat match goal with
         | H : issues_only _ ?m |- issues_only _ ?m => exact H
         | |- issues_only _ (try_except ?body ?handler) =>
             apply (issues_only_try _ body handler); [ | intros ? ]
         | |- issues_only _ (bind ?m ?k) => apply (issues_only_bind _ m k); [ | intros ? ]
         | |- issues_only _ (ret _) => apply issues_only_ret
         | |- issues_only _ get_self => apply issues_only_get_self
         | |- issues_only _ (probe _) => apply issues_only_probe
         | |- issues_only _ (asyncio_sleep _) => apply issues_only_sleep
         | |- issues_only _ (await _) => apply issues_only_await
         | |- issues_only _ (if ?b then _ else _) => destruct b eqn:?
         | |- issues_only _ (match ?x with _ => _ end) => destruct x eqn:?
         | |- issues_only _ (let _ := _ in _) => cbv zeta
         end.

Section Persist.

Context {R : Runtime}.

Lemma bind_ok {A B} (m : M A) (k : A -> M B) (s s' : LoginFetcher) (b : B) :
  bind m k s = (Ok b, s') -> exists a s1, m s = (Ok a, s1) /\ k a s1 = (Ok b, s').
Proof.
  unfold bind. destruct (m s) as [[a | e] s1]; [eauto | discriminate].
Qed.

Lemma await_ok (a : action) (s s1 : LoginFetcher) :
  await a s = (Ok tt, s1) -> issued s1 = a :: issued s.
Proof.
  unfold await. destruct (act a (driven s)) as [r w]. intros H. injection H as _ <-.
  reflexivity.
Qed.

Lemma extract_username_issues (account : string) :
  issues_only (persisting_step account) Fetcher.extract_username_async.
Proof. unfold Fetcher.extract_username_async. issues_walk; exact I. Qed.

(** X12. [save_auth_state] never raises.  A failure is always reported as
    [(False, None)], never with a user name; without a context or a page
    nothing is attempted.  A success means that the directory was made and
    the storage state written to the account's path, as the last two things
    awaited.  On the way the method never types or clicks, and it stores a
    user name only for the account it was given and only when the name is
    not empty. *)
Theorem save_auth_state_contract (account : string) (self : LoginFetcher) :
  exists persisted name self',
    Fetcher.save_auth_state account self = (Ok (persisted, name), self') /\
    (persisted = false -> name = None) /\
    (_context self = false \/ _page self = false -> persisted = false /\ self' = self) /\
    (persisted = true ->
     exists earlier,
       issued self'
       = StorageState (get_auth_state_path account) :: Mkdir AUTH_STATE_DIR :: earlier) /\
    awaited_since (persisting_step account) self self'.
Proof.
  assert (Hissues : issues_only (persisting_step account) (Fetcher.save_auth_state account)).
  { unfold Fetcher.save_auth_state. pose proof (extract_username_issues account).
    issues_walk; try exact I. split; [reflexivity | assumption]. }
  specialize (Hissues self).
  unfold Fetcher.save_auth_state, bind at 1, get_self in Hissues.
  unfold Fetcher.save_auth_state, bind at 1, get_self.
  destruct (_context self) eqn:Hcontext; destruct (_page self) eqn:Hpage; cbn [negb orb] in *;
    try (exists false, None, self; cbn;
         repeat split; try reflexivity; try discriminate; try apply awaited_since_refl; fail).
  unfold try_except in Hissues. unfold try_except.
  match goal with
  | |- context [match ?body self with _ => _ end] => destruct (body self) as [[[p n] | e] s1] eqn:Hbody
  end.
  - (* the body ran to its end *)
    repeat (apply bind_ok in Hbody; destruct Hbody as (? & ? & ? & Hbody)).
    injection Hbody as <- <- <-.
    repeat match goal with
           | H : await _ _ = (Ok ?u, _) |- _ => destruct u; apply await_ok in H
           end.
    eexists true, _, _. split; [reflexivity |].
    split; [discriminate |]. split; [intros [Hno | Hno]; discriminate |].
    split; [| exact Hissues].
    intros _. eexists.
    match goal with
    | Hs : issued ?s = StorageState _ :: issued ?t, Hm : issued ?t = Mkdir _ :: _ |- _ =>
        rewrite Hs, Hm; reflexivity
    end.
  - exists false, None, s1. cbn. split; [reflexivity |].
    split; [reflexivity |]. split; [intros [Hno | Hno]; discriminate |].
    split; [discriminate | exact Hissues].
Qed.

(** X13. The user name is read off the user menu when it can be: with an
    avatar whose [alt] text is [@] followed by a name, [extract_username_async]
    returns that name without leaving the page.  The name is whatever
    follows the [@], be it empty. *)
Theorem extract_username_from_menu (self : LoginFetcher) (n k : nat) (name : string) :
  count (driven self) Sel.user_menu = Ok n -> (0 < n)%nat ->
  count (driven self) (Sel.within Sel.user_menu "img") = Ok k -> (0 < k)%nat ->
  get_attribute (driven self) (Sel.within Sel.user_menu "img") "alt" = Ok (Some ("@" ++ name)) ->
  Fetcher.extract_username_async self = (Ok (Some name), self).
Proof.
  intros Hmenu Hn Himg Hk Halt. apply Nat.ltb_lt in Hn, Hk.
  unfold Fetcher.extract_username_async, bind at 1, probe at 1. rewrite Hmenu.
  unfold bind at 1. rewrite Hn. unfold bind at 1, probe at 1. rewrite Himg, Hk.
  unfold bind at 1, probe at 1. rewrite Halt. reflexivity.
Qed.

End Persist.

(** ** The handlers and the registry *)

Section Handlers.

Context {R : Runtime}.

(** X14. Missing things are client or server errors that change nothing.
    On an id the registry does not hold, the status query and every
    operation, cancel included, answer 404.  On a session in the right
    state whose fetcher is missing, the three operations answer 500 and the
    session keeps its state (it is not moved to a submitting state), while
    cancel still succeeds and removes the session. *)
Theorem missing_session_or_fetcher
    (turns : nat) (now : Z) (sid : string) (m : Registry.SessionManager) :
  (Registry.get_session sid m = None ->
   Routes.get_login_status sid m = Routes.session_not_found /\
   forall op, invoke turns now sid op m = Some (Routes.session_not_found, m)) /\
  (forall session,
     Registry.get_session sid m = Some session ->
     Registry.get_fetcher sid m = None ->
     (forall op,
        required_state op = Some (Registry.state session) ->
        invoke turns now sid op m
        = Some (Routes.HTTPException 500 "No fetcher associated with session", m)) /\
     exists resp,
       invoke turns now sid Cancel m
       = Some (Routes.Response resp, Registry.remove_session sid m)).
Proof.
  split.
  - intros Hnone. split.
    + unfold Routes.get_login_status. rewrite Hnone. reflexivity.
    + intros op. destruct op; cbn [invoke];
        unfold Routes.submit_credentials, Routes.submit_2fa, Routes.wait_for_mobile_2fa,
          Routes.cancel_login; rewrite Hnone; reflexivity.
  - intros session Hsession Hfetcher. split.
    + intros op Hrequired.
      destruct op; cbn in Hrequired; [| | | discriminate]; injection Hrequired as Hstate;
        cbn [invoke];
        unfold Routes.submit_credentials, Routes.submit_2fa, Routes.wait_for_mobile_2fa;
        rewrite Hsession, <- Hstate, bool_decide_eq_true_2 by reflexivity;
        cbn [negb]; rewrite Hfetcher; reflexivity.
    + cbn [invoke]. unfold Routes.cancel_login. rewrite Hsession, Hfetcher.
      eexists. reflexivity.
Qed.

Lemma same_at_refl (sid : string) (m : Registry.SessionManager) : same_at sid m m.
Proof. split; reflexivity. Qed.

Lemma same_at_update_state (other : string) (now : Z) (sid : string) (st : LoginState.t)
    (e u : option string) (r : option bool) (t : option string)
    (m m1 : Registry.SessionManager) :
  sid <> other -> same_at other m m1 ->
  same_at other m (Registry.update_state now sid st e u r t m1).
Proof.
  intros Hne [Hs Hf]. unfold same_at, Registry.update_state, Registry.get_session,
    Registry.get_fetcher in *.
  destruct (Registry._sessions m1 !! sid) as [s |]; [| split; assumption].
  destruct (bool_decide (st = LoginState.SUCCESS) || bool_decide (st = LoginState.ERROR));
    [| destruct r]; cbn; rewrite lookup_insert_ne by exact Hne; split; assumption.
Qed.

Lemma same_at_set_fetcher (other sid : string) (f : LoginFetcher)
    (m m1 : Registry.SessionManager) :
  sid <> other -> same_at other m m1 -> same_at other m (Registry.set_fetcher sid f m1).
Proof.
  intros Hne [Hs Hf]. unfold same_at, Registry.set_fetcher, Registry.get_session,
    Registry.get_fetcher in *. cbn. rewrite lookup_insert_ne by exact Hne. split; assumption.
Qed.

Lemma same_at_remove_session (other sid : string) (m m1 : Registry.SessionManager) :
  sid <> other -> same_at other m m1 -> same_at other m (Registry.remove_session sid m1).
Proof.
  intros Hne [Hs Hf]. unfold same_at, Registry.remove_session, Registry.get_session,
    Registry.get_fetcher in *. cbn. rewrite !lookup_delete_ne by exact Hne. split; assumption.
Qed.

Lemma on_logged_in_elsewhere (other : string) (now : Z) (sid during : string)
    (session : Registry.LoginSession) (f : LoginFetcher) (m m1 : Registry.SessionManager) :
  sid <> other -> same_at other m m1 ->
  same_at other m (snd (Routes.on_logged_in now sid during session f m1)).
Proof.
  intros Hne Hsame. unfold Routes.on_logged_in, Routes.on_exception.
  repeat match goal with
         | |- context [match ?x with _ => _ end] => destruct x
         end;
    cbn [fst snd];
    repeat first
      [ exact Hsame
      | apply same_at_update_state; [exact Hne |]
      | apply same_at_set_fetcher; [exact Hne |] ].
Qed.

(** Takes a handler apart case by case, then follows what it did to the
    registry. *)
Ltac same_elsewhere Hne :=
  repeat match goal with
         | |- context [match ?x with _ => _ end] => destruct x
         | |- context [if ?b then _ else _] => destruct b
         end;
  cbn [fst snd];
  repeat first
    [ apply same_at_refl
    | apply on_logged_in_elsewhere; [exact Hne |]
    | apply same_at_update_state; [exact Hne |]
    | apply same_at_set_fetcher; [exact Hne |]
    | apply same_at_remove_session; [exact Hne |] ].

(** X15. Sessions do not disturb one another: whatever an operation on one
    session id does and however it ends, the session and the fetcher stored
    under any other id are afterwards exactly what they were. *)
Theorem operations_leave_other_sessions
    (turns : nat) (now : Z) (sid other : string) (op : operation)
    (m : Registry.SessionManager) (out : Routes.reply * Registry.SessionManager) :
  sid <> other ->
  invoke turns now sid op m = Some out ->
  Registry.get_session other (snd out) = Registry.get_session other m /\
  Registry.get_fetcher other (snd out) = Registry.get_fetcher other m.
Proof.
  intros Hne Hout. change (same_at other m (snd out)).
  destruct op as [username password | code | timeout_seconds |]; cbn [invoke] in Hout.
  - injection Hout as <-. unfold Routes.submit_credentials, Routes.on_exception.
    same_elsewhere Hne.
  - injection Hout as <-. unfold Routes.submit_2fa, Routes.on_exception.
    same_elsewhere Hne.
  - unfold Routes.wait_for_mobile_2fa, Routes.on_exception in Hout.
    repeat match type of Hout with
           | context [match ?x with _ => _ end] => destruct x
           | context [if ?b then _ else _] => destruct b
           end;
      try discriminate; injection Hout as <-; same_elsewhere Hne.
  - injection Hout as <-. unfold Routes.cancel_login, try_except.
    same_elsewhere Hne.
Qed.

End Handlers.

Section HandlerContracts.

Context {R : Runtime}.

Lemma or_else_truthy (o : option string) (d : string) :
  PyStr.truthy d = true -> PyStr.truthy (PyStr.or_else o d) = true.
Proof. intros Hd. destruct o as [[| c r] |]; cbn; auto. Qed.

(** The registry in which [submit_credentials] maps the result, and the
    mapping itself, once the guards are passed and the fetcher has
    answered. *)
Lemma submit_credentials_passed
    (now : Z) (sid username password : string)
    (m : Registry.SessionManager) (session : Registry.LoginSession)
    (f f1 : LoginFetcher) (result : PageStateResult) :
  Registry.get_session sid m = Some session ->
  Registry.state session = LoginState.INITIALIZED ->
  Registry.get_fetcher sid m = Some f ->
  Fetcher.submit_credentials username password f = (Ok result, f1) ->
  exists persisted name f2,
    Fetcher.save_auth_state (Registry.account session) f1 = (Ok (persisted, name), f2) /\
    lands (Routes.submit_credentials now sid username password m) sid
      (credentials_transition (state result) persisted)
      (if decide (state result = LOGGED_IN) then f2 else f1).
Proof.
  intros Hsession Hstate Hfetcher Hsubmit.
  destruct (save_auth_state_returns (Registry.account session) f1) as [[persisted name] Hsaved].
  destruct (Fetcher.save_auth_state (Registry.account session) f1) as [sv f2] eqn:Hsave.
  cbn in Hsaved. subst sv. exists persisted, name, f2. split; [reflexivity |].
  unfold Routes.submit_credentials. rewrite Hsession, Hstate, Hfetcher.
  rewrite bool_decide_eq_true_2 by reflexivity. cbn [negb]. rewrite Hsubmit.
  set (m0 := Registry.update_state now sid LoginState.SUBMITTING_CREDENTIALS
               None None None None m).
  assert (Hs0 : is_Some (Registry.get_session sid m0)).
  { destruct (update_state_stored now sid LoginState.SUBMITTING_CREDENTIALS
                None None None None m) as (_ & s' & Hs' & _); [rewrite Hsession; eauto |].
    fold m0 in Hs'. rewrite Hs'. eauto. }
  destruct (set_fetcher_stored sid f1 m0) as [Hs1 Hf1].
  assert (Hstored : is_Some (Registry.get_session sid (Registry.set_fetcher sid f1 m0)))
    by (rewrite Hs1; exact Hs0).
  destruct (state result) eqn:Hst; cbn [credentials_transition];
    try (rewrite decide_False by discriminate; apply lands_update; auto; fail).
  rewrite decide_True by reflexivity.
  apply (on_logged_in_lands now sid _ session f1 _ persisted name f2 Hstored Hsave).
Qed.

Lemma credentials_transition_leaves (st : PageState) (persisted : bool) :
  credentials_transition st persisted <> LoginState.INITIALIZED.
Proof. destruct st, persisted; discriminate. Qed.

(** X16. Credentials are taken once.  After [submit_credentials] has
    answered on an [INITIALIZED] session, the status query reports the very
    status tag the answer carried, and any further [submit_credentials] on
    that session is refused with 400, leaving the registry as it is. *)
Theorem credentials_are_taken_once
    (now : Z) (sid username password : string)
    (m : Registry.SessionManager) (session : Registry.LoginSession) (f : LoginFetcher) :
  Registry.get_session sid m = Some session ->
  Registry.state session = LoginState.INITIALIZED ->
  Registry.get_fetcher sid m = Some f ->
  exists resp m',
    Routes.submit_credentials now sid username password m = (Routes.Response resp, m') /\
    (exists resp',
       Routes.get_login_status sid m' = Routes.Response resp' /\
       Routes.status resp' = Routes.status resp) /\
    (forall now' username' password',
       exists detail,
         Routes.submit_credentials now' sid username' password' m'
         = (Routes.HTTPException 400 detail, m')).
Proof.
  intros Hsession Hstate Hfetcher.
  destruct (submit_credentials_returns username password f) as [result Hresult].
  destruct (Fetcher.submit_credentials username password f) as [r f1] eqn:Hsubmit.
  cbn in Hresult. subst r.
  destruct (submit_credentials_passed now sid username password m session f f1 result
              Hsession Hstate Hfetcher Hsubmit)
    as (persisted & name & f2 & _ & resp & session' & Hresp & Hs' & Hst' & Hstatus & _).
  destruct (Routes.submit_credentials now sid username password m) as [reply m'].
  cbn in Hresp, Hs'. subst reply. exists resp, m'. split; [reflexivity |]. split.
  - unfold Routes.get_login_status. rewrite Hs'. eexists. split; [reflexivity |].
    cbn. rewrite Hst', Hstatus. reflexivity.
  - intros now' username' password'. unfold Routes.submit_credentials. rewrite Hs'.
    rewrite bool_decide_eq_false_2
      by (rewrite Hst'; apply credentials_transition_leaves).
    cbn [negb]. eexists. reflexivity.
Qed.


(** X18. The mobile wait.  On a session in state [WAITING_MOBILE] with its
    fetcher attached, once the poller has returned, [wait_for_mobile_2fa]
    answers with a response and: on [LOGGED_IN] stores [SUCCESS] when
    [save_auth_state] succeeded and [ERROR] when it failed; on [TWOFA_MOBILE]
    leaves the session record untouched in [WAITING_MOBILE], so that the wait
    can be asked for again, and hands the poller's timeout message on as the
    error text; on [LOGIN_ERROR] and on anything else stores [ERROR].  The
    status tag of the response is the one of the stored state. *)
Theorem wait_for_mobile_2fa_transition
    (turns : nat) (now : Z) (sid : string) (timeout_seconds : Z)
    (m : Registry.SessionManager) (session : Registry.LoginSession)
    (f f1 : LoginFetcher) (r : PageStateResult) :
  Registry.get_session sid m = Some session ->
  Registry.state session = LoginState.WAITING_MOBILE ->
  Registry.get_fetcher sid m = Some f ->
  Fetcher.wait_for_mobile_approval turns timeout_seconds 2 f = Some (Ok r, f1) ->
  exists persisted name f2 out,
    Fetcher.save_auth_state (Registry.account session) f1 = (Ok (persisted, name), f2) /\
    Routes.wait_for_mobile_2fa turns now sid timeout_seconds m = Some out /\
    lands out sid (mobile_transition (state r) persisted)
      (if decide (state r = LOGGED_IN) then f2 else f1) /\
    (state r = TWOFA_MOBILE ->
     Registry.get_session sid (snd out) = Some session /\
     exists resp,
       fst out = Routes.Response resp /\
       Routes.error resp
       = Some ("Mobile approval timed out after " ++ PyStr.of_int timeout_seconds
                 ++ " seconds. Please try again.")).
Proof.
  intros Hsession Hstate Hfetcher Hwait.
  destruct (save_auth_state_returns (Registry.account session) f1) as [[persisted name] Hsaved].
  destruct (Fetcher.save_auth_state (Registry.account session) f1) as [sv f2] eqn:Hsave.
  cbn in Hsaved. subst sv. exists persisted, name, f2.
  assert (Htimeout : state r = TWOFA_MOBILE ->
                     r = Fetcher.mobile_timeout_result timeout_seconds).
  { intros Hst. unfold Fetcher.wait_for_mobile_approval in Hwait.
    destruct (_page f); cbn [negb] in Hwait.
    - destruct (poll_loop_contract _ _ _ _ _ _ Hwait) as (r' & Hr' & Hkind).
      cbn in Hr'. injection Hr' as <-.
      destruct Hkind as [-> | [_ Hkeep]]; [reflexivity |].
      rewrite Hst in Hkeep. discriminate.
    - injection Hwait as <- _. discriminate. }
  unfold Routes.wait_for_mobile_2fa. rewrite Hsession, Hstate, Hfetcher.
  rewrite bool_decide_eq_true_2 by reflexivity. cbn [negb]. rewrite Hwait.
  eexists. split; [reflexivity |]. split; [reflexivity |].
  destruct (set_fetcher_stored sid f1 m) as [Hs1 Hf1].
  assert (Hstored : is_Some (Registry.get_session sid (Registry.set_fetcher sid f1 m)))
    by (rewrite Hs1, Hsession; eauto).
  destruct (decide (state r = LOGGED_IN)) as [Hin | Hnot].
  { rewrite Hin. cbn [mobile_transition]. split; [| discriminate].
    apply (on_logged_in_lands now sid _ session f1 _ persisted name f2 Hstored Hsave). }
  destruct (decide (state r = TWOFA_MOBILE)) as [Hmobile | Hnomobile].
  { rewrite Hmobile. cbn [mobile_transition]. split.
    - eexists. exists session. cbn [fst snd]. rewrite Hs1, Hf1.
      repeat split; try reflexivity; assumption.
    - intros _. cbn [fst snd]. split; [rewrite Hs1; exact Hsession |].
      eexists. split; [reflexivity |]. cbn. rewrite (Htimeout Hmobile). reflexivity. }
  replace (mobile_transition (state r) persisted) with LoginState.ERROR
    by (destruct (state r); try reflexivity; congruence).
  destruct (decide (state r = LOGIN_ERROR));
    (split; [apply lands_update; auto | intros Hno; contradiction]).
Qed.

End HandlerContracts.

(** ** The login gate *)

Section GateProperties.

Context {H : Host}.

Lemma initialized_environ (account : string) (p : Gate.process) :
  Gate.environ (snd (Gate._initialize_fetcher_after_login account p))
  = <["GHSIM_ACCOUNT" := account]> (delete "GHINBOX_NEEDS_AUTH" (Gate.environ p)).
Proof.
  unfold Gate._initialize_fetcher_after_login.
  assert (Henv : match Gate.environ p !! "GHINBOX_NEEDS_AUTH" with
                 | Some _ => delete "GHINBOX_NEEDS_AUTH" (Gate.environ p)
                 | None => Gate.environ p
                 end = delete "GHINBOX_NEEDS_AUTH" (Gate.environ p)).
  { destruct (Gate.environ p !! "GHINBOX_NEEDS_AUTH") eqn:Hflag; [reflexivity |].
    symmetry. apply delete_id. exact Hflag. }
  rewrite Henv.
  destruct (Gate._global_fetcher p); [reflexivity |].
  destruct (new_NotificationsFetcher account _); reflexivity.
Qed.

(** X19. Completing a login opens the gate.  Whatever
    [_initialize_fetcher_after_login] returns, even when the notifications
    fetcher cannot be built, it leaves the environment without the
    [GHINBOX_NEEDS_AUTH] flag, with [GHSIM_ACCOUNT] set to the account and
    every other variable as it was.  A following [needs_login] therefore
    answers for that account and asks for a login exactly when the account
    has no valid stored login (and never in test mode).  A fetcher that is
    already installed is kept and none is built, and the call reports
    success exactly when a fetcher is installed afterwards. *)
Theorem login_opens_the_gate (account : string) (p : Gate.process) :
  let out := Gate._initialize_fetcher_after_login account p in
  let env' := Gate.environ (snd out) in
  env' !! "GHINBOX_NEEDS_AUTH" = None /\
  env' !! "GHSIM_ACCOUNT" = Some account /\
  (forall name,
     name <> "GHINBOX_NEEDS_AUTH" -> name <> "GHSIM_ACCOUNT" ->
     env' !! name = Gate.environ p !! name) /\
  Gate.needs_login env'
  = (if Gate.env_is (Gate.environ p) "GHINBOX_TEST_MODE" "1"
     then (false, "test")
     else (negb (has_valid_auth account), account)) /\
  (fst out = true <-> is_Some (Gate._global_fetcher (snd out))) /\
  (forall fetcher,
     Gate._global_fetcher p = Some fetcher ->
     fst out = true /\ Gate._global_fetcher (snd out) = Some fetcher).
Proof.
  intros out env'.
  assert (Henv : env' = <["GHSIM_ACCOUNT" := account]>
                          (delete "GHINBOX_NEEDS_AUTH" (Gate.environ p)))
    by apply initialized_environ.
  assert (Hflag : env' !! "GHINBOX_NEEDS_AUTH" = None).
  { rewrite Henv, lookup_insert_ne by discriminate. apply lookup_delete_eq. }
  assert (Haccount : env' !! "GHSIM_ACCOUNT" = Some account).
  { rewrite Henv. apply lookup_insert_eq. }
  assert (Hother : forall name,
             name <> "GHINBOX_NEEDS_AUTH" -> name <> "GHSIM_ACCOUNT" ->
             env' !! name = Gate.environ p !! name).
  { intros name Hn1 Hn2. rewrite Henv, lookup_insert_ne by congruence.
    apply lookup_delete_ne. congruence. }
  split; [exact Hflag |]. split; [exact Haccount |]. split; [exact Hother |]. split.
  - unfold Gate.needs_login, Gate.env_is, Gate.getenv.
    rewrite Hflag, Haccount, (Hother "GHINBOX_TEST_MODE") by discriminate.
    destruct (Gate.environ p !! "GHINBOX_TEST_MODE") as [v |]; [| destruct (has_valid_auth account); reflexivity].
    destruct (String.eqb v "1"); [reflexivity |].
    destruct (has_valid_auth account); reflexivity.
  - subst out. unfold Gate._initialize_fetcher_after_login. split.
    + destruct (Gate._global_fetcher p) as [fetcher |]; cbn.
      * split; [intros _; eexists; reflexivity | intros _; reflexivity].
      * destruct (new_NotificationsFetcher account _) as [fetcher | e]; cbn.
        -- split; [intros _; eexists; reflexivity | intros _; reflexivity].
        -- split; [discriminate | intros [x Hx]; discriminate].
    + intros fetcher Hfetcher. rewrite Hfetcher. cbn. split; reflexivity.
Qed.

End GateProperties.

(** ** The further properties on the fixtures *)

(** Checks selector by selector that a fixture page shows none of a list. *)
Ltac absent_now :=
  let s := fresh "s" in
  let Hs := fresh "Hs" in
  intros s Hs; cbn in Hs;
  repeat (destruct Hs as [<- | Hs]; [reflexivity |]); destruct Hs.

Lemma wait_for_mobile_approval_contract_witness :
  let self := Fixture.started FixtureMobile.approval_page in
  exists out,
    Fetcher.wait_for_mobile_approval 4 1 (1 # 2) self = Some out /\
    exists r,
      fst out = Ok r /\
      (r = browser_not_started \/
       r = Fetcher.mobile_timeout_result 1 \/
       (well_formed r /\ keeps_polling (state r) = false)) /\
      (state r = TWOFA_MOBILE -> r = Fetcher.mobile_timeout_result 1) /\
      (state r = UNKNOWN -> r = browser_not_started /\ _page self = false).
Proof.
  intros self. eexists. split; [vm_compute; reflexivity |].
  apply (@wait_for_mobile_approval_contract Fixture.runtime 4 1 (1 # 2) self).
  vm_compute. reflexivity.
Defined.


Lemma detect_page_state_captcha_witness :
  let self := Fixture.started FixturePages.captcha_page in
  _page self = true /\
  count (driven self) Sel.user_menu = Ok 0%nat /\
  count (driven self) "#captcha-container" = Ok 1%nat /\
  Fetcher.detect_page_state_at 0 self
  = (Ok (mkPageStateResult CAPTCHA
           (Some "CAPTCHA required. Use --headed-login flag to login manually.")
           None None),
     self).
Proof.
  intros self. split; [reflexivity |]. split; [reflexivity |]. split; [reflexivity |].
  apply (@detect_page_state_captcha Fixture.runtime 0 self
           (firstn 3 Sel.captcha_indicators) [] "#captcha-container" 1%nat
           eq_refl eq_refl eq_refl).
  - absent_now.
  - reflexivity.
  - lia.
Defined.

Lemma approval_page_past_captcha :
  past_captcha (Fixture.started FixtureMobile.approval_page).
Proof. split; [reflexivity |]. split; [reflexivity |]. absent_now. Qed.


Lemma security_key_page_past_mobile :
  past_mobile (Fixture.started FixturePages.security_key_page).
Proof.
  split; [split; [reflexivity |]; split; [reflexivity |]; absent_now |].
  split; [reflexivity |]. absent_now.
Qed.


(** On a site that answers every navigation with the security-key page
    again, the classification gives up when the nesting of calls is used
    up, having navigated once per call. *)
Example stuck_on_security_key_page :
  let out := Fetcher.detect_page_state_at 3
               (Fixture.started FixturePages.security_key_page_with_link) in
  fst out = Ok (detection_failure "maximum recursion depth exceeded") /\
  issued (snd out)
  = repeat (Goto "https://github.com/sessions/two-factor/mobile" (Some "domcontentloaded")) 4.
Proof. vm_compute. split; reflexivity. Qed.

Lemma login_form_page_past_second_factor :
  past_second_factor (Fixture.started FixturePages.login_form_page).
Proof.
  split.
  { split; [split; [reflexivity |]; split; [reflexivity |]; absent_now |].
    split; [reflexivity |]. absent_now. }
  split; [reflexivity |]. split; [reflexivity |]. split; [reflexivity |].
  eexists. split; [reflexivity |]. split; reflexivity.
Qed.


Lemma extract_username_from_menu_witness :
  let self := Fixture.started FixturePages.home_page in
  count (driven self) Sel.user_menu = Ok 1%nat /\
  Fetcher.extract_username_async self = (Ok (Some "octocat"), self).
Proof.
  intros self. split; [reflexivity |].
  apply (@extract_username_from_menu Fixture.runtime self 1 1 "octocat");
    first [reflexivity | lia].
Defined.

Example save_auth_state_on_home_page :
  let out := Fetcher.save_auth_state "acme" (Fixture.started FixturePages.home_page) in
  fst out = Ok (true, Some "octocat") /\
  issued (snd out)
  = [ StorageState "auth_state/acme.json"; Mkdir "auth_state";
      SaveUsername "acme" "octocat"; Goto "https://github.com" (Some "domcontentloaded") ].
Proof. vm_compute. split; reflexivity. Qed.

Lemma operations_leave_other_sessions_witness :
  let m := two_sessions LoginState.INITIALIZED LoginState.WAITING_2FA
             Fixture.banner_only FixtureSessions.wrong_code in
  "s1" <> "s2" /\
  exists out,
    invoke 0 5 "s1" (SubmitCredentials "bob" "secret") m = Some out /\
    Registry.get_session "s2" (snd out) = Registry.get_session "s2" m /\
    Registry.get_fetcher "s2" (snd out) = Registry.get_fetcher "s2" m.
Proof.
  intros m.
  assert (Hne : "s1" <> "s2") by discriminate.
  split; [exact Hne |]. eexists. split; [reflexivity |].
  apply (@operations_leave_other_sessions Fixture.runtime 0 5 "s1" "s2"
           (SubmitCredentials "bob" "secret") m _ Hne eq_refl).
Defined.

Lemma credentials_are_taken_once_witness :
  let m := FixtureSessions.registry LoginState.INITIALIZED Fixture2FA.sms_page in
  let session := FixtureSessions.session_in LoginState.INITIALIZED in
  let f := Fixture.started Fixture2FA.sms_page in
  Registry.get_session "s1" m = Some session /\
  Registry.state session = LoginState.INITIALIZED /\
  Registry.get_fetcher "s1" m = Some f /\
  exists resp m',
    Routes.submit_credentials 5 "s1" "bob" "secret" m = (Routes.Response resp, m') /\
    (exists resp',
       Routes.get_login_status "s1" m' = Routes.Response resp' /\
       Routes.status resp' = Routes.status resp) /\
    (forall now' username' password',
       exists detail,
         Routes.submit_credentials now' "s1" username' password' m'
         = (Routes.HTTPException 400 detail, m')).
Proof.
  intros m session f. split; [reflexivity |]. split; [reflexivity |]. split; [reflexivity |].
  apply (@credentials_are_taken_once Fixture.runtime 5 "s1" "bob" "secret" m session f
           eq_refl eq_refl eq_refl).
Defined.

Example sms_page_asks_for_the_code :
  let m := FixtureSessions.registry LoginState.INITIALIZED Fixture2FA.sms_page in
  fst (Routes.submit_credentials 5 "s1" "bob" "secret" m)
  = Routes.Response
      (Routes.mkLoginResponse "s1" "waiting_2fa" (Some "Enter your 2FA code") None None
         (Some "sms") None).
Proof. vm_compute. reflexivity. Qed.


Lemma wait_for_mobile_2fa_transition_witness :
  let m := FixtureSessions.registry LoginState.WAITING_MOBILE FixtureMobile.approval_page in
  let session := FixtureSessions.session_in LoginState.WAITING_MOBILE in
  let f := Fixture.started FixtureMobile.approval_page in
  Registry.get_session "s1" m = Some session /\
  Registry.state session = LoginState.WAITING_MOBILE /\
  Registry.get_fetcher "s1" m = Some f /\
  exists r f1,
    Fetcher.wait_for_mobile_approval 2 1 2 f = Some (Ok r, f1) /\
    state r = TWOFA_MOBILE /\
    exists persisted name f2 out,
      Fetcher.save_auth_state (Registry.account session) f1 = (Ok (persisted, name), f2) /\
      Routes.wait_for_mobile_2fa 2 5 "s1" 1 m = Some out /\
      lands out "s1" (mobile_transition (state r) persisted)
        (if decide (state r = LOGGED_IN) then f2 else f1) /\
      (state r = TWOFA_MOBILE ->
       Registry.get_session "s1" (snd out) = Some session /\
       exists resp,
         fst out = Routes.Response resp /\
         Routes.error resp
         = Some ("Mobile approval timed out after " ++ PyStr.of_int 1
                   ++ " seconds. Please try again.")).
Proof.
  intros m session f. split; [reflexivity |]. split; [reflexivity |]. split; [reflexivity |].
  eexists. eexists. split; [vm_compute; reflexivity |]. split; [reflexivity |].
  apply (@wait_for_mobile_2fa_transition Fixture.runtime 2 5 "s1" 1 m session f _ _
           eq_refl eq_refl eq_refl).
  vm_compute. reflexivity.
Defined.

Example gate_after_login :
  let env : gmap string string :=
    {[ "GHINBOX_NEEDS_AUTH" := "1"; "GHSIM_HEADLESS" := "0" ]} in
  let out := @Gate._initialize_fetcher_after_login fixture_host "acme"
               (@Gate.mkProcess fixture_host env None) in
  @Gate.needs_login fixture_host env = (true, "default") /\
  fst out = false /\
  @Gate.needs_login fixture_host (Gate.environ (snd out)) = (false, "acme").
Proof. vm_compute. repeat split. Qed.

(** ** The second-factor inputs, and the way through a submission *)

Section InputRules.

Context {R : Runtime}.

Lemma detect_past_security_key (again : M PageStateResult) (self : LoginFetcher) :
  past_security_key self ->
  Fetcher.detect_page_state_body again self
  = try_except Fetcher.detect_otp_inputs (fun e => ret (detection_failure e)) self.
Proof.
  intros (Hpast & Hurl & Hbutton).
  rewrite (detect_past_mobile again self Hpast).
  unfold on_security_key_url in Hurl.
  unfold Fetcher.detect_security_key. rewrite Hurl.
  unfold try_except, bind at 1, probe at 1. rewrite Hbutton. reflexivity.
Qed.

Lemma scan_error_selectors_reads_only (sels : list string) (self : LoginFetcher) :
  forall found s', Fetcher.scan_error_selectors sels self = (Ok found, s') -> s' = self.
Proof.
  induction sels as [| sel rest IH]; cbn [Fetcher.scan_error_selectors]; intros found s' H.
  - injection H as _ <-. reflexivity.
  - unfold bind, probe, ret in H.
    destruct (count (driven self) sel) as [n | e]; [| discriminate].
    destruct (0 <? n)%nat.
    + destruct (text_content (driven self) sel) as [[t |] | e]; try discriminate.
      * destruct (PyStr.truthy t && PyStr.truthy (PyStr.strip t)).
        -- injection H as _ <-. reflexivity.
        -- exact (IH _ _ H).
      * exact (IH _ _ H).
    + exact (IH _ _ H).
Qed.

Lemma detect_errors_and_form_states :
  yields (fun r => no_second_factor (state r)) Fetcher.detect_errors_and_form.
Proof.
  unfold Fetcher.detect_errors_and_form.
  repeat match goal with
         | |- yields _ (bind ?m ?k) => apply (yields_bind _ m k); intros ?
         | |- yields _ (if ?b then _ else _) => destruct b
         | |- yields _ (match ?x with _ => _ end) => destruct x
         | |- yields _ (ret ?a) => apply yields_ret
         end; unfold no_second_factor; cbn; tauto.
Qed.

(** X20. The code inputs.  Past the security-key rules, the authenticator
    input gives [TWOFA_APP] whatever the page says.  Without it, the SMS
    input gives [TWOFA_SMS], and failing that the generic one-time-code
    input gives [TWOFA_APP], but only on a page whose source mentions
    [two-factor] or [authentication code] (in any letter case).  On a page
    without that wording these two inputs are not looked at: the result is
    a [LOGIN_ERROR], a [LOGIN_FORM] or [UNKNOWN]. *)
Theorem detect_page_state_code_inputs (depth : nat) (self : LoginFetcher) :
  past_security_key self ->
  (forall n,
     count (driven self) Sel.otp_input = Ok n -> (0 < n)%nat ->
     Fetcher.detect_page_state_at depth self
     = (Ok (mkPageStateResult TWOFA_APP None (Some "app") None), self)) /\
  (forall html,
     count (driven self) Sel.otp_input = Ok 0%nat ->
     content (driven self) = Ok html ->
     (has_2fa_text html = true ->
      (forall n,
         count (driven self) Sel.sms_otp = Ok n -> (0 < n)%nat ->
         Fetcher.detect_page_state_at depth self
         = (Ok (mkPageStateResult TWOFA_SMS None (Some "sms") None), self)) /\
      (forall n,
         count (driven self) Sel.sms_otp = Ok 0%nat ->
         count (driven self) Sel.generic_otp = Ok n -> (0 < n)%nat ->
         Fetcher.detect_page_state_at depth self
         = (Ok (mkPageStateResult TWOFA_APP None (Some "app") None), self))) /\
     (has_2fa_text html = false ->
      forall r s', Fetcher.detect_page_state_at depth self = (Ok r, s') ->
                   no_second_factor (state r))).
Proof.
  intros Hpast.
  assert (Hat : Fetcher.detect_page_state_at depth self
                = try_except Fetcher.detect_otp_inputs
                    (fun e => ret (detection_failure e)) self).
  { destruct depth; cbn [Fetcher.detect_page_state_at];
      apply detect_past_security_key; exact Hpast. }
  rewrite Hat. clear Hat.
  unfold try_except, Fetcher.detect_otp_inputs, has_2fa_text. split.
  - intros n Hotp Hn. destruct n as [| n']; [lia |].
    unfold bind at 1, probe at 1. rewrite Hotp. reflexivity.
  - intros html Hotp Hcontent. split.
    + intros Htext. split.
      * intros n Hsms Hn. destruct n as [| n']; [lia |].
        unfold bind at 1, probe at 1. rewrite Hotp.
        change (0 <? 0)%nat with false. cbv beta iota.
        unfold bind at 1, probe at 1. rewrite Hcontent. cbv beta iota.
        rewrite Htext. cbv beta iota.
        unfold bind at 1, probe at 1. rewrite Hsms. reflexivity.
      * intros n Hsms Hgeneric Hn. destruct n as [| n']; [lia |].
        unfold bind at 1, probe at 1. rewrite Hotp.
        change (0 <? 0)%nat with false. cbv beta iota.
        unfold bind at 1, probe at 1. rewrite Hcontent. cbv beta iota.
        rewrite Htext. cbv beta iota.
        unfold bind at 1, probe at 1. rewrite Hsms.
        change (0 <? 0)%nat with false. cbv beta iota.
        unfold bind at 1, probe at 1. rewrite Hgeneric. reflexivity.
    + intros Htext r s' Hr.
      unfold bind at 1, probe at 1 in Hr. rewrite Hotp in Hr.
      change (0 <? 0)%nat with false in Hr. cbv beta iota in Hr.
      unfold bind at 1, probe at 1 in Hr. rewrite Hcontent in Hr. cbv beta iota in Hr.
      rewrite Htext in Hr. cbv beta iota in Hr.
      destruct (Fetcher.detect_errors_and_form self) as [[r0 | e] s1] eqn:Herr.
      * injection Hr as <- <-. exact (detect_errors_and_form_states self r0 s1 Herr).
      * injection Hr as <- <-. right. right. reflexivity.
Qed.

(** X21. Recognition by an element alone.  Past the address check for the
    mobile approval, one of the mobile indicators gives [TWOFA_MOBILE] with
    the method [mobile], but then without looking for a verification code.
    Past the mobile rules and off the security-key addresses, the
    security-key button gives [TWOFA_SECURITY_KEY] with its fixed message;
    nothing is awaited in either case. *)
Theorem detect_page_state_by_element (depth : nat) (self : LoginFetcher) :
  (past_captcha self ->
   PyStr.contains "two-factor/mobile" (page_url (driven self)) = false ->
   forall before indicator after n,
     Sel.mobile_indicators = (before ++ indicator :: after)%list ->
     all_absent (driven self) before ->
     count (driven self) indicator = Ok n -> (0 < n)%nat ->
     Fetcher.detect_page_state_at depth self
     = (Ok (mkPageStateResult TWOFA_MOBILE None (Some "mobile") None), self)) /\
  (past_mobile self ->
   on_security_key_url self = false ->
   forall n,
     count (driven self) Sel.security_key_btn = Ok n -> (0 < n)%nat ->
     Fetcher.detect_page_state_at depth self
     = (Ok (mkPageStateResult TWOFA_SECURITY_KEY
              (Some "Security key 2FA not supported. Please configure authenticator app in GitHub settings.")
              (Some "security_key") None),
        self)).
Proof.
  split.
  - intros Hpast Hurl before indicator after n Hsplit Hbefore Hcount Hn.
    pose proof (first_present_found self before after indicator n Hbefore Hcount Hn)
      as Hfound.
    rewrite <- Hsplit in Hfound.
    destruct depth; cbn [Fetcher.detect_page_state_at];
      rewrite (detect_past_captcha _ self Hpast), Hurl;
      unfold try_except, bind; rewrite Hfound; reflexivity.
  - intros Hpast Hurl n Hbutton Hn. apply Nat.ltb_lt in Hn.
    unfold on_security_key_url in Hurl.
    destruct depth; cbn [Fetcher.detect_page_state_at];
      rewrite (detect_past_mobile _ self Hpast);
      unfold Fetcher.detect_security_key; rewrite Hurl;
      unfold try_except, bind at 1, probe at 1; rewrite Hbutton; cbv beta iota zeta;
      rewrite Hn; reflexivity.
Qed.

Lemma classification_returned (s : LoginFetcher) :
  (r <- Fetcher.detect_page_state;; ret r) s = Fetcher.detect_page_state s.
Proof.
  unfold bind, ret. destruct (Fetcher.detect_page_state s) as [[r | e] s1]; reflexivity.
Qed.

Lemma credentials_steps_then {A} (username password : string) (k : M A)
    (s : LoginFetcher) :
  (await (WaitForSelector Sel.login_input 10000);;;
   await (Fill Sel.login_input username);;;
   await (Fill Sel.password_input password);;;
   await (Click Sel.credentials_submit);;;
   await (WaitForLoadState "domcontentloaded" (Some 30000%Z));;;
   asyncio_sleep (1 # 2);;;
   k) s
  = match credentials_steps username password s with
    | (Ok _, s') => k s'
    | (Raise e, s') => (Raise e, s')
    end.
Proof.
  unfold credentials_steps, bind.
  repeat match goal with
         | |- context [await ?a ?s] =>
             destruct (await a s) as [[[] | ?] ?]; cbv beta iota
         end; try reflexivity.
Qed.

Lemma twofa_steps_then {A} (selector code : string) (k : M A) (s : LoginFetcher) :
  (await (Fill selector code);;;
   await (Click Sel.twofa_submit);;;
   await (WaitForLoadState "domcontentloaded" (Some 30000%Z));;;
   asyncio_sleep (1 # 2);;;
   k) s
  = match twofa_steps selector code s with
    | (Ok _, s') => k s'
    | (Raise e, s') => (Raise e, s')
    end.
Proof.
  unfold twofa_steps, bind.
  repeat match goal with
         | |- context [await ?a ?s] =>
             destruct (await a s) as [[[] | ?] ?]; cbv beta iota
         end; try reflexivity.
Qed.

(** X22. A submission that goes through ends in a classification.  When
    the steps of [submit_credentials] (wait for the login input, fill the
    user name, fill the password, click, wait for the load, settle for half
    a second) all succeed, the result is what [detect_page_state] finds on
    the page then; likewise for [submit_2fa_code] on the first code input
    that is present.  When a step of [submit_credentials] fails instead,
    the result is [UNKNOWN] with the failure's text after
    [Error submitting credentials: ], and the fetcher is left as that step
    left it: nothing after it is attempted. *)
Theorem submissions_end_in_classification
    (self : LoginFetcher) (username password code : string) :
  _page self = true ->
  (forall settled,
     credentials_steps username password self = (Ok tt, settled) ->
     Fetcher.submit_credentials username password self
     = Fetcher.detect_page_state settled) /\
  (forall e stopped,
     credentials_steps username password self = (Raise e, stopped) ->
     Fetcher.submit_credentials username password self
     = (Ok (mkPageStateResult UNKNOWN (Some ("Error submitting credentials: " ++ e))
              None None),
        stopped)) /\
  (forall before selector after n settled,
     Sel.otp_selectors = (before ++ selector :: after)%list ->
     all_absent (driven self) before ->
     count (driven self) selector = Ok n -> (0 < n)%nat ->
     twofa_steps selector code self = (Ok tt, settled) ->
     Fetcher.submit_2fa_code code self = Fetcher.detect_page_state settled).
Proof.
  intros Hpage. split; [| split].
  - intros settled Hsteps.
    unfold Fetcher.submit_credentials, bind at 1, get_self. rewrite Hpage. cbn [negb].
    unfold try_except. rewrite credentials_steps_then, Hsteps, classification_returned.
    destruct (detect_page_state_returns settled) as [r Hr].
    destruct (Fetcher.detect_page_state settled) as [[r0 | e] s1]; [reflexivity |].
    discriminate.
  - intros e stopped Hsteps.
    unfold Fetcher.submit_credentials, bind at 1, get_self. rewrite Hpage. cbn [negb].
    unfold try_except. rewrite credentials_steps_then, Hsteps. reflexivity.
  - intros before selector after n settled Hsplit Hbefore Hcount Hn Hsteps.
    pose proof (first_present_found self before after selector n Hbefore Hcount Hn)
      as Hfound.
    rewrite <- Hsplit in Hfound.
    unfold Fetcher.submit_2fa_code, bind at 1, get_self. rewrite Hpage. cbn [negb].
    unfold try_except, bind at 1. rewrite Hfound.
    rewrite twofa_steps_then, Hsteps, classification_returned.
    destruct (detect_page_state_returns settled) as [r Hr].
    destruct (Fetcher.detect_page_state settled) as [[r0 | e] s1]; [reflexivity |].
    discriminate.
Qed.

End InputRules.


Lemma app_page_past_security_key :
  past_security_key (Fixture.started FixtureInputs.app_page).
Proof.
  split; [| split; reflexivity].
  split; [split; [reflexivity |]; split; [reflexivity |]; absent_now |].
  split; [reflexivity |]. absent_now.
Qed.

Lemma detect_page_state_code_inputs_witness :
  let self := Fixture.started FixtureInputs.app_page in
  past_security_key self /\
  has_2fa_text (Fixture.html FixtureInputs.app_page) = true /\
  Fetcher.detect_page_state_at 0 self
  = (Ok (mkPageStateResult TWOFA_APP None (Some "app") None), self).
Proof.
  intros self. split; [exact app_page_past_security_key |]. split; [reflexivity |].
  destruct (@detect_page_state_code_inputs Fixture.runtime 0 self
              app_page_past_security_key) as [_ Hrest].
  destruct (Hrest (Fixture.html FixtureInputs.app_page) eq_refl eq_refl) as [Htext _].
  destruct (Htext eq_refl) as [_ Hgeneric].
  apply (Hgeneric 1%nat); first [reflexivity | lia].
Defined.

(** Without the wording, the SMS input alone is not recognised. *)
Example bare_sms_input_is_unknown :
  fst (Fetcher.detect_page_state (Fixture.started FixtureInputs.bare_sms_input))
  = Ok (result_of UNKNOWN).
Proof. vm_compute. reflexivity. Qed.

Lemma mobile_option_page_past_captcha :
  past_captcha (Fixture.started FixtureElements.mobile_option_page).
Proof. split; [reflexivity |]. split; [reflexivity |]. absent_now. Qed.

Lemma key_button_page_past_mobile :
  past_mobile (Fixture.started FixtureElements.key_button_page).
Proof.
  split; [split; [reflexivity |]; split; [reflexivity |]; absent_now |].
  split; [reflexivity |]. absent_now.
Qed.

Lemma detect_page_state_by_element_witness :
  let mobile := Fixture.started FixtureElements.mobile_option_page in
  let key := Fixture.started FixtureElements.key_button_page in
  (past_captcha mobile /\
   Fetcher.detect_page_state_at 0 mobile
   = (Ok (mkPageStateResult TWOFA_MOBILE None (Some "mobile") None), mobile)) /\
  (past_mobile key /\
   Fetcher.detect_page_state_at 0 key
   = (Ok (mkPageStateResult TWOFA_SECURITY_KEY
            (Some "Security key 2FA not supported. Please configure authenticator app in GitHub settings.")
            (Some "security_key") None),
      key)).
Proof.
  intros mobile key. split.
  - split; [exact mobile_option_page_past_captcha |].
    destruct (@detect_page_state_by_element Fixture.runtime 0 mobile) as [Hmobile _].
    apply (Hmobile mobile_option_page_past_captcha eq_refl
             (firstn 1 Sel.mobile_indicators) "button[data-action*='mobile']"
             (skipn 2 Sel.mobile_indicators) 1%nat eq_refl);
      [absent_now | reflexivity | lia].
  - split; [exact key_button_page_past_mobile |].
    destruct (@detect_page_state_by_element Fixture.runtime 0 key) as [_ Hkey].
    apply (Hkey key_button_page_past_mobile eq_refl 1%nat); [reflexivity | lia].
Defined.

Lemma submissions_end_in_classification_witness :
  let self := Fixture.started Fixture.banner_only in
  _page self = true /\
  exists settled,
    credentials_steps "octocat" "hunter2" self = (Ok tt, settled) /\
    Fetcher.submit_credentials "octocat" "hunter2" self
    = Fetcher.detect_page_state settled.
Proof.
  intros self. split; [reflexivity |].
  destruct (@submissions_end_in_classification Fixture.runtime self
              "octocat" "hunter2" "123456" eq_refl) as [Hsettled _].
  eexists. split; [vm_compute; reflexivity |].
  apply Hsettled. vm_compute. reflexivity.
Defined.

Lemma missing_session_or_fetcher_witness :
  let m := @Registry.mkSessionManager Fixture.runtime
             {[ "s1" := FixtureSessions.session_in LoginState.WAITING_2FA ]} ∅ in
  (Registry.get_session "s2" m = None /\
   invoke 0 5 "s2" Cancel m = Some (Routes.session_not_found, m)) /\
  (Registry.get_fetcher "s1" m = None /\
   invoke 0 5 "s1" (SubmitTwoFactor "123456") m
   = Some (Routes.HTTPException 500 "No fetcher associated with session", m)).
Proof.
  intros m.
  destruct (@missing_session_or_fetcher Fixture.runtime 0 5 "s2" m) as [Hmissing _].
  destruct (@missing_session_or_fetcher Fixture.runtime 0 5 "s1" m) as [_ Hnofetcher].
  split.
  - split; [reflexivity |]. destruct (Hmissing eq_refl) as [_ Hops]. apply Hops.
  - split; [reflexivity |].
    destruct (Hnofetcher _ eq_refl eq_refl) as [Hops _]. apply Hops. reflexivity.
Defined.
